(** * Think-Bot: the research workflow

    A shallow embedding of the LangGraph workflow of [deep_researcher.py]
    and [deep_researcher_api.py] (clarify, plan, research, synthesise,
    write, critique, finalise), of the string processing done by its
    finalizer and of [create_research_page] of [notion_manager.py],
    followed by the properties of the workflow's control flow, error
    handling and report formatting.

    Python [str] values are modelled as [string]; one [ascii] stands for
    one character whose code point is below 256.  Python [int] values are
    modelled as [Z].  An exception is represented by its message
    ([str(e)]). *)

From Stdlib Require Import String Ascii List ZArith Lia Bool Arith.
From Stdlib Require Import DecimalString.
Import ListNotations.

Local Open Scope list_scope.
Local Open Scope string_scope.

(** ** Python string primitives used by the source *)

Module PyStr.

(** [chr(10)] *)
Definition nl : string := String (ascii_of_nat 10) EmptyString.

(** [str.isspace] on a single character with code point below 256. *)
Definition is_space (c : ascii) : bool :=
  let n := nat_of_ascii c in
  (((9 <=? n) && (n <=? 13)) || ((28 <=? n) && (n <=? 32))
   || (n =? 133) || (n =? 160))%nat.

(** [s.startswith(p)] *)
Definition startswith (p s : string) : bool := String.prefix p s.

(** [sub in s] *)
Fixpoint contains (sub s : string) : bool :=
  String.prefix sub s
  || match s with
     | EmptyString => false
     | String _ s' => contains sub s'
     end.

(** [s.split(sep)] for a non-empty separator.  [skip] counts the
    characters of a separator occurrence that are still to be consumed,
    [cur] is the piece being accumulated. *)
Fixpoint split_from (sep : string) (skip : nat) (cur s : string)
  : list string :=
  match s with
  | EmptyString => [cur]
  | String c s' =>
      match skip with
      | S k => split_from sep k cur s'
      | O =>
          if String.prefix sep s
          then cur :: split_from sep (String.length sep - 1) "" s'
          else split_from sep 0 (cur ++ String c "") s'
      end
  end.

Definition split (sep s : string) : list string := split_from sep 0 "" s.

(** [s.replace(old, new)] for a non-empty [old]: every occurrence,
    scanning left to right, occurrences do not overlap. *)
Fixpoint replace_from (old new : string) (skip : nat) (s : string)
  : string :=
  match s with
  | EmptyString => ""
  | String c s' =>
      match skip with
      | S k => replace_from old new k s'
      | O =>
          if String.prefix old s
          then new ++ replace_from old new (String.length old - 1) s'
          else String c (replace_from old new 0 s')
      end
  end.

Definition replace (old new s : string) : string :=
  replace_from old new 0 s.

(** [s.lstrip()], [s.rstrip()], [s.strip()] *)
Fixpoint lstrip (s : string) : string :=
  match s with
  | String c s' => if is_space c then lstrip s' else s
  | EmptyString => ""
  end.

Fixpoint rstrip (s : string) : string :=
  match s with
  | EmptyString => ""
  | String c s' =>
      match rstrip s' with
      | EmptyString => if is_space c then "" else String c ""
      | r => String c r
      end
  end.

Definition strip (s : string) : string := rstrip (lstrip s).

(** [s[:n]] *)
Fixpoint take (n : nat) (s : string) : string :=
  match n, s with
  | S k, String c s' => String c (take k s')
  | _, _ => ""
  end.

(** [sep.join(parts)] *)
Definition join (sep : string) (parts : list string) : string :=
  String.concat sep parts.

(** [c * n] for a one-character string *)
Fixpoint repeat_char (c : ascii) (n : nat) : string :=
  match n with
  | O => ""
  | S k => String c (repeat_char c k)
  end.

(** [str(n)] for a natural number and for an integer *)
Definition of_nat (n : nat) : string :=
  NilEmpty.string_of_uint (Nat.to_uint n).

Definition of_Z (z : Z) : string :=
  NilEmpty.string_of_int (Z.to_int z).

(** [l[0]]; the empty string stands for the [IndexError] that no caller
    below can trigger, [split] never returning the empty list. *)
Definition first (l : list string) : string := hd "" l.

End PyStr.

(** ** Exceptions and collaborator calls *)

(** A Python exception, represented by [str(e)].  Only exceptions derived
    from [Exception] are modelled. *)
Definition exn := string.

Inductive outcome (A : Type) : Type :=
| Ok (a : A)
| Raise (e : exn).
Arguments Ok {A} a.
Arguments Raise {A} e.

(** A computation that calls external collaborators.  The state is the
    number of collaborator calls made so far in the session: the [k]-th
    call may answer differently from the others, also on the same
    request. *)
Definition M (A : Type) : Type := nat -> outcome A * nat.

Definition ret {A} (a : A) : M A := fun k => (Ok a, k).

Definition bind {A B} (m : M A) (f : A -> M B) : M B :=
  fun k =>
    match m k with
    | (Ok a, k') => f a k'
    | (Raise e, k') => (Raise e, k')
    end.

(** [try: m  except Exception as e: h e] *)
Definition try_except {A} (m : M A) (h : exn -> M A) : M A :=
  fun k =>
    match m k with
    | (Ok a, k') => (Ok a, k')
    | (Raise e, k') => h e k'
    end.

(** One call of a collaborator whose [k]-th answer is [f k]. *)
Definition call {A} (f : nat -> outcome A) : M A := fun k => (f k, S k).

(** Lifting of a value that is either there or raises. *)
Definition lift {A} (o : outcome A) : M A := fun k => (o, k).

Declare Scope workflow_scope.
Delimit Scope workflow_scope with wf.
Notation "x <- m ;; f" := (bind m (fun x => f))
  (at level 61, m at next level, right associativity) : workflow_scope.
Local Open Scope workflow_scope.

(** ** The pydantic schemas of the structured responses *)

Module Schema.

Record ClarifyWithUser := {
  need_clarification : bool;
  question : string;
  verification : string
}.

Record ResearchQuestion := {
  research_brief : string;
  reasoning : string
}.

Record ResearchPlan := {
  search_queries : list string;
  key_topics : list string;
  planning_reasoning : string
}.

Record Critique := {
  needs_revision : bool;
  critique_reasoning : string;
  specific_issues : list string;
  improvements : list string
}.

(** The [schema_class] argument of [get_structured_response]. *)
Inductive schema_class :=
| CClarifyWithUser
| CResearchQuestion
| CResearchPlan
| CCritique.

Definition instance (c : schema_class) : Type :=
  match c with
  | CClarifyWithUser => ClarifyWithUser
  | CResearchQuestion => ResearchQuestion
  | CResearchPlan => ResearchPlan
  | CCritique => Critique
  end.

(** [schema_class.model_fields.items()], each annotation as an f-string
    prints it. *)
Definition model_fields (c : schema_class) : list (string * string) :=
  match c with
  | CClarifyWithUser =>
      [("need_clarification", "<class 'bool'>");
       ("question", "<class 'str'>");
       ("verification", "<class 'str'>")]
  | CResearchQuestion =>
      [("research_brief", "<class 'str'>"); ("reasoning", "<class 'str'>")]
  | CResearchPlan =>
      [("search_queries", "list[str]"); ("key_topics", "list[str]");
       ("planning_reasoning", "<class 'str'>")]
  | CCritique =>
      [("needs_revision", "<class 'bool'>");
       ("critique_reasoning", "<class 'str'>");
       ("specific_issues", "list[str]"); ("improvements", "list[str]")]
  end.

End Schema.
Import Schema.

(** ** The session state and the commands of the graph *)

(** A LangChain message: [msg.type] and [msg.content]. *)
Record message := { mtype : string; content : string }.
Definition HumanMessage (c : string) : message := {| mtype := "human"; content := c |}.
Definition AIMessage (c : string) : message := {| mtype := "ai"; content := c |}.

(** [AgentState].  A key that is absent from the dictionary is held as the
    default the node functions read it with ([state.get(key, default)]). *)
Record AgentState := {
  messages : list message;
  st_research_brief : string;
  st_search_queries : list string;
  st_key_topics : list string;
  raw_notes : list string;
  notes : list string;
  draft_report : string;
  critique_feedback : string;
  final_report : string;
  iteration_count : Z;
  notion_page_url : string
}.

(** The nodes of the graph; [END] is LangGraph's terminal node. *)
Inductive node :=
| n_clarify_with_user
| n_planner_agent
| n_researcher_agent
| n_synthesis_agent
| n_writer_agent
| n_critic_agent
| n_finalizer
| END.

(** One entry of the [update] dictionary of a [Command]. *)
Inductive field_update :=
| U_messages (ms : list message)
| U_research_brief (s : string)
| U_search_queries (l : list string)
| U_key_topics (l : list string)
| U_raw_notes (l : list string)
| U_notes (l : list string)
| U_draft_report (s : string)
| U_critique_feedback (s : string)
| U_final_report (s : string)
| U_iteration_count (z : Z)
| U_notion_page_url (s : string).

Record Command := { goto : node; update : list field_update }.

(** How the graph merges one entry into the state: [messages] has the
    [add_messages] reducer and is appended to, every other key is
    overwritten. *)
Definition apply_field (u : field_update) (st : AgentState) : AgentState :=
  match u with
  | U_messages ms =>
      {| messages := (messages st ++ ms)%list; st_research_brief := st_research_brief st;
         st_search_queries := st_search_queries st; st_key_topics := st_key_topics st;
         raw_notes := raw_notes st; notes := notes st; draft_report := draft_report st;
         critique_feedback := critique_feedback st; final_report := final_report st;
         iteration_count := iteration_count st; notion_page_url := notion_page_url st |}
  | U_research_brief s =>
      {| messages := messages st; st_research_brief := s;
         st_search_queries := st_search_queries st; st_key_topics := st_key_topics st;
         raw_notes := raw_notes st; notes := notes st; draft_report := draft_report st;
         critique_feedback := critique_feedback st; final_report := final_report st;
         iteration_count := iteration_count st; notion_page_url := notion_page_url st |}
  | U_search_queries l =>
      {| messages := messages st; st_research_brief := st_research_brief st;
         st_search_queries := l; st_key_topics := st_key_topics st;
         raw_notes := raw_notes st; notes := notes st; draft_report := draft_report st;
         critique_feedback := critique_feedback st; final_report := final_report st;
         iteration_count := iteration_count st; notion_page_url := notion_page_url st |}
  | U_key_topics l =>
      {| messages := messages st; st_research_brief := st_research_brief st;
         st_search_queries := st_search_queries st; st_key_topics := l;
         raw_notes := raw_notes st; notes := notes st; draft_report := draft_report st;
         critique_feedback := critique_feedback st; final_report := final_report st;
         iteration_count := iteration_count st; notion_page_url := notion_page_url st |}
  | U_raw_notes l =>
      {| messages := messages st; st_research_brief := st_research_brief st;
         st_search_queries := st_search_queries st; st_key_topics := st_key_topics st;
         raw_notes := l; notes := notes st; draft_report := draft_report st;
         critique_feedback := critique_feedback st; final_report := final_report st;
         iteration_count := iteration_count st; notion_page_url := notion_page_url st |}
  | U_notes l =>
      {| messages := messages st; st_research_brief := st_research_brief st;
         st_search_queries := st_search_queries st; st_key_topics := st_key_topics st;
         raw_notes := raw_notes st; notes := l; draft_report := draft_report st;
         critique_feedback := critique_feedback st; final_report := final_report st;
         iteration_count := iteration_count st; notion_page_url := notion_page_url st |}
  | U_draft_report s =>
      {| messages := messages st; st_research_brief := st_research_brief st;
         st_search_queries := st_search_queries st; st_key_topics := st_key_topics st;
         raw_notes := raw_notes st; notes := notes st; draft_report := s;
         critique_feedback := critique_feedback st; final_report := final_report st;
         iteration_count := iteration_count st; notion_page_url := notion_page_url st |}
  | U_critique_feedback s =>
      {| messages := messages st; st_research_brief := st_research_brief st;
         st_search_queries := st_search_queries st; st_key_topics := st_key_topics st;
         raw_notes := raw_notes st; notes := notes st; draft_report := draft_report st;
         critique_feedback := s; final_report := final_report st;
         iteration_count := iteration_count st; notion_page_url := notion_page_url st |}
  | U_final_report s =>
      {| messages := messages st; st_research_brief := st_research_brief st;
         st_search_queries := st_search_queries st; st_key_topics := st_key_topics st;
         raw_notes := raw_notes st; notes := notes st; draft_report := draft_report st;
         critique_feedback := critique_feedback st; final_report := s;
         iteration_count := iteration_count st; notion_page_url := notion_page_url st |}
  | U_iteration_count z =>
      {| messages := messages st; st_research_brief := st_research_brief st;
         st_search_queries := st_search_queries st; st_key_topics := st_key_topics st;
         raw_notes := raw_notes st; notes := notes st; draft_report := draft_report st;
         critique_feedback := critique_feedback st; final_report := final_report st;
         iteration_count := z; notion_page_url := notion_page_url st |}
  | U_notion_page_url s =>
      {| messages := messages st; st_research_brief := st_research_brief st;
         st_search_queries := st_search_queries st; st_key_topics := st_key_topics st;
         raw_notes := raw_notes st; notes := notes st; draft_report := draft_report st;
         critique_feedback := critique_feedback st; final_report := final_report st;
         iteration_count := iteration_count st; notion_page_url := s |}
  end.

Definition apply_update (us : list field_update) (st : AgentState) : AgentState :=
  fold_left (fun acc u => apply_field u acc) us st.

(** The state a caller starts a session with:
    [{"messages": msgs, "iteration_count": 0}]. *)
Definition initial_state (msgs : list message) : AgentState :=
  {| messages := msgs; st_research_brief := ""; st_search_queries := [];
     st_key_topics := []; raw_notes := []; notes := []; draft_report := "";
     critique_feedback := ""; final_report := ""; iteration_count := 0%Z;
     notion_page_url := "" |}.

(** ** The external collaborators *)

(** The object returned by [model.generate_content]; reading [.text] may
    itself raise. *)
Record Response := { text : outcome string }.

(** One element of the list returned by [search_tool.invoke]: a dictionary,
    seen through [result.get('content', '')] and [result.get('url', '')],
    or some other value, seen through [str(result)]. *)
Inductive search_item :=
| DictItem (item_content item_url : string)
| OtherItem (repr : string).

(** The value returned by [search_tool.invoke]: a list, or some other
    value seen through the way an f-string prints it. *)
Inductive search_results :=
| ResultList (items : list search_item)
| ResultOther (repr : string).

(** The arguments of [create_research_page]. *)
Record page_request := {
  pr_title : string;
  pr_research_brief : string;
  pr_report_content : string;
  pr_sources_count : nat;
  pr_key_topics : list string
}.

(** The page object returned by [notion.pages.create]. *)
Record page := { page_id : string; page_url : string }.

(** The dictionary returned by [create_research_page]. *)
Inductive page_result :=
| PageSuccess (id url title : string)
| PageFailure (error : string).

(** The two variants of the workflow: [deep_researcher.py] prints its
    progress, [deep_researcher_api.py] appends it to [messages].  The
    progress texts of the second hold non-ASCII characters as their UTF-8
    bytes; they are only passed along. *)
Inductive variant := Cli | Api.

(** Everything the workflow does not compute itself.  Each collaborator
    answers as a function of the number of calls made before, so that any
    sequence of answers and failures is some environment.
    - [generate_content]: [model.generate_content];
    - [json_loads], [model_validate]: [json.loads] and the pydantic
      constructor of [schema_class] applied to the decoded dictionary,
      [None] standing for any
      exception they raise;
    - [search_invoke]: [search_tool.invoke];
    - [notion_import]: [from notion_manager import create_research_page];
    - [pages_create]: the body of the [try] of [create_research_page],
      which builds the page and calls [notion.pages.create];
    - [now]: [datetime.now().strftime('%Y-%m-%d %H:%M:%S')];
    - [set_list]: [list(set(l))], some enumeration without repetition of
      the elements of [l]. *)
Record Env := {
  generate_content : nat -> string -> outcome Response;
  Json : Type;
  json_loads : string -> option Json;
  model_validate : forall c : schema_class, Json -> option (instance c);
  search_invoke : nat -> string -> outcome search_results;
  notion_import : nat -> outcome unit;
  pages_create : nat -> page_request -> outcome page;
  now : nat -> string;
  set_list : list string -> list string;
  set_list_NoDup : forall l, NoDup (set_list l);
  set_list_In : forall l x, In x (set_list l) <-> In x l
}.

Definition clock (E : Env) : M string := fun k => (Ok (now E k), k).

(** What a node adds to its update in the [Api] variant. *)
Definition progress (v : variant) (c : string) : list field_update :=
  match v with
  | Cli => []
  | Api => [U_messages [AIMessage c]]
  end.

(** ** [get_structured_response] *)

Definition schema_str (c : schema_class) : string :=
  PyStr.join PyStr.nl
    (map (fun kv => "- " ++ fst kv ++ ": " ++ snd kv) (model_fields c)).

(** The text between the code fences, [None] standing for an
    [IndexError]. *)
Definition fenced (json_text : string) : option string :=
  if PyStr.contains "```json" json_text then
    match nth_error (PyStr.split "```json" json_text) 1 with
    | Some rest => nth_error (PyStr.split "```" rest) 0
    | None => None
    end
  else if PyStr.contains "```" json_text then
    match nth_error (PyStr.split "```" json_text) 1 with
    | Some rest => nth_error (PyStr.split "```" rest) 0
    | None => None
    end
  else Some json_text.

(** The [except:] branch. *)
Definition safe_default (prompt : string) (c : schema_class) : instance c :=
  match c with
  | CClarifyWithUser =>
      {| need_clarification := true;
         question := "Could you provide more details?";
         verification := "" |}
  | CResearchQuestion => {| research_brief := prompt; reasoning := "" |}
  | CResearchPlan =>
      {| search_queries := ["general search"]; key_topics := ["main topic"];
         planning_reasoning := "" |}
  | CCritique =>
      {| needs_revision := false; critique_reasoning := "";
         specific_issues := []; improvements := [] |}
  end.

(** The [try] branch: [None] when any of its steps raises. *)
Definition parse_response (E : Env) (c : schema_class) (response : Response)
  : option (instance c) :=
  match text response with
  | Raise _ => None
  | Ok json_text =>
      match fenced json_text with
      | None => None
      | Some json_text =>
          match json_loads E (PyStr.strip json_text) with
          | None => None
          | Some data => model_validate E c data
          end
      end
  end.

Definition full_prompt (prompt : string) (c : schema_class) : string :=
  prompt ++ PyStr.nl ++ PyStr.nl
  ++ "Respond in JSON format with these fields:" ++ PyStr.nl ++ schema_str c.

Definition get_structured_response (E : Env) (prompt : string)
  (c : schema_class) : M (instance c) :=
  response <- call (fun k => generate_content E k (full_prompt prompt c)) ;;
  ret (match parse_response E c response with
       | Some v => v
       | None => safe_default prompt c
       end).

(** ** The texts of the prompts and of the report *)

(** ['=' * 70] *)
Definition rule70 : string := PyStr.repeat_char "=" 70.

(** [prompt] of [clarify_with_user] *)
Definition clarify_prompt (conversation : string) : string :=
  "Analyze this conversation: "
  ++ conversation
  ++ "

Think step by step:
1. Is the research request clear and specific?
2. What key information might be missing?
3. Can research begin or do we need clarification?

Determine if there is sufficient information to begin research.
If information is missing, ask ONE specific clarifying question.
If sufficient information exists, provide a verification message.".

(** [brief_prompt] of [planner_agent] *)
Definition brief_prompt (conversation : string) : string :=
  "Transform this conversation into a clear research brief: "
  ++ conversation
  ++ "

Think step by step:
1. What is the core research question?
2. What are the key focus areas?
3. What is the scope and boundaries?

The research brief should clearly state the research question, specify key focus areas, and define scope.".

(** [plan_prompt] of [planner_agent] *)
Definition plan_prompt (research_brief : string) : string :=
  "Create a research plan for: "
  ++ research_brief
  ++ "

Think step by step:
1. What topics need to be covered comprehensively?
2. What specific search queries will find the best information?
3. How should queries be structured for maximum relevance?

Generate 5-7 specific search queries and identify key topics.".

(** [synthesis_prompt] of [synthesis_agent] *)
Definition synthesis_prompt (research_brief : string) (key_topics raw_notes : list string) : string :=
  "Research Brief: "
  ++ research_brief
  ++ "
Key Topics: "
  ++ (PyStr.join ", " key_topics)
  ++ "
Raw Research Data:
"
  ++ (PyStr.join PyStr.nl raw_notes)
  ++ "

Think step by step:
1. What are the main themes and patterns in this data?
2. What specific facts, numbers, names, and examples are most valuable?
3. How should this information be organized for clarity?
4. What actionable details must be preserved?

Synthesize this information into comprehensive, well-structured notes.
Extract ALL specific, actionable details including:
- Names of companies, products, people, places, organizations
- Exact numbers, statistics, dates, prices, measurements
- Addresses, locations, contact information
- URLs, website links, booking platforms
- Step-by-step processes or instructions
- Pros and cons, comparisons, rankings
- Expert recommendations and best practices
- Time-sensitive information (hours, schedules, deadlines)

Organize the notes by topic and preserve all specific details that would be useful to someone acting on this research.".

(** [feedback_section] of [writer_agent] when there is feedback *)
Definition feedback_section_text (critique_feedback : string) : string :=
  "

PREVIOUS CRITIQUE TO ADDRESS:
"
  ++ critique_feedback
  ++ "

Please revise the report addressing all critique points.".

(** [report_prompt] of [writer_agent] *)
Definition report_prompt (research_brief : string) (notes : list string) (feedback_section : string) : string :=
  "You are an expert research analyst creating a comprehensive report.

Research Brief: "
  ++ research_brief
  ++ "

Synthesized Research Notes:
"
  ++ (PyStr.join PyStr.nl notes)
  ++ "
"
  ++ feedback_section
  ++ "

Think step by step:
1. What is the best structure to present this information clearly?
2. What are the most important findings to highlight?
3. How can I make this maximally actionable and detailed?
4. Have I included all specific data points and examples?

Create a detailed, actionable research report with the following structure:

1. TITLE: Create a clear, descriptive title

2. EXECUTIVE SUMMARY: Provide a concise 3-4 sentence overview of the research findings

3. KEY FINDINGS: List 7-10 most important discoveries with specific details (names, numbers, links)

4. DETAILED ANALYSIS: Write 5-7 comprehensive paragraphs organized by themes/topics. Include:
   - All specific names, brands, products, services mentioned
   - Exact numbers, prices, statistics, percentages
   - Step-by-step processes or how-to information
   - Comparisons and rankings
   - Expert opinions and recommendations
   - Time-sensitive details (dates, schedules, hours)
   - Contact information and locations where relevant

5. PRACTICAL RECOMMENDATIONS: Provide 5-7 actionable next steps or recommendations based on the research

6. IMPORTANT RESOURCES: List specific websites, tools, platforms, or contacts discovered

7. CONCLUSION: Summarize key takeaways and final thoughts

Make the report comprehensive and include every useful specific detail from the research. Format it clearly with proper sections.".

(** [critique_prompt] of [critic_agent] *)
Definition critique_prompt (research_brief draft_report : string) : string :=
  "You are a critical reviewer evaluating a research report for quality, completeness, and actionability.

Research Brief: "
  ++ research_brief
  ++ "

Draft Report:
"
  ++ draft_report
  ++ "

Think step by step (reflection):
1. Does this report fully answer the research question with sufficient depth?
2. Are there any missing details, information gaps, or unclear sections?
3. Is the structure logical, well-organized, and easy to follow?
4. Are specific examples, data points, numbers, and sources provided throughout?
5. Is this report actionable with concrete recommendations?
6. Does it meet professional research report standards?

Evaluate the report and determine if revision is needed. Be thorough but fair.".

(** [feedback] of [critic_agent] *)
Definition feedback_text (critique : Critique) : string :=
  "Issues identified:
"
  ++ (PyStr.join PyStr.nl (map (fun issue => "- " ++ issue) (specific_issues critique)))
  ++ "

Improvements needed:
"
  ++ (PyStr.join PyStr.nl (map (fun imp => "- " ++ imp) (improvements critique)))
  ++ "

Reasoning: "
  ++ (critique_reasoning critique).

(** [formatted_report] of [finalizer] up to the list of sources *)
Definition report_head (draft_report : string) : string :=
  "
"
  ++ rule70
  ++ "
AI DEEP RESEARCHER - COMPREHENSIVE REPORT
"
  ++ rule70
  ++ "

"
  ++ draft_report
  ++ "

"
  ++ rule70
  ++ "
SOURCES CONSULTED
"
  ++ rule70
  ++ "
".

(** [formatted_report] of [finalizer] after the list of sources *)
Definition report_tail (now : string) (raw_notes : list string) (iteration : Z) : string :=
  "
"
  ++ rule70
  ++ "
Report Generated: "
  ++ now
  ++ "
Research Quality: "
  ++ (PyStr.of_nat (List.length raw_notes))
  ++ " sources analyzed
Reflection Iterations: "
  ++ (PyStr.of_Z iteration)
  ++ "
System: Multi-Agent with Reflection & Chain of Thought
"
  ++ rule70.

(** ** The nodes of the graph *)

(** Truth value of a string in a condition: it is not empty. *)
Definition truthy (s : string) : bool := negb (s =? "").

(** ["\n".join([f"{msg.type}: {msg.content}" for msg in messages])] *)
Definition conversation_of (msgs : list message) : string :=
  PyStr.join PyStr.nl (map (fun msg => mtype msg ++ ": " ++ content msg) msgs).

Definition clarify_with_user (v : variant) (E : Env) (state : AgentState)
  : M Command :=
  let conversation := conversation_of (messages state) in
  let prompt := clarify_prompt conversation in
  response <- get_structured_response E prompt CClarifyWithUser ;;
  ret (if need_clarification response
       then {| goto := END;
               update := [U_messages [AIMessage (question response)]] |}
       else {| goto := n_planner_agent;
               update :=
                 [U_messages
                    [AIMessage
                       match v with
                       | Cli => verification response
                       | Api => "✅ " ++ verification response ++ PyStr.nl
                                ++ PyStr.nl ++ "🔍 Starting research..."
                       end]] |}).

Definition planner_agent (v : variant) (E : Env) (state : AgentState)
  : M Command :=
  let conversation := conversation_of (messages state) in
  response <- get_structured_response E (brief_prompt conversation)
                CResearchQuestion ;;
  plan <- get_structured_response E (plan_prompt (research_brief response))
            CResearchPlan ;;
  let progress_msg :=
    "📋 **Research Brief Created**

" ++ research_brief response ++ "

**Research Plan:**
- " ++ PyStr.of_nat (List.length (search_queries plan)) ++ " search queries prepared
- " ++ PyStr.of_nat (List.length (key_topics plan)) ++ " key topics identified

Moving to research phase..." in
  ret {| goto := n_researcher_agent;
         update := U_research_brief (research_brief response)
                   :: U_search_queries (search_queries plan)
                   :: U_key_topics (key_topics plan)
                   :: progress v progress_msg |}.

(** The notes one search result contributes. *)
Definition notes_of_item (result : search_item) : list string :=
  let content :=
    match result with DictItem c _ => c | OtherItem r => r end in
  let url :=
    match result with DictItem _ u => u | OtherItem _ => "" end in
  if truthy content then ["Source: " ++ url ++ PyStr.nl ++ content] else [].

Definition notes_of_results (results : search_results) : list string :=
  match results with
  | ResultList items => flat_map notes_of_item items
  | ResultOther repr => ["Query result:" ++ PyStr.nl ++ repr]
  end.

(** The loop over [enumerate(search_queries, 1)], the call of the search
    being what can raise in its [try].  [progress_msg] is the text the
    [Api] variant accumulates; the [Cli] variant prints instead. *)
Fixpoint research_loop (E : Env) (i : nat) (queries : list string)
  (raw_notes : list string) (progress_msg : string)
  : M (list string * string) :=
  match queries with
  | [] => ret (raw_notes, progress_msg)
  | query :: rest =>
      let progress_msg :=
        progress_msg ++ "• Query " ++ PyStr.of_nat i ++ ": " ++ query
        ++ PyStr.nl in
      acc <- try_except
               (results <- call (fun k => search_invoke E k query) ;;
                ret ((raw_notes ++ notes_of_results results)%list,
                     progress_msg))
               (fun e =>
                  ret (raw_notes,
                       progress_msg ++ "  ⚠️ Error: " ++ e ++ PyStr.nl)) ;;
      research_loop E (S i) rest (fst acc) (snd acc)
  end.

Definition researcher_agent (v : variant) (E : Env) (state : AgentState)
  : M Command :=
  let search_queries := st_search_queries state in
  let progress_msg :=
    "🔎 **Researching...** Executing "
    ++ PyStr.of_nat (List.length search_queries) ++ " search queries"
    ++ PyStr.nl ++ PyStr.nl in
  acc <- research_loop E 1 search_queries [] progress_msg ;;
  let raw_notes := fst acc in
  let progress_msg :=
    snd acc ++ PyStr.nl ++ "✅ Research complete! Collected data from "
    ++ PyStr.of_nat (List.length raw_notes) ++ " sources" in
  ret {| goto := n_synthesis_agent;
         update := U_raw_notes raw_notes :: progress v progress_msg |}.

Definition synthesis_agent (v : variant) (E : Env) (state : AgentState)
  : M Command :=
  let research_brief := st_research_brief state in
  let key_topics := st_key_topics state in
  let raw_notes := raw_notes state in
  let synthesis_prompt := synthesis_prompt research_brief key_topics raw_notes in
  synthesized <- call (fun k => generate_content E k synthesis_prompt) ;;
  synthesized_text <- lift (text synthesized) ;;
  let notes := [synthesized_text] in
  ret {| goto := n_writer_agent;
         update :=
           U_notes notes
           :: progress v "📝 **Synthesizing findings...** Analyzing and organizing research data" |}.

(** [report_text] of [writer_agent] when the generation raises [e]. *)
Definition writer_fallback (e : exn) (notes : list string) : string :=
  "Error generating report: " ++ e ++ PyStr.nl ++ PyStr.nl ++ "Raw Notes:"
  ++ PyStr.nl ++ PyStr.join PyStr.nl notes.

Definition writer_agent (v : variant) (E : Env) (state : AgentState)
  : M Command :=
  let research_brief := st_research_brief state in
  let notes := notes state in
  let critique_feedback := critique_feedback state in
  let feedback_section :=
    if truthy critique_feedback
    then feedback_section_text critique_feedback
    else "" in
  let report_prompt := report_prompt research_brief notes feedback_section in
  report_text <-
    try_except
      (response <- call (fun k => generate_content E k report_prompt) ;;
       lift (text response))
      (fun e => ret (writer_fallback e notes)) ;;
  ret {| goto := n_critic_agent;
         update :=
           U_draft_report report_text
           :: progress v "✍️ **Writing report...** Creating comprehensive analysis" |}.

Definition MAX_ITERATIONS : Z := 2.

Definition critic_agent (v : variant) (E : Env) (state : AgentState)
  : M Command :=
  let research_brief := st_research_brief state in
  let draft_report := draft_report state in
  let iteration := iteration_count state in
  let critique_prompt := critique_prompt research_brief draft_report in
  critique <- get_structured_response E critique_prompt CCritique ;;
  ret (if needs_revision critique && (iteration <? MAX_ITERATIONS)%Z
       then
         let feedback := feedback_text critique in
         {| goto := n_writer_agent;
            update :=
              U_critique_feedback feedback
              :: U_iteration_count (iteration + 1)
              :: progress v ("🔄 **Refining report...** (Revision "
                             ++ PyStr.of_Z (iteration + 1) ++ "/"
                             ++ PyStr.of_Z MAX_ITERATIONS ++ ")") |}
       else
         {| goto := n_finalizer;
            update :=
              progress v "✅ **Report approved!** Finalizing and saving to Notion..." |}).

(** ** The finalizer *)

(** [list(set([note.split('\n')[0].replace('Source: ', '')
               for note in raw_notes if note.startswith('Source:')]))] *)
Definition source_of_note (note : string) : string :=
  PyStr.replace "Source: " "" (PyStr.first (PyStr.split PyStr.nl note)).

Definition sources_of (E : Env) (raw_notes : list string) : list string :=
  set_list E
    (map source_of_note (filter (PyStr.startswith "Source:") raw_notes)).

(** The lines appended by the loop over [enumerate(sources[:25], 1)],
    from index [i] on. *)
Fixpoint source_lines (i : nat) (sources : list string) : string :=
  match sources with
  | [] => ""
  | source :: rest =>
      PyStr.of_nat i ++ ". " ++ source ++ PyStr.nl ++ source_lines (S i) rest
  end.

Definition listed_sources (sources : list string) : list string :=
  firstn 25 sources.

Definition formatted_report (now : string) (draft_report : string)
  (raw_notes sources : list string) (iteration : Z) : string :=
  report_head draft_report
  ++ source_lines 1 (listed_sources sources)
  ++ report_tail now raw_notes iteration.

(** The test of the title loop on a line that has been stripped. *)
Definition title_candidate (line : string) : bool :=
  truthy line
  && negb (PyStr.startswith "=" line)
  && negb (PyStr.startswith "#" line)
  && (10 <? String.length line)%nat.

(** The loop [for line in title_lines[:10]] with its [break]; [title] is
    the value the variable has when the loop starts. *)
Fixpoint title_loop (lines : list string) (title : string) : string :=
  match lines with
  | [] => title
  | line :: rest =>
      let line := PyStr.strip line in
      if title_candidate line then PyStr.take 100 line
      else title_loop rest title
  end.

Definition extract_title (draft_report : string) : string :=
  let title_lines := PyStr.split PyStr.nl draft_report in
  title_loop (firstn 10 title_lines) "Research Report".

(** [create_research_page] of [notion_manager.py]: whatever its [try]
    raises becomes a failure dictionary. *)
Definition create_research_page (E : Env) (request : page_request)
  : M page_result :=
  try_except
    (page <- call (fun k => pages_create E k request) ;;
     ret (PageSuccess (page_id page) (page_url page) (pr_title request)))
    (fun e => ret (PageFailure e)).

(** The request the finalizer sends to the archive. *)
Definition archive_request (E : Env) (now : string) (state : AgentState)
  : page_request :=
  let sources := sources_of E (raw_notes state) in
  {| pr_title := extract_title (draft_report state);
     pr_research_brief := st_research_brief state;
     pr_report_content :=
       formatted_report now (draft_report state) (raw_notes state) sources
         (iteration_count state);
     pr_sources_count := List.length sources;
     pr_key_topics := st_key_topics state |}.

(** The [try] of the finalizer: [(notion_url, notion_status)]. The status
    text is used by the [Api] variant only; the [Cli] variant prints. *)
Definition archive (E : Env) (request : page_request) : M (string * string) :=
  try_except
    (_ <- call (notion_import E) ;;
     result <- create_research_page E request ;;
     ret (match result with
          | PageSuccess _ url _ =>
              (url,
               "✅ **Saved to Notion!**" ++ PyStr.nl ++ PyStr.nl
               ++ "📄 [Open Report in Notion](" ++ url ++ ")")
          | PageFailure error =>
              ("", "⚠️ Failed to save to Notion: " ++ error)
          end))
    (fun e => ret ("", "⚠️ Notion integration error: " ++ e)).

Definition finalizer (v : variant) (E : Env) (state : AgentState)
  : M Command :=
  now <- clock E ;;
  let request := archive_request E now state in
  let formatted_report := pr_report_content request in
  saved <- archive E request ;;
  let notion_url := fst saved in
  let notion_status := snd saved in
  let final_message :=
    notion_status ++ "

---

" ++ formatted_report in
  ret {| goto := END;
         update :=
           U_final_report formatted_report
           :: U_notion_page_url notion_url
           :: progress v final_message |}.

(** ** The graph *)

Definition run_node (v : variant) (E : Env) (n : node) (state : AgentState)
  : M Command :=
  match n with
  | n_clarify_with_user => clarify_with_user v E state
  | n_planner_agent => planner_agent v E state
  | n_researcher_agent => researcher_agent v E state
  | n_synthesis_agent => synthesis_agent v E state
  | n_writer_agent => writer_agent v E state
  | n_critic_agent => critic_agent v E state
  | n_finalizer => finalizer v E state
  | END => ret {| goto := END; update := [] |}
  end.

(** A point of a session: the node to run next, the state, and the number
    of collaborator calls made so far. *)
Definition config : Type := node * AgentState * nat.

(** One node runs and the graph merges its update; [None] when the node
    raises. *)
Definition step (v : variant) (E : Env) (c : config) : option config :=
  let '(n, state, k) := c in
  match run_node v E n state k with
  | (Ok cmd, k') => Some (goto cmd, apply_update (update cmd) state, k')
  | (Raise _, _) => None
  end.

(** The points a session started by [workflow.invoke] goes through. *)
Inductive reachable (v : variant) (E : Env) (msgs : list message)
  : config -> Prop :=
| reach_start :
    reachable v E msgs (n_clarify_with_user, initial_state msgs, 0)
| reach_step c c' :
    reachable v E msgs c ->
    fst (fst c) <> END ->
    step v E c = Some c' ->
    reachable v E msgs c'.

(** What the caller of [workflow.invoke] gets. *)
Inductive invoke_result :=
| Returned (state : AgentState)
| Raised (e : exn)
| RecursionLimit.

(** [run] follows the [goto]s for at most [fuel] nodes and records the
    nodes it ran. *)
Fixpoint run (v : variant) (E : Env) (fuel : nat) (n : node)
  (state : AgentState) (k : nat) : invoke_result * list node :=
  match n with
  | END => (Returned state, [])
  | _ =>
      match fuel with
      | O => (RecursionLimit, [])
      | S fuel' =>
          match run_node v E n state k with
          | (Raise e, _) => (Raised e, [n])
          | (Ok cmd, k') =>
              let r :=
                run v E fuel' (goto cmd) (apply_update (update cmd) state) k' in
              (fst r, n :: snd r)
          end
      end
  end.

(** LangGraph's default [recursion_limit]. *)
Definition recursion_limit : nat := 25.

(** [workflow.invoke({"messages": msgs, "iteration_count": 0})], with the
    nodes that ran. *)
Definition workflow_trace (v : variant) (E : Env) (msgs : list message)
  : invoke_result * list node :=
  run v E recursion_limit n_clarify_with_user (initial_state msgs) 0.

Definition workflow_invoke (v : variant) (E : Env) (msgs : list message)
  : invoke_result :=
  fst (workflow_trace v E msgs).

(** The two things the caller can be handed: a state with a final report,
    or a state whose last message is a question of the assistant and in
    which no research has started. *)
Definition has_final_report (state : AgentState) : bool :=
  truthy (final_report state).

Definition awaits_clarification (state : AgentState) : bool :=
  match rev (messages state) with
  | last :: _ =>
      (mtype last =? "ai") && negb (truthy (st_research_brief state))
      && negb (truthy (final_report state))
  | [] => false
  end.

(** ** The title policy as the specification words it *)

(** The part of [title_candidate] the specification applies to a line that
    is already known not to be empty. *)
Definition spec_title_line (line : string) : bool :=
  negb (PyStr.startswith "=" line)
  && negb (PyStr.startswith "#" line)
  && (10 <? String.length line)%nat.

Definition spec_pick_title (lines : list string) : string :=
  match find spec_title_line lines with
  | Some line => PyStr.take 100 line
  | None => "Research Report"
  end.

(** Follows the specification: scan the first 10 non-empty lines of the
    draft, skip the lines that start with a marker, pick the first
    remaining line longer than 10 characters, truncate it to 100
    characters, or fall back to the default title.  A line counts as
    non-empty when it is so after stripping. *)
Definition spec_extract_title (draft_report : string) : string :=
  let lines := map PyStr.strip (PyStr.split PyStr.nl draft_report) in
  spec_pick_title (firstn 10 (filter truthy lines)).

(** The same, a line counting as non-empty when it has any character. *)
Definition spec_extract_title_raw (draft_report : string) : string :=
  let lines := filter truthy (PyStr.split PyStr.nl draft_report) in
  spec_pick_title (map PyStr.strip (firstn 10 lines)).

(** ** Conditions on the collaborators used by the scenarios *)

(** The model answers every request with a readable text. *)
Definition llm_answers (E : Env) : Prop :=
  forall k p, exists t, generate_content E k p = Ok {| text := Ok t |}.

(** The clarification stage never asks. *)
Definition clarify_proceeds (E : Env) : Prop :=
  forall k p, exists c,
    fst (get_structured_response E p CClarifyWithUser k) = Ok c
    /\ need_clarification c = false.

(** The critique asks for a revision on every invocation. *)
Definition always_needs_revision (E : Env) : Prop :=
  forall k p, exists c,
    fst (get_structured_response E p CCritique k) = Ok c
    /\ needs_revision c = true.

(** The generation of the report fails with [e] at call [k]: the call
    raises, or reading the text of its answer does. *)
Definition generation_raises (E : Env) (k : nat) (prompt : string) (e : exn)
  : Prop :=
  generate_content E k prompt = Raise e
  \/ exists response,
       generate_content E k prompt = Ok response /\ text response = Raise e.

(** The archive fails on the call made at [k]: the import raises, or the
    creation of the page does, which [create_research_page] turns into a
    failure dictionary. *)
Definition archive_fails (E : Env) (k : nat) (request : page_request) : Prop :=
  (exists e, notion_import E k = Raise e)
  \/ (exists e, pages_create E (S k) request = Raise e).

(** ** Views used by the proofs *)

(** The command of the critic, given the critique. *)
Definition critic_command (v : variant) (state : AgentState)
  (critique : Critique) : Command :=
  if needs_revision critique && (iteration_count state <? MAX_ITERATIONS)%Z
  then
    {| goto := n_writer_agent;
       update :=
         U_critique_feedback (feedback_text critique)
         :: U_iteration_count (iteration_count state + 1)
         :: progress v ("🔄 **Refining report...** (Revision "
                        ++ PyStr.of_Z (iteration_count state + 1) ++ "/"
                        ++ PyStr.of_Z MAX_ITERATIONS ++ ")") |}
  else
    {| goto := n_finalizer;
       update :=
         progress v "✅ **Report approved!** Finalizing and saving to Notion..." |}.

(** A step that leaves the revision counter as it is. *)
Definition same_count (state state' : AgentState) : Prop :=
  iteration_count state' = iteration_count state.

(** The error [e] is a failure of the text-generation collaborator. *)
Definition model_error (E : Env) (e : exn) : Prop :=
  exists k p, generation_raises E k p e.

(** What the caller of the workflow can get: a state with a final report
    or with a clarifying question, or an error, which is then an error of
    the text-generation collaborator; never the recursion limit. *)
Definition invoke_outcome (E : Env) (r : invoke_result) : Prop :=
  match r with
  | Returned state =>
      has_final_report state = true \/ awaits_clarification state = true
  | Raised e => model_error E e
  | RecursionLimit => False
  end.

Definition is_writer (n : node) : bool :=
  match n with n_writer_agent => true | _ => false end.

(** The number of times the writer ran in a trace. *)
Definition writer_invocations (trace : list node) : nat :=
  List.length (filter is_writer trace).

(** The state a run returned, the initial state standing for the runs
    that returned none. *)
Definition returned_state (r : invoke_result) : AgentState :=
  match r with
  | Returned state => state
  | _ => initial_state []
  end.

(** ** Concrete collaborators *)

Module Scenario.

(** A decoder that knows the documents the scripted models emit.  The
    documents [revise] and [accept] carry the fields of every schema;
    each schema takes its own and ignores the others. *)
Definition validate (c : schema_class) (data : string)
  : option (instance c) :=
  if data =? "ask" then
    match c return option (instance c) with
    | CClarifyWithUser =>
        Some {| need_clarification := true;
                question := "Which region do you mean?";
                verification := "" |}
    | _ => None
    end
  else if (data =? "revise") || (data =? "accept") then
    Some
      match c return instance c with
      | CClarifyWithUser =>
          {| need_clarification := false; question := "";
             verification := "The request is clear." |}
      | CResearchQuestion =>
          {| research_brief := "Hiking trails near Denver";
             reasoning := "" |}
      | CResearchPlan =>
          {| search_queries := ["denver hiking trails"];
             key_topics := ["trails"]; planning_reasoning := "" |}
      | CCritique =>
          if data =? "revise" then
            {| needs_revision := true; critique_reasoning := "too thin";
               specific_issues := ["no distances"];
               improvements := ["add distances"] |}
          else
            {| needs_revision := false; critique_reasoning := "";
               specific_issues := []; improvements := [] |}
      end
  else None.

Definition make (llm : nat -> string -> outcome Response)
  (search : nat -> string -> outcome search_results)
  (import : nat -> outcome unit)
  (pages : nat -> page_request -> outcome page) : Env :=
  {| generate_content := llm;
     Json := string;
     json_loads := fun s => if s =? "" then None else Some s;
     model_validate := validate;
     search_invoke := search;
     notion_import := import;
     pages_create := pages;
     now := fun _ => "2025-01-01 12:00:00";
     set_list := nodup string_dec;
     set_list_NoDup := NoDup_nodup string_dec;
     set_list_In := nodup_In string_dec |}.

Definition say (t : string) : outcome Response := Ok {| text := Ok t |}.

(** The answer of a model that puts the document [doc] between code
    fences, after a line of text. *)
Definition answer (doc : string) : string :=
  "Denver Foothills Trail Guide" ++ PyStr.nl ++ "```json" ++ PyStr.nl
  ++ doc ++ PyStr.nl ++ "```".

(** A model that gives the same answer to every request. *)
Definition llm (doc : string) (k : nat) (p : string) : outcome Response :=
  say (answer doc).

Definition llm_down (k : nat) (p : string) : outcome Response :=
  Raise "503 Service Unavailable".

(** The model fails on the collaborator call number 4 of the session;
    with one search query, that is the call of the synthesis. *)
Definition llm_down_at_synthesis (k : nat) (p : string)
  : outcome Response :=
  if (k =? 4)%nat then Raise "429 Resource exhausted"
  else llm "accept" k p.

(** The model fails on the collaborator call number 5 of the session;
    with one search query, that is the first call of the writer. *)
Definition llm_down_at_writer (k : nat) (p : string) : outcome Response :=
  if (k =? 5)%nat then Raise "429 Resource exhausted"
  else llm "accept" k p.

Definition search_one (k : nat) (q : string) : outcome search_results :=
  Ok (ResultList [DictItem "Bear Peak is 8.4 miles." "https://trails.example/bear-peak"]).

Definition import_ok (k : nat) : outcome unit := Ok tt.
Definition import_fails (k : nat) : outcome unit :=
  Raise "No module named 'notion_client'".

Definition pages_ok (k : nat) (r : page_request) : outcome page :=
  Ok {| page_id := "p1"; page_url := "https://notion.example/p1" |}.
Definition pages_fail (k : nat) (r : page_request) : outcome page :=
  Raise "API token is invalid.".

(** A model whose answers are never a document. *)
Definition llm_garbled (k : nat) (p : string) : outcome Response :=
  say "Sorry, I can not help with that.".

(** A model whose report generation fails at its first call. *)
Definition llm_quota (k : nat) (p : string) : outcome Response :=
  if (k =? 0)%nat then Raise "429 Resource exhausted" else llm "accept" k p.

Definition env_garbled : Env := make llm_garbled search_one import_ok pages_ok.
Definition env_quota : Env := make llm_quota search_one import_ok pages_ok.
Definition env_revise : Env := make (llm "revise") search_one import_ok pages_ok.
Definition env_accept : Env := make (llm "accept") search_one import_ok pages_ok.
Definition env_llm_down : Env := make llm_down search_one import_ok pages_ok.
Definition env_synthesis_down : Env :=
  make llm_down_at_synthesis search_one import_ok pages_ok.
Definition env_writer_down : Env :=
  make llm_down_at_writer search_one import_ok pages_ok.
Definition env_ask : Env := make (llm "ask") search_one import_ok pages_ok.
Definition env_archive_down : Env :=
  make (llm "accept") search_one import_ok pages_fail.
Definition env_import_down : Env :=
  make (llm "accept") search_one import_fails pages_ok.

Definition question : list message :=
  [HumanMessage "best hiking trails near Denver"].

(** A session that reached the finalizer with one note and a draft. *)
Definition drafted : AgentState :=
  {| messages := question;
     st_research_brief := "Hiking trails near Denver";
     st_search_queries := ["denver hiking trails"];
     st_key_topics := ["trails"];
     raw_notes := notes_of_results
                    (ResultList [DictItem "Bear Peak is 8.4 miles."
                                   "https://trails.example/bear-peak"]);
     notes := ["Bear Peak: 8.4 miles."];
     draft_report := answer "accept";
     critique_feedback := ""; final_report := "";
     iteration_count := 0%Z; notion_page_url := "" |}.

(** Ten empty lines, then a line that qualifies as a title. *)
Definition late_title : string :=
  PyStr.repeat_char (ascii_of_nat 10) 10 ++ "Quarterly Market Outlook".

End Scenario.

(** ** [notion_manager.py]: tags, page properties, report sections *)

(** [clean_tag] *)
Definition clean_tag (tag : string) : string :=
  if negb (truthy tag) then "General"
  else
    let cleaned := PyStr.replace "," " -" tag in
    let cleaned := PyStr.strip cleaned in
    let cleaned :=
      if (100 <? String.length cleaned)%nat
      then PyStr.take 97 cleaned ++ "..."
      else cleaned in
    if truthy cleaned then cleaned else "General".

(** The [properties] dictionary of [create_research_page]; [now_iso] is
    [datetime.now().isoformat()]. *)
Record page_properties := {
  prop_name : string;
  prop_topic : string;
  prop_date : string;
  prop_status : string;
  prop_quality : string;
  prop_sources : nat;
  prop_tags : list string;
  prop_brief : string
}.

Definition build_properties (now_iso : string) (request : page_request)
  : page_properties :=
  {| prop_name := pr_title request;
     prop_topic := PyStr.take 100 (pr_title request);
     prop_date := now_iso;
     prop_status := "Complete";
     prop_quality := "⭐⭐⭐⭐⭐";
     prop_sources := pr_sources_count request;
     prop_tags := map clean_tag (firstn 3 (pr_key_topics request));
     prop_brief := PyStr.take 2000 (pr_research_brief request) |}.

(** [c.lower()] and [c.isdigit()] on a character with code point below
    256. *)
Definition lower_char (c : ascii) : ascii :=
  let n := nat_of_ascii c in
  if (((65 <=? n) && (n <=? 90))
      || ((192 <=? n) && (n <=? 222) && negb (n =? 215)))%nat
  then ascii_of_nat (n + 32)
  else c.

Fixpoint lower (s : string) : string :=
  match s with
  | EmptyString => ""
  | String c s' => String (lower_char c) (lower s')
  end.

Definition is_digit (c : ascii) : bool :=
  let n := nat_of_ascii c in
  (((48 <=? n) && (n <=? 57)) || (n =? 178) || (n =? 179) || (n =? 185))%nat.

(** [c in chars] for a character *)
Fixpoint char_in (c : ascii) (chars : string) : bool :=
  match chars with
  | EmptyString => false
  | String a rest => Ascii.eqb a c || char_in c rest
  end.

(** [s.lstrip(chars)] *)
Fixpoint lstrip_chars (chars s : string) : string :=
  match s with
  | String c s' => if char_in c chars then lstrip_chars chars s' else s
  | EmptyString => ""
  end.

(** [line[0].isdigit()] on a line that is not empty *)
Definition starts_with_digit (line : string) : bool :=
  match line with
  | String c _ => is_digit c
  | EmptyString => false
  end.

(** The keys of the dictionary of [parse_report_sections] that hold a
    text. *)
Inductive section_key :=
| K_executive_summary
| K_key_findings_text
| K_detailed_analysis
| K_recommendations_text
| K_sources_text.

(** The dictionary [sections]: [None] for a key that is absent. *)
Record sections := {
  executive_summary : option string;
  key_findings_text : option string;
  detailed_analysis : option string;
  recommendations_text : option string;
  sources_text : option string;
  key_findings : option (list string);
  recommendations : option (list string);
  sources : option (list string)
}.

Definition no_sections : sections :=
  {| executive_summary := None; key_findings_text := None;
     detailed_analysis := None; recommendations_text := None;
     sources_text := None; key_findings := None; recommendations := None;
     sources := None |}.

(** [sections[key] = value] *)
Definition set_text (key : section_key) (value : string) (s : sections)
  : sections :=
  match key with
  | K_executive_summary =>
      {| executive_summary := Some value;
         key_findings_text := key_findings_text s;
         detailed_analysis := detailed_analysis s;
         recommendations_text := recommendations_text s;
         sources_text := sources_text s; key_findings := key_findings s;
         recommendations := recommendations s; sources := sources s |}
  | K_key_findings_text =>
      {| executive_summary := executive_summary s;
         key_findings_text := Some value;
         detailed_analysis := detailed_analysis s;
         recommendations_text := recommendations_text s;
         sources_text := sources_text s; key_findings := key_findings s;
         recommendations := recommendations s; sources := sources s |}
  | K_detailed_analysis =>
      {| executive_summary := executive_summary s;
         key_findings_text := key_findings_text s;
         detailed_analysis := Some value;
         recommendations_text := recommendations_text s;
         sources_text := sources_text s; key_findings := key_findings s;
         recommendations := recommendations s; sources := sources s |}
  | K_recommendations_text =>
      {| executive_summary := executive_summary s;
         key_findings_text := key_findings_text s;
         detailed_analysis := detailed_analysis s;
         recommendations_text := Some value;
         sources_text := sources_text s; key_findings := key_findings s;
         recommendations := recommendations s; sources := sources s |}
  | K_sources_text =>
      {| executive_summary := executive_summary s;
         key_findings_text := key_findings_text s;
         detailed_analysis := detailed_analysis s;
         recommendations_text := recommendations_text s;
         sources_text := Some value; key_findings := key_findings s;
         recommendations := recommendations s; sources := sources s |}
  end.

(** The chain of tests on [line_lower]: the section a line opens. *)
Definition heading_of (line_lower : string) : option section_key :=
  if PyStr.contains "executive summary" line_lower
  then Some K_executive_summary
  else if PyStr.contains "key finding" line_lower
  then Some K_key_findings_text
  else if PyStr.contains "detailed analysis" line_lower
  then Some K_detailed_analysis
  else if PyStr.contains "recommendation" line_lower
          || PyStr.contains "practical recommendation" line_lower
  then Some K_recommendations_text
  else if PyStr.contains "sources consulted" line_lower
  then Some K_sources_text
  else None.

(** ['\n'.join(current_content).strip()] stored under the current
    section, if there is one. *)
Definition close_section (current_section : option section_key)
  (current_content : list string) (s : sections) : sections :=
  match current_section with
  | Some key =>
      set_text key (PyStr.strip (PyStr.join PyStr.nl current_content)) s
  | None => s
  end.

(** The loop over the lines of the report. *)
Fixpoint scan_lines (lines : list string)
  (current_section : option section_key) (current_content : list string)
  (s : sections) : option section_key * list string * sections :=
  match lines with
  | [] => (current_section, current_content, s)
  | line :: rest =>
      let line_lower := PyStr.strip (lower line) in
      match heading_of line_lower with
      | Some key =>
          scan_lines rest (Some key) []
            (close_section current_section current_content s)
      | None =>
          if truthy (PyStr.strip line) && negb (PyStr.startswith "=" line)
          then scan_lines rest current_section
                 (current_content ++ [line])%list s
          else scan_lines rest current_section current_content s
      end
  end.

(** The items of a text of findings or recommendations.  The source also
    accepts and strips the character U+2022, which no character of this
    model is. *)
Definition list_item (line : string) : list string :=
  let line := PyStr.strip line in
  if truthy line
     && (PyStr.startswith "-" line || PyStr.startswith "*" line
         || starts_with_digit line)
  then
    let clean_line := PyStr.strip (lstrip_chars "-*0123456789. " line) in
    if truthy clean_line then [clean_line] else []
  else [].

Definition list_items (text : string) : list string :=
  flat_map list_item (PyStr.split PyStr.nl text).

(** The entries of the text of sources. *)
Definition source_item (line : string) : list string :=
  let line := PyStr.strip line in
  if truthy line && (PyStr.startswith "http" line || starts_with_digit line)
  then
    let clean_line := PyStr.strip (lstrip_chars "0123456789. " line) in
    if truthy clean_line && (10 <? String.length clean_line)%nat
    then [clean_line] else []
  else [].

Definition source_items (text : string) : list string :=
  flat_map source_item (PyStr.split PyStr.nl text).

Definition parse_report_sections (report_content : string) : sections :=
  let lines := PyStr.split PyStr.nl report_content in
  let '(current_section, current_content, s) :=
    scan_lines lines None [] no_sections in
  let s := close_section current_section current_content s in
  {| executive_summary := executive_summary s;
     key_findings_text := key_findings_text s;
     detailed_analysis := detailed_analysis s;
     recommendations_text := recommendations_text s;
     sources_text := sources_text s;
     key_findings := option_map list_items (key_findings_text s);
     recommendations := option_map list_items (recommendations_text s);
     sources := option_map source_items (sources_text s) |}.

(** A block of the body of the page. *)
#[warnings="-register-all"] Inductive block :=
| Heading1 (t : string)
| Heading2 (t : string)
| Divider
| Paragraph (t : string)
| BulletedItem (t : string)
| NumberedItem (t : string)
| Toggle (t : string) (inner : list block)
| Callout (t : string) (emoji : string).

(** [sections.get(key)] as a condition, for a text and for a list. *)
Definition text_of (o : option string) : string :=
  match o with Some t => t | None => "" end.

Definition items_of (o : option (list string)) : list string :=
  match o with Some l => l | None => [] end.

Definition nonempty {A} (l : list A) : bool :=
  match l with [] => false | _ => true end.

(** The list [children] of [create_research_page]; [now] is
    [datetime.now().strftime('%Y-%m-%d %H:%M:%S')]. *)
Definition build_children (now : string) (s : sections) (sources_count : nat)
  : list block :=
  ([Heading1 "📊 Research Report"; Divider]
   ++ (if truthy (text_of (executive_summary s))
       then [Heading2 "🎯 Executive Summary";
             Paragraph (text_of (executive_summary s))]
       else [])
   ++ (if nonempty (items_of (key_findings s))
       then Heading2 "🔑 Key Findings"
            :: map BulletedItem (firstn 10 (items_of (key_findings s)))
       else [])
   ++ (if truthy (text_of (detailed_analysis s))
       then [Heading2 "📈 Detailed Analysis";
             Paragraph (PyStr.take 2000 (text_of (detailed_analysis s)))]
       else [])
   ++ (if nonempty (items_of (recommendations s))
       then Heading2 "💡 Recommendations"
            :: map NumberedItem (firstn 10 (items_of (recommendations s)))
       else [])
   ++ (if nonempty (items_of (sources s))
       then [Heading2 "🔗 Sources";
             Toggle ("View all " ++ PyStr.of_nat sources_count ++ " sources")
               (map Paragraph (firstn 25 (items_of (sources s))))]
       else [])
   ++ [Divider;
       Callout ("Generated: " ++ now ++ " | Sources: "
                ++ PyStr.of_nat sources_count
                ++ " | System: AI Deep Researcher") "🤖"])%list.

(** The body the finalizer's request gives to the page. *)
Definition request_children (now : string) (request : page_request)
  : list block :=
  build_children now (parse_report_sections (pr_report_content request))
    (pr_sources_count request).

(** ** The interactive caller [run_complete_research] *)

(** The collaborator calls a run has made when it stops, by returning, by
    raising or at the recursion limit; it follows [run]. *)
Fixpoint run_calls (v : variant) (E : Env) (fuel : nat) (n : node)
  (state : AgentState) (k : nat) : nat :=
  match n with
  | END => k
  | _ =>
      match fuel with
      | O => k
      | S fuel' =>
          match run_node v E n state k with
          | (Raise _, k') => k'
          | (Ok cmd, k') =>
              run_calls v E fuel' (goto cmd)
                (apply_update (update cmd) state) k'
          end
      end
  end.

(** [workflow.invoke({"messages": msgs, "iteration_count": 0}, ...)] made
    after [k] collaborator calls; the recursion limit is LangGraph's
    [GraphRecursionError]. *)
Definition invoke_from (v : variant) (E : Env) (msgs : list message)
  : M AgentState :=
  fun k =>
    (match fst (run v E recursion_limit n_clarify_with_user
                  (initial_state msgs) k) with
     | Returned state => Ok state
     | Raised e => Raise e
     | RecursionLimit => Raise "GraphRecursionError"
     end,
     run_calls v E recursion_limit n_clarify_with_user (initial_state msgs) k).

(** What the user types: [stdin i] is the line read by the [i]-th call of
    [input]. *)
Definition console : Type := nat -> string.

(** [max_iterations] of [run_complete_research] *)
Definition max_clarifications : nat := 7.

(** The [while] loop of [run_complete_research].  [remaining] is
    [max_iterations - iteration], [i] the number of lines read so far; the
    loop yields the last result and the number of lines read. *)
Fixpoint clarification_loop (E : Env) (stdin : console) (remaining : nat)
  (result : AgentState) (i : nat) : M (AgentState * nat) :=
  if truthy (st_research_brief result) then ret (result, i)
  else
    match remaining with
    | O => ret (result, i)
    | S remaining' =>
        match rev (messages result) with
        | [] => lift (Raise "list index out of range")
        | last_message :: _ =>
            if mtype last_message =? "ai" then
              let user_response := PyStr.strip (stdin i) in
              if truthy user_response then
                result' <- invoke_from Cli E
                             (messages result
                              ++ [HumanMessage user_response])%list ;;
                clarification_loop E stdin remaining' result' (S i)
              else ret (result, S i)
            else clarification_loop E stdin remaining' result i
        end
    end.

(** [run_complete_research]: the result it returns, [None] for Python's
    [None], with the number of lines it read. *)
Definition run_complete_research (E : Env) (stdin : console)
  : M (option AgentState * nat) :=
  let initial_query := PyStr.strip (stdin 0) in
  if truthy initial_query then
    result <- invoke_from Cli E [HumanMessage initial_query] ;;
    looped <- clarification_loop E stdin max_clarifications result 1 ;;
    let result := fst looped in
    ret (if truthy (final_report result) then Some result else None,
         snd looped)
  else ret (None, 1).

(** ** Shapes of traces *)

(** [n] rounds of writing and critique. *)
Fixpoint revision_rounds (n : nat) : list node :=
  match n with
  | O => []
  | S n' => n_writer_agent :: n_critic_agent :: revision_rounds n'
  end.

(** The trace of a session that is finalized after [n] drafts. *)
Definition full_trace (n : nat) : list node :=
  ([n_clarify_with_user; n_planner_agent; n_researcher_agent;
    n_synthesis_agent] ++ revision_rounds n ++ [n_finalizer])%list.

(** The keys of the state a node may write. *)
Inductive state_key :=
| key_messages
| key_research_brief
| key_search_queries
| key_key_topics
| key_raw_notes
| key_notes
| key_draft_report
| key_critique_feedback
| key_final_report
| key_iteration_count
| key_notion_page_url.

(** Two states agree on a key. *)
Definition same_at (key : state_key) (s s' : AgentState) : Prop :=
  match key with
  | key_messages => messages s' = messages s
  | key_research_brief => st_research_brief s' = st_research_brief s
  | key_search_queries => st_search_queries s' = st_search_queries s
  | key_key_topics => st_key_topics s' = st_key_topics s
  | key_raw_notes => raw_notes s' = raw_notes s
  | key_notes => notes s' = notes s
  | key_draft_report => draft_report s' = draft_report s
  | key_critique_feedback => critique_feedback s' = critique_feedback s
  | key_final_report => final_report s' = final_report s
  | key_iteration_count => iteration_count s' = iteration_count s
  | key_notion_page_url => notion_page_url s' = notion_page_url s
  end.

(** The keys that appear in the [update] dictionaries of a node, as the
    source writes them; [messages] is written by every node of the [Api]
    variant and by the clarification of both. *)
Definition writes (v : variant) (n : node) (key : state_key) : bool :=
  match n, key with
  | n_clarify_with_user, key_messages => true
  | n_planner_agent, (key_research_brief | key_search_queries | key_key_topics)
      => true
  | n_researcher_agent, key_raw_notes => true
  | n_synthesis_agent, key_notes => true
  | n_writer_agent, key_draft_report => true
  | n_critic_agent, (key_critique_feedback | key_iteration_count) => true
  | n_finalizer, (key_final_report | key_notion_page_url) => true
  | (n_planner_agent | n_researcher_agent | n_synthesis_agent
     | n_writer_agent | n_critic_agent | n_finalizer), key_messages =>
      match v with Api => true | Cli => false end
  | _, _ => false
  end.

(** The source identifier a search result carries into its note. *)
Definition item_url (result : search_item) : string :=
  match result with DictItem _ u => u | OtherItem _ => "" end.

Definition item_content (result : search_item) : string :=
  match result with DictItem c _ => c | OtherItem r => r end.

(** The notes of the queries from call [k] on, a failed query giving
    none. *)
Fixpoint notes_of_queries (E : Env) (k : nat) (queries : list string)
  : list string :=
  match queries with
  | [] => []
  | query :: rest =>
      (match search_invoke E k query with
       | Ok results => notes_of_results results
       | Raise _ => []
       end ++ notes_of_queries E (S k) rest)%list
  end.

(** The sources under the first toggle of a page body. *)
Fixpoint toggled_sources (children : list block) : list block :=
  match children with
  | [] => []
  | Toggle _ inner :: _ => inner
  | _ :: rest => toggled_sources rest
  end.

(** The key an entry of an [update] dictionary writes. *)
Definition key_of (u : field_update) : state_key :=
  match u with
  | U_messages _ => key_messages
  | U_research_brief _ => key_research_brief
  | U_search_queries _ => key_search_queries
  | U_key_topics _ => key_key_topics
  | U_raw_notes _ => key_raw_notes
  | U_notes _ => key_notes
  | U_draft_report _ => key_draft_report
  | U_critique_feedback _ => key_critique_feedback
  | U_final_report _ => key_final_report
  | U_iteration_count _ => key_iteration_count
  | U_notion_page_url _ => key_notion_page_url
  end.

Definition state_key_eqb (a b : state_key) : bool :=
  match a, b with
  | key_messages, key_messages
  | key_research_brief, key_research_brief
  | key_search_queries, key_search_queries
  | key_key_topics, key_key_topics
  | key_raw_notes, key_raw_notes
  | key_notes, key_notes
  | key_draft_report, key_draft_report
  | key_critique_feedback, key_critique_feedback
  | key_final_report, key_final_report
  | key_iteration_count, key_iteration_count
  | key_notion_page_url, key_notion_page_url => true
  | _, _ => false
  end.

(** What the trace of a session that raised looks like: it stops at the
    clarification, at the planner, at the synthesis, or at a critique. *)
Definition raised_trace (t : list node) : Prop :=
  t = [n_clarify_with_user]
  \/ t = [n_clarify_with_user; n_planner_agent]
  \/ t = [n_clarify_with_user; n_planner_agent; n_researcher_agent;
          n_synthesis_agent]
  \/ exists n,
       (1 <= n <= 3)%nat
       /\ t = ([n_clarify_with_user; n_planner_agent; n_researcher_agent;
                n_synthesis_agent] ++ revision_rounds n)%list.

(** The shape of every session. *)
Definition session_shape (result : invoke_result * list node) : Prop :=
  match result with
  | (Returned state, t) =>
      (t = [n_clarify_with_user] /\ awaits_clarification state = true)
      \/ (exists n,
            (1 <= n <= 3)%nat
            /\ t = full_trace n
            /\ iteration_count state = (Z.of_nat n - 1)%Z
            /\ has_final_report state = true)
  | (Raised _, t) => raised_trace t
  | (RecursionLimit, _) => False
  end.

(** The prompt the writer sends for a state. *)
Definition writer_prompt (state : AgentState) : string :=
  report_prompt (st_research_brief state) (notes state)
    (if truthy (critique_feedback state)
     then feedback_section_text (critique_feedback state)
     else "").

(** The clarification stage asks on every invocation. *)
Definition always_asks (E : Env) : Prop :=
  forall k p, exists c,
    fst (get_structured_response E p CClarifyWithUser k) = Ok c
    /\ need_clarification c = true.

(** The user answers every prompt with a line that is not blank. *)
Definition always_replies (stdin : console) : Prop :=
  forall i, truthy (PyStr.strip (stdin i)) = true.

(** The state a session that stopped on a question returns. *)
Definition asked (msgs : list message) (q : string) : AgentState :=
  apply_update [U_messages [AIMessage q]] (initial_state msgs).

(** At most [n] steps from a point of a session. *)
Fixpoint advance (v : variant) (E : Env) (n : nat) (c : config) : config :=
  match n with
  | O => c
  | S n' =>
      match fst (fst c) with
      | END => c
      | _ =>
          match step v E c with
          | Some c' => advance v E n' c'
          | None => c
          end
      end
  end.

Definition console_colorado : console := fun _ => "Colorado".

(** The model answers every request, and never with a text from which a
    clarification can be decoded. *)
Definition never_parsed (E : Env) : Prop :=
  forall k p, exists response,
    generate_content E k p = Ok response
    /\ parse_response E CClarifyWithUser response = None.

(** The most collaborator calls a node makes in a state. *)
Definition node_calls (n : node) (state : AgentState) : nat :=
  match n with
  | n_clarify_with_user => 1
  | n_planner_agent => 2
  | n_researcher_agent => List.length (st_search_queries state)
  | n_synthesis_agent => 1
  | n_writer_agent => 1
  | n_critic_agent => 1
  | n_finalizer => 2
  | END => 0
  end.

(** The collaborator calls of a whole session. *)
Definition session_calls (v : variant) (E : Env) (msgs : list message) : nat :=
  run_calls v E recursion_limit n_clarify_with_user (initial_state msgs) 0.

(** The nodes that run after the planner. *)
Definition after_plan (n : node) : bool :=
  match n with
  | n_clarify_with_user | n_planner_agent => false
  | _ => true
  end.

(** * Properties *)

(** ** The string primitives on examples *)

Example split_ex :
  PyStr.split PyStr.nl ("ab" ++ PyStr.nl ++ PyStr.nl ++ "c") = ["ab"; ""; "c"].
Proof. reflexivity. Qed.
Example split_ex2 : PyStr.split "```" "x```json{}```y" = ["x"; "json{}"; "y"].
Proof. reflexivity. Qed.
Example replace_ex : PyStr.replace "Source: " "" "Source: aSource: b" = "ab".
Proof. reflexivity. Qed.
Example strip_ex : PyStr.strip "  a b  " = "a b".
Proof. reflexivity. Qed.
Example of_nat_ex : PyStr.of_nat 25 = "25" /\ PyStr.of_nat 0 = "0" /\ PyStr.of_Z 2 = "2".
Proof. repeat split; reflexivity. Qed.

(** ** Collaborator calls *)

Lemma get_structured_response_eq E prompt c k :
  get_structured_response E prompt c k =
  match generate_content E k (full_prompt prompt c) with
  | Ok response =>
      (Ok match parse_response E c response with
          | Some v => v
          | None => safe_default prompt c
          end, S k)
  | Raise e => (Raise e, S k)
  end.
Proof.
  unfold get_structured_response, bind, call, ret.
  destruct (generate_content E k (full_prompt prompt c)); reflexivity.
Qed.

(** The structured response cannot be obtained from an answer exactly when
    a step of the [try] fails: reading the text, taking the fenced part,
    decoding the document, or building the instance. *)
Lemma parse_response_None E c response :
  parse_response E c response = None <->
  (exists e, text response = Raise e)
  \/ (exists t, text response = Ok t
        /\ (fenced t = None
            \/ exists j, fenced t = Some j
                 /\ (json_loads E (PyStr.strip j) = None
                     \/ exists d, json_loads E (PyStr.strip j) = Some d
                          /\ model_validate E c d = None))).
Proof.
  unfold parse_response. split.
  - destruct (text response) as [t|e]; [|intros _; left; eauto].
    intros H. right. exists t. split; [reflexivity|].
    destruct (fenced t) as [j|]; [|now left].
    right. exists j. split; [reflexivity|].
    destruct (json_loads E (PyStr.strip j)) as [d|]; [|now left].
    right. exists d. now split.
  - intros [[e He]|[t [Ht H]]]; rewrite ?He, ?Ht; [reflexivity|].
    destruct H as [Hf|[j [Hf H]]]; rewrite Hf; [reflexivity|].
    destruct H as [Hj|[d [Hj Hv]]]; rewrite Hj; [reflexivity|exact Hv].
Qed.

(** C4. When the text-generation collaborator answers and its answer
    cannot be turned into the requested structure, the structured-response
    operation returns the safe default of the schema instead of raising:
    for the Clarify schema, need_clarification is true and the question is
    the generic one; for the Critique schema, needs_revision is false and
    the lists of issues and improvements are empty. *)
Theorem structured_response_falls_back E prompt c k response :
  generate_content E k (full_prompt prompt c) = Ok response ->
  parse_response E c response = None ->
  get_structured_response E prompt c k = (Ok (safe_default prompt c), S k)
  /\ safe_default prompt CClarifyWithUser
     = {| need_clarification := true;
          question := "Could you provide more details?";
          verification := "" |}
  /\ safe_default prompt CCritique
     = {| needs_revision := false; critique_reasoning := "";
          specific_issues := []; improvements := [] |}.
Proof.
  intros Hgen Hparse. split; [|split; reflexivity].
  rewrite get_structured_response_eq, Hgen, Hparse. reflexivity.
Qed.

Lemma structured_response_falls_back_witness :
  get_structured_response Scenario.env_garbled "Evaluate the report." CCritique 0
  = (Ok (safe_default "Evaluate the report." CCritique), 1)
  /\ safe_default "Evaluate the report." CClarifyWithUser
     = {| need_clarification := true;
          question := "Could you provide more details?";
          verification := "" |}
  /\ safe_default "Evaluate the report." CCritique
     = {| needs_revision := false; critique_reasoning := "";
          specific_issues := []; improvements := [] |}.
Proof.
  exact (structured_response_falls_back Scenario.env_garbled
           "Evaluate the report." CCritique 0
           {| text := Ok "Sorry, I can not help with that." |}
           eq_refl eq_refl).
Defined.

(** ** The writer *)

Lemma truthy_cons a s : truthy (String a s) = true.
Proof. reflexivity. Qed.

Lemma writer_fallback_text e notes :
  writer_fallback e notes =
  "Error generating report: "
  ++ (e ++ PyStr.nl ++ PyStr.nl ++ "Raw Notes:" ++ PyStr.nl
      ++ PyStr.join PyStr.nl notes).
Proof. reflexivity. Qed.

(** The writer always returns a command that goes to the critic and sets
    the draft. *)
Lemma writer_agent_total v E state k :
  exists report_text,
    writer_agent v E state k
    = (Ok {| goto := n_critic_agent;
             update :=
               U_draft_report report_text
               :: progress v "✍️ **Writing report...** Creating comprehensive analysis" |},
       S k).
Proof.
  unfold writer_agent, bind, try_except, call, lift, ret.
  destruct (generate_content E k _) as [response|e]; [|eauto].
  destruct (text response) as [t|e]; eauto.
Qed.

Lemma draft_report_apply v report_text c state :
  draft_report
    (apply_update (U_draft_report report_text :: progress v c) state)
  = report_text.
Proof. destruct v; reflexivity. Qed.

(** C10. If the generation of the report raises in the writer stage, the
    writer still sets the draft to a fallback text that is not empty and
    holds the error message followed by the synthesized notes, and goes to
    the critic; whatever the collaborator does, the writer returns a
    command to the critic that sets the draft, never an error. *)
Theorem writer_recovers_from_generation_error v E state k :
  (forall e,
      generation_raises E k
        (report_prompt (st_research_brief state) (notes state)
           (if truthy (critique_feedback state)
            then feedback_section_text (critique_feedback state) else "")) e ->
      exists cmd,
        writer_agent v E state k = (Ok cmd, S k)
        /\ goto cmd = n_critic_agent
        /\ draft_report (apply_update (update cmd) state)
           = writer_fallback e (notes state)
        /\ writer_fallback e (notes state)
           = "Error generating report: " ++ e ++ PyStr.nl ++ PyStr.nl
             ++ "Raw Notes:" ++ PyStr.nl ++ PyStr.join PyStr.nl (notes state)
        /\ truthy (writer_fallback e (notes state)) = true)
  /\ (exists cmd report_text,
        writer_agent v E state k = (Ok cmd, S k)
        /\ goto cmd = n_critic_agent
        /\ In (U_draft_report report_text) (update cmd)
        /\ draft_report (apply_update (update cmd) state) = report_text).
Proof.
  split.
  - intros e Hraise.
    exists {| goto := n_critic_agent;
              update :=
                U_draft_report (writer_fallback e (notes state))
                :: progress v "✍️ **Writing report...** Creating comprehensive analysis" |}.
    repeat split.
    + unfold writer_agent, bind, try_except, call, lift, ret.
      destruct Hraise as [H|[response [H Ht]]]; rewrite H; [reflexivity|].
      rewrite Ht. reflexivity.
    + apply draft_report_apply.
  - destruct (writer_agent_total v E state k) as [report_text H].
    eexists; exists report_text. rewrite H.
    repeat split; [now left|apply draft_report_apply].
Qed.

Lemma writer_recovers_from_generation_error_witness :
  exists cmd,
    writer_agent Cli Scenario.env_quota Scenario.drafted 0 = (Ok cmd, 1)
    /\ goto cmd = n_critic_agent
    /\ draft_report (apply_update (update cmd) Scenario.drafted)
       = writer_fallback "429 Resource exhausted" ["Bear Peak: 8.4 miles."]
    /\ writer_fallback "429 Resource exhausted" ["Bear Peak: 8.4 miles."]
       = "Error generating report: " ++ "429 Resource exhausted" ++ PyStr.nl
         ++ PyStr.nl ++ "Raw Notes:" ++ PyStr.nl
         ++ PyStr.join PyStr.nl ["Bear Peak: 8.4 miles."]
    /\ truthy (writer_fallback "429 Resource exhausted" ["Bear Peak: 8.4 miles."])
       = true.
Proof.
  apply (proj1 (writer_recovers_from_generation_error
                  Cli Scenario.env_quota Scenario.drafted 0)).
  left. reflexivity.
Defined.

(** ** Lists and strings *)

Lemma In_firstn {A} (n : nat) (l : list A) x : In x (firstn n l) -> In x l.
Proof.
  revert l; induction n as [|n IH]; intros [|a l]; simpl; try tauto.
  intros [H|H]; [now left|right; now apply IH].
Qed.

Lemma NoDup_firstn {A} (n : nat) (l : list A) : NoDup l -> NoDup (firstn n l).
Proof.
  revert l; induction n as [|n IH]; intros [|a l] H; simpl; try constructor.
  - inversion H; subst. intros Hin. now apply In_firstn in Hin.
  - inversion H; subst. now apply IH.
Qed.

Lemma append_empty_r (s : string) : s ++ "" = s.
Proof. induction s as [|c s IH]; simpl; [reflexivity|now rewrite IH]. Qed.

Lemma append_assoc (a b c : string) : (a ++ b) ++ c = a ++ (b ++ c).
Proof. induction a as [|x a IH]; simpl; [reflexivity|now rewrite IH]. Qed.

Lemma prefix_empty (s : string) : String.prefix "" s = true.
Proof. destruct s; reflexivity. Qed.

Lemma contains_cons sub c s :
  PyStr.contains sub (String c s) = false ->
  String.prefix sub (String c s) = false /\ PyStr.contains sub s = false.
Proof. simpl. intros H. now apply orb_false_iff in H. Qed.

Lemma prefix_nl_cons c s s' :
  String.prefix PyStr.nl (String c s) = false ->
  String.prefix PyStr.nl (String c s') = false.
Proof.
  unfold PyStr.nl. cbn [String.prefix].
  match goal with |- context [ascii_dec ?x c] => destruct (ascii_dec x c) end;
    [|reflexivity].
  now rewrite !prefix_empty.
Qed.

(** A newline-free text followed by a newline is the first piece of the
    split. *)
Lemma split_from_first cur a b :
  PyStr.contains PyStr.nl a = false ->
  PyStr.first (PyStr.split_from PyStr.nl 0 cur (a ++ PyStr.nl ++ b)) = cur ++ a.
Proof.
  revert cur. induction a as [|c a IH]; intros cur H.
  - simpl. rewrite prefix_empty. simpl. now rewrite append_empty_r.
  - apply contains_cons in H. destruct H as [Hp Hc].
    change ((String c a ++ PyStr.nl ++ b)) with (String c (a ++ PyStr.nl ++ b)).
    cbn [PyStr.split_from].
    rewrite (prefix_nl_cons c a _ Hp). rewrite IH by exact Hc.
    rewrite append_assoc. reflexivity.
Qed.

(** Replacing a text that does not occur changes nothing. *)
Lemma replace_from_absent old new s :
  PyStr.contains old s = false -> PyStr.replace_from old new 0 s = s.
Proof.
  induction s as [|c s IH]; intros H; [reflexivity|].
  apply contains_cons in H. destruct H as [Hp Hc].
  cbn [PyStr.replace_from]. rewrite Hp, IH by exact Hc. reflexivity.
Qed.

(** The note the research stage writes for a result gives back the
    source identifier of the result, when the identifier holds neither a
    newline nor the tag. *)
Lemma source_of_research_note url content :
  PyStr.contains PyStr.nl url = false ->
  PyStr.contains "Source: " url = false ->
  source_of_note ("Source: " ++ url ++ PyStr.nl ++ content) = url.
Proof.
  intros Hnl Htag. unfold source_of_note, PyStr.split.
  assert (Hpre : PyStr.contains PyStr.nl ("Source: " ++ url) = false).
  { simpl. exact Hnl. }
  replace ("Source: " ++ url ++ PyStr.nl ++ content)
    with (("Source: " ++ url) ++ PyStr.nl ++ content)
    by (now rewrite append_assoc).
  rewrite (split_from_first "" _ content Hpre).
  unfold PyStr.replace. simpl. rewrite prefix_empty. simpl.
  now apply replace_from_absent.
Qed.

(** ** The finalizer *)

Lemma create_research_page_eq E request k :
  create_research_page E request k =
  match pages_create E k request with
  | Ok page =>
      (Ok (PageSuccess (page_id page) (page_url page) (pr_title request)), S k)
  | Raise e => (Ok (PageFailure e), S k)
  end.
Proof.
  unfold create_research_page, try_except, bind, call, ret.
  destruct (pages_create E k request); reflexivity.
Qed.

(** The archive step never raises. *)
Lemma archive_total E request k :
  exists notion_url notion_status k',
    archive E request k = (Ok (notion_url, notion_status), k').
Proof.
  unfold archive, try_except, bind, call, ret.
  destruct (notion_import E k); [|eauto].
  fold (call (fun k0 => pages_create E k0 request)).
  change (try_except _ _ (S k)) with (create_research_page E request (S k)).
  rewrite create_research_page_eq.
  destruct (pages_create E (S k) request); eauto.
Qed.

(** When the archive fails, the reference it yields is empty. *)
Lemma archive_failure_url E request k :
  archive_fails E k request ->
  exists notion_status k', archive E request k = (Ok ("", notion_status), k').
Proof.
  intros Hfail. unfold archive, try_except, bind, call, ret.
  destruct (notion_import E k) as [[]|e0] eqn:Himp; [|eauto].
  destruct Hfail as [[e He]|[e He]]; [congruence|].
  change (try_except _ _ (S k)) with (create_research_page E request (S k)).
  rewrite create_research_page_eq, He. eauto.
Qed.

Lemma finalizer_eq v E state k :
  finalizer v E state k =
  let request := archive_request E (now E k) state in
  match archive E request k with
  | (Ok saved, k') =>
      (Ok {| goto := END;
             update :=
               U_final_report (pr_report_content request)
               :: U_notion_page_url (fst saved)
               :: progress v (snd saved ++ "

---

" ++ pr_report_content request) |}, k')
  | (Raise e, k') => (Raise e, k')
  end.
Proof.
  unfold finalizer, bind, clock, ret. cbn zeta.
  destruct (archive E (archive_request E (now E k) state) k) as [[saved|e] k'];
    reflexivity.
Qed.

Lemma finalized_fields v r u c state :
  let state' :=
    apply_update (U_final_report r :: U_notion_page_url u :: progress v c) state in
  final_report state' = r /\ notion_page_url state' = u
  /\ iteration_count state' = iteration_count state
  /\ draft_report state' = draft_report state
  /\ raw_notes state' = raw_notes state.
Proof. destruct v; repeat split. Qed.

Lemma formatted_report_truthy now draft raw sources iteration :
  truthy (formatted_report now draft raw sources iteration) = true.
Proof. reflexivity. Qed.

(** The finalizer always returns: it ends the session with the formatted
    report as final report. *)
Lemma finalizer_total v E state k :
  exists notion_url notion_status k',
    finalizer v E state k
    = (Ok {| goto := END;
             update :=
               U_final_report
                 (formatted_report (now E k) (draft_report state)
                    (raw_notes state) (sources_of E (raw_notes state))
                    (iteration_count state))
               :: U_notion_page_url notion_url
               :: progress v (notion_status ++ "

---

" ++ formatted_report (now E k) (draft_report state)
                    (raw_notes state) (sources_of E (raw_notes state))
                    (iteration_count state)) |}, k').
Proof.
  rewrite finalizer_eq. cbn zeta.
  destruct (archive_total E (archive_request E (now E k) state) k)
    as (u & s & k' & H).
  rewrite H. exists u, s, k'. reflexivity.
Qed.

Lemma set_list_nil E : set_list E [] = [].
Proof.
  destruct (set_list E []) as [|x l] eqn:H; [reflexivity|].
  exfalso. apply (proj1 (set_list_In E [] x)). rewrite H. now left.
Qed.

(** C3. The source list of the finalizer is made of the first lines,
    with the tag text removed, of the fragments that start with the source
    tag, without repetition, and the report lists at most its first 25
    entries: the list rendered in the final report has at most 25 entries
    and no two of them are equal.  For a fragment as the research stage
    writes it, the entry is the source identifier of the search result. *)
Theorem finalizer_source_list v E state k :
  let sources := sources_of E (raw_notes state) in
  let listed := listed_sources sources in
  (List.length listed <= 25)%nat
  /\ NoDup listed
  /\ NoDup sources
  /\ listed = firstn 25 sources
  /\ (forall x, In x listed -> In x sources)
  /\ (forall x,
        In x sources <->
        exists note,
          In note (raw_notes state)
          /\ PyStr.startswith "Source:" note = true
          /\ x = PyStr.replace "Source: " ""
                   (PyStr.first (PyStr.split PyStr.nl note)))
  /\ (forall url content,
        PyStr.contains PyStr.nl url = false ->
        PyStr.contains "Source: " url = false ->
        source_of_note ("Source: " ++ url ++ PyStr.nl ++ content) = url)
  /\ (exists cmd k',
        finalizer v E state k = (Ok cmd, k')
        /\ goto cmd = END
        /\ final_report (apply_update (update cmd) state)
           = report_head (draft_report state)
             ++ source_lines 1 listed
             ++ report_tail (now E k) (raw_notes state) (iteration_count state)).
Proof.
  cbn zeta. unfold listed_sources.
  split; [apply firstn_le_length|].
  split; [apply NoDup_firstn, set_list_NoDup|].
  split; [apply set_list_NoDup|].
  split; [reflexivity|].
  split; [intros x; apply In_firstn|].
  split.
  - intros x. unfold sources_of. rewrite set_list_In, in_map_iff. split.
    + intros [note [Hx Hin]]. apply filter_In in Hin. destruct Hin as [Hin Htag].
      exists note. now repeat split.
    + intros [note [Hin [Htag Hx]]]. exists note. split; [now symmetry|].
      apply filter_In. now split.
  - split; [exact source_of_research_note|].
    destruct (finalizer_total v E state k) as (u & s & k' & H).
    rewrite H. eexists; exists k'. split; [reflexivity|]. split; [reflexivity|].
    cbn [update]. now rewrite (proj1 (finalized_fields v _ _ _ state)).
Qed.

Lemma finalizer_source_list_witness :
  source_of_note
    ("Source: " ++ "https://trails.example/bear-peak" ++ PyStr.nl
     ++ "Bear Peak is 8.4 miles.")
  = "https://trails.example/bear-peak".
Proof.
  apply (proj1 (proj2 (proj2 (proj2 (proj2 (proj2 (proj2
           (finalizer_source_list Cli Scenario.env_accept Scenario.drafted 0))))))));
    reflexivity.
Defined.

(** C6. Whatever the archive does, the finalizer ends the session with
    the formatted report as final report; and if the creation of the
    archive page fails, by returning a failure or by raising, the final
    report is that same formatted report and the reference to the archive
    page is left as the empty string. *)
Theorem finalizer_survives_archive_failure v E state k :
  let report :=
    formatted_report (now E k) (draft_report state) (raw_notes state)
      (sources_of E (raw_notes state)) (iteration_count state) in
  (exists cmd k',
      finalizer v E state k = (Ok cmd, k')
      /\ goto cmd = END
      /\ final_report (apply_update (update cmd) state) = report
      /\ has_final_report (apply_update (update cmd) state) = true)
  /\ (archive_fails E k (archive_request E (now E k) state) ->
      exists cmd k',
        finalizer v E state k = (Ok cmd, k')
        /\ goto cmd = END
        /\ final_report (apply_update (update cmd) state) = report
        /\ notion_page_url (apply_update (update cmd) state) = "").
Proof.
  cbn zeta. split.
  - destruct (finalizer_total v E state k) as (u & s & k' & H).
    rewrite H. eexists; exists k'. split; [reflexivity|]. split; [reflexivity|].
    cbn [update]. unfold has_final_report.
    rewrite (proj1 (finalized_fields v _ _ _ state)). now split.
  - intros Hfail. rewrite finalizer_eq. cbn zeta.
    destruct (archive_failure_url E _ k Hfail) as (s & k' & H).
    rewrite H. eexists; exists k'. split; [reflexivity|]. split; [reflexivity|].
    cbn [update fst snd].
    destruct (finalized_fields v (pr_report_content (archive_request E (now E k) state))
                "" (s ++ "

---

" ++ pr_report_content (archive_request E (now E k) state)) state)
      as (Hr & Hu & _).
    now rewrite Hr, Hu.
Qed.

Lemma finalizer_survives_archive_failure_witness :
  exists cmd k',
    finalizer Api Scenario.env_archive_down Scenario.drafted 7 = (Ok cmd, k')
    /\ goto cmd = END
    /\ final_report (apply_update (update cmd) Scenario.drafted)
       = formatted_report "2025-01-01 12:00:00" (Scenario.answer "accept")
           (raw_notes Scenario.drafted)
           (sources_of Scenario.env_archive_down (raw_notes Scenario.drafted)) 0
    /\ notion_page_url (apply_update (update cmd) Scenario.drafted) = "".
Proof.
  apply (proj2 (finalizer_survives_archive_failure
                  Api Scenario.env_archive_down Scenario.drafted 7)).
  right. exists "API token is invalid.". reflexivity.
Defined.

(** The loop of the title extraction returns the first line that passes
    the test, cut to 100 characters, or the title it started with. *)
Lemma title_loop_find lines title :
  title_loop lines title =
  match find title_candidate (map PyStr.strip lines) with
  | Some line => PyStr.take 100 line
  | None => title
  end.
Proof.
  induction lines as [|line rest IH]; [reflexivity|].
  cbn [title_loop map find].
  destruct (title_candidate (PyStr.strip line)); [reflexivity|exact IH].
Qed.

Lemma take_length n s : (String.length (PyStr.take n s) <= n)%nat.
Proof.
  revert s; induction n as [|n IH]; intros [|c s]; simpl; try lia.
  specialize (IH s). lia.
Qed.

(** C7, amended. The title extraction scans the first 10 lines of the
    draft, empty or not, each stripped of the white space around it; it
    skips the lines that are empty, that start with '=' or '#', or that
    have at most 10 characters, and returns the first remaining line cut
    to 100 characters; when no line remains it returns the default title
    "Research Report".  The title has at most 100 characters. *)
Theorem extract_title_first_ten_lines draft_report :
  extract_title draft_report =
  match
    find (fun line =>
            truthy line
            && negb (PyStr.startswith "=" line)
            && negb (PyStr.startswith "#" line)
            && (10 <? String.length line)%nat)
      (map PyStr.strip (firstn 10 (PyStr.split PyStr.nl draft_report)))
  with
  | Some line => PyStr.take 100 line
  | None => "Research Report"
  end
  /\ (String.length (extract_title draft_report) <= 100)%nat.
Proof.
  unfold extract_title. cbn zeta. rewrite title_loop_find. split; [reflexivity|].
  fold title_candidate.
  destruct (find title_candidate _); [apply take_length|simpl; lia].
Qed.

(** C7, as stated, fails: with ten empty lines before it, a line that
    qualifies is among the first 10 non-empty lines of the draft, and the
    code returns the default title. *)
Lemma extract_title_skips_late_title :
  extract_title Scenario.late_title = "Research Report"
  /\ spec_extract_title Scenario.late_title = "Quarterly Market Outlook"
  /\ spec_extract_title_raw Scenario.late_title = "Quarterly Market Outlook"
  /\ extract_title Scenario.late_title <> spec_extract_title Scenario.late_title
  /\ extract_title Scenario.late_title
     <> spec_extract_title_raw Scenario.late_title.
Proof. repeat split; try reflexivity; vm_compute; discriminate. Qed.

(** C8. The title the finalizer gives to the archive page is a function of
    the text of the draft alone: two sessions with the same draft, whatever
    their other fields, their collaborators and the time, get the same
    title, and computing it again on the same draft gives it again. *)
Theorem title_depends_on_draft_only E1 E2 now1 now2 state1 state2 :
  draft_report state1 = draft_report state2 ->
  pr_title (archive_request E1 now1 state1)
  = pr_title (archive_request E2 now2 state2)
  /\ pr_title (archive_request E1 now1 state1)
     = extract_title (draft_report state1).
Proof.
  intros H. cbn [archive_request pr_title]. now rewrite H.
Qed.

Lemma title_depends_on_draft_only_witness :
  pr_title (archive_request Scenario.env_accept "2025-01-01 12:00:00"
              Scenario.drafted)
  = pr_title (archive_request Scenario.env_archive_down "2026-06-30 08:15:00"
                (apply_field (U_iteration_count 2) Scenario.drafted))
  /\ pr_title (archive_request Scenario.env_accept "2025-01-01 12:00:00"
                 Scenario.drafted)
     = extract_title (draft_report Scenario.drafted).
Proof.
  apply (title_depends_on_draft_only Scenario.env_accept
           Scenario.env_archive_down "2025-01-01 12:00:00"
           "2026-06-30 08:15:00" Scenario.drafted
           (apply_field (U_iteration_count 2) Scenario.drafted)).
  reflexivity.
Defined.

(** C9. With no raw notes, the finalizer still returns: it ends the
    session with a formatted final report whose list of sources is empty,
    the head of the report being directly followed by its tail. *)
Theorem finalizer_without_notes v E state k :
  raw_notes state = [] ->
  sources_of E (raw_notes state) = []
  /\ exists cmd k',
       finalizer v E state k = (Ok cmd, k')
       /\ goto cmd = END
       /\ final_report (apply_update (update cmd) state)
          = report_head (draft_report state)
            ++ source_lines 1 []
            ++ report_tail (now E k) [] (iteration_count state)
       /\ source_lines 1 [] = ""
       /\ has_final_report (apply_update (update cmd) state) = true.
Proof.
  intros Hnotes.
  assert (Hsrc : sources_of E (raw_notes state) = []).
  { rewrite Hnotes. unfold sources_of. simpl. apply set_list_nil. }
  split; [exact Hsrc|].
  destruct (finalizer_total v E state k) as (u & s & k' & H).
  rewrite H. eexists; exists k'. split; [reflexivity|]. split; [reflexivity|].
  cbn [update]. unfold has_final_report.
  rewrite (proj1 (finalized_fields v _ _ _ state)), Hsrc, Hnotes.
  repeat split.
Qed.

Lemma finalizer_without_notes_witness :
  sources_of Scenario.env_import_down
    (raw_notes (initial_state Scenario.question)) = []
  /\ exists cmd k',
       finalizer Cli Scenario.env_import_down
         (initial_state Scenario.question) 4 = (Ok cmd, k')
       /\ goto cmd = END
       /\ final_report
            (apply_update (update cmd) (initial_state Scenario.question))
          = report_head (draft_report (initial_state Scenario.question))
            ++ source_lines 1 []
            ++ report_tail (now Scenario.env_import_down 4) []
                 (iteration_count (initial_state Scenario.question))
       /\ source_lines 1 [] = ""
       /\ has_final_report
            (apply_update (update cmd) (initial_state Scenario.question))
          = true.
Proof.
  apply (finalizer_without_notes Cli Scenario.env_import_down
           (initial_state Scenario.question) 4).
  reflexivity.
Defined.

(** ** The nodes, one step at a time *)

Lemma get_structured_response_snd E prompt c k :
  snd (get_structured_response E prompt c k) = S k.
Proof.
  rewrite get_structured_response_eq.
  destruct (generate_content E k (full_prompt prompt c)); reflexivity.
Qed.

(** A structured response fails only by the failure of the call of the
    model. *)
Lemma get_structured_response_raise E prompt c k e :
  fst (get_structured_response E prompt c k) = Raise e ->
  generate_content E k (full_prompt prompt c) = Raise e.
Proof.
  rewrite get_structured_response_eq.
  destruct (generate_content E k (full_prompt prompt c)); simpl; congruence.
Qed.

Lemma critic_agent_eq v E state k :
  critic_agent v E state k =
  match
    get_structured_response E
      (critique_prompt (st_research_brief state) (draft_report state))
      CCritique k
  with
  | (Ok critique, k') => (Ok (critic_command v state critique), k')
  | (Raise e, k') => (Raise e, k')
  end.
Proof.
  unfold critic_agent, bind, ret. cbn zeta.
  destruct (get_structured_response E _ CCritique k) as [[critique|e] k'];
    reflexivity.
Qed.

Lemma critic_command_revise v state critique :
  needs_revision critique = true ->
  (iteration_count state < MAX_ITERATIONS)%Z ->
  goto (critic_command v state critique) = n_writer_agent
  /\ iteration_count
       (apply_update (update (critic_command v state critique)) state)
     = (iteration_count state + 1)%Z
  /\ draft_report
       (apply_update (update (critic_command v state critique)) state)
     = draft_report state
  /\ raw_notes
       (apply_update (update (critic_command v state critique)) state)
     = raw_notes state.
Proof.
  intros Hrev Hlt. unfold critic_command.
  rewrite Hrev, (proj2 (Z.ltb_lt _ _) Hlt). destruct v; repeat split.
Qed.

Lemma critic_command_finalize v state critique :
  needs_revision critique = false
  \/ (MAX_ITERATIONS <= iteration_count state)%Z ->
  goto (critic_command v state critique) = n_finalizer
  /\ iteration_count
       (apply_update (update (critic_command v state critique)) state)
     = iteration_count state.
Proof.
  intros H. unfold critic_command.
  assert (Hc : needs_revision critique
               && (iteration_count state <? MAX_ITERATIONS)%Z = false).
  { destruct H as [H|H]; [now rewrite H|].
    rewrite (proj2 (Z.ltb_ge _ _) H). apply andb_false_r. }
  rewrite Hc. destruct v; split; reflexivity.
Qed.

(** The research stage never raises: a failed query adds no note. *)
Lemma research_loop_total E queries :
  forall i raw_notes progress_msg k,
  exists acc k',
    research_loop E i queries raw_notes progress_msg k = (Ok acc, k').
Proof.
  induction queries as [|query rest IH]; intros i raw progress_msg k.
  - eexists; eexists; reflexivity.
  - cbn [research_loop]. unfold bind at 1. unfold try_except, bind, call, ret.
    destruct (search_invoke E k query); apply IH.
Qed.

Lemma researcher_agent_total v E state k :
  exists raw_notes progress_msg k',
    researcher_agent v E state k
    = (Ok {| goto := n_synthesis_agent;
             update := U_raw_notes raw_notes :: progress v progress_msg |}, k').
Proof.
  unfold researcher_agent, bind, ret. cbn zeta.
  destruct (research_loop_total E (st_search_queries state) 1 []
              ("🔎 **Researching...** Executing "
               ++ PyStr.of_nat (List.length (st_search_queries state))
               ++ " search queries" ++ PyStr.nl ++ PyStr.nl) k)
    as (acc & k' & H).
  rewrite H. eauto.
Qed.

Lemma step_clarify v E state k c' :
  step v E (n_clarify_with_user, state, k) = Some c' ->
  same_count state (snd (fst c'))
  /\ (fst (fst c') = END \/ fst (fst c') = n_planner_agent).
Proof.
  unfold step, run_node, clarify_with_user, bind, ret. cbn zeta.
  rewrite get_structured_response_eq.
  destruct (generate_content E k _); [|discriminate].
  destruct (need_clarification _); intros H; inversion H; subst; clear H;
    split; (reflexivity || (now left) || (now right)).
Qed.

Lemma step_planner v E state k c' :
  step v E (n_planner_agent, state, k) = Some c' ->
  same_count state (snd (fst c')) /\ fst (fst c') = n_researcher_agent.
Proof.
  unfold step, run_node, planner_agent, bind, ret. cbn zeta.
  rewrite get_structured_response_eq.
  destruct (generate_content E k _); [|discriminate].
  rewrite get_structured_response_eq.
  destruct (generate_content E (S k) _); [|discriminate].
  intros H; inversion H; subst; clear H. destruct v; split; reflexivity.
Qed.

Lemma step_researcher v E state k c' :
  step v E (n_researcher_agent, state, k) = Some c' ->
  same_count state (snd (fst c')) /\ fst (fst c') = n_synthesis_agent.
Proof.
  unfold step, run_node.
  destruct (researcher_agent_total v E state k) as (r & m & k' & H).
  rewrite H. intros H'; inversion H'; subst; clear H'.
  destruct v; split; reflexivity.
Qed.

Lemma step_synthesis v E state k c' :
  step v E (n_synthesis_agent, state, k) = Some c' ->
  same_count state (snd (fst c')) /\ fst (fst c') = n_writer_agent.
Proof.
  unfold step, run_node, synthesis_agent, bind, call, lift, ret. cbn zeta.
  destruct (generate_content E k _) as [r|]; [|discriminate].
  destruct (text r); [|discriminate].
  intros H; inversion H; subst; clear H. destruct v; split; reflexivity.
Qed.

Lemma step_writer v E state k c' :
  step v E (n_writer_agent, state, k) = Some c' ->
  same_count state (snd (fst c')) /\ fst (fst c') = n_critic_agent.
Proof.
  unfold step, run_node.
  destruct (writer_agent_total v E state k) as (t & H).
  rewrite H. intros H'; inversion H'; subst; clear H'.
  destruct v; split; reflexivity.
Qed.

Lemma step_finalizer v E state k c' :
  step v E (n_finalizer, state, k) = Some c' ->
  same_count state (snd (fst c')) /\ fst (fst c') = END.
Proof.
  unfold step, run_node.
  destruct (finalizer_total v E state k) as (u & s & k' & H).
  rewrite H. intros H'; inversion H'; subst; clear H'.
  destruct v; split; reflexivity.
Qed.

(** The step of the critic: it raises the counter by one and goes back to
    the writer exactly when the critique asks for a revision and the
    counter is below the maximum; otherwise it goes to the finalizer and
    leaves the counter. *)
Lemma step_critic v E state k c' :
  step v E (n_critic_agent, state, k) = Some c' ->
  exists critique,
    fst (get_structured_response E
           (critique_prompt (st_research_brief state) (draft_report state))
           CCritique k) = Ok critique
    /\ ((needs_revision critique = true
         /\ (iteration_count state < MAX_ITERATIONS)%Z
         /\ fst (fst c') = n_writer_agent
         /\ iteration_count (snd (fst c')) = (iteration_count state + 1)%Z)
        \/ ((needs_revision critique = false
             \/ (MAX_ITERATIONS <= iteration_count state)%Z)
            /\ fst (fst c') = n_finalizer
            /\ same_count state (snd (fst c')))).
Proof.
  unfold step, run_node. rewrite critic_agent_eq.
  destruct (get_structured_response E _ CCritique k) as [[critique|e] k'];
    [|discriminate].
  intros H; inversion H; subst; clear H. exists critique.
  split; [reflexivity|]. cbn [fst snd].
  destruct (needs_revision critique) eqn:Hrev.
  - destruct (Z.lt_ge_cases (iteration_count state) MAX_ITERATIONS) as [Hlt|Hge].
    + left. destruct (critic_command_revise v state critique Hrev Hlt)
        as (Hg & Hc & _). now repeat split.
    + right. destruct (critic_command_finalize v state critique (or_intror Hge))
        as (Hg & Hc). now repeat split; [right| |].
  - right. destruct (critic_command_finalize v state critique (or_introl Hrev))
      as (Hg & Hc). now repeat split; [left| |].
Qed.

Lemma step_END v E state k c' :
  step v E (END, state, k) = Some c' -> same_count state (snd (fst c')).
Proof. intros H; inversion H; subst. reflexivity. Qed.

(** C1. The revision counter of a session starts at 0.  Across any stage
    transition it never decreases; it changes only by the critic stage,
    which adds exactly 1 and goes back to the writer, and only when the
    critique signals that a revision is needed while the counter is below
    the maximum, and then always.  At every point of every session, whatever
    the collaborators answer, it is between 0 and the maximum, which is 2. *)
Theorem revision_counter_invariant v E msgs :
  MAX_ITERATIONS = 2%Z
  /\ iteration_count (initial_state msgs) = 0%Z
  /\ (forall c,
        reachable v E msgs c ->
        (0 <= iteration_count (snd (fst c)) <= MAX_ITERATIONS)%Z)
  /\ (forall n state k c',
        step v E (n, state, k) = Some c' ->
        (iteration_count state <= iteration_count (snd (fst c')))%Z
        /\ (iteration_count (snd (fst c')) = iteration_count state
            \/ (iteration_count (snd (fst c')) = (iteration_count state + 1)%Z
                /\ n = n_critic_agent
                /\ fst (fst c') = n_writer_agent
                /\ (iteration_count state < MAX_ITERATIONS)%Z
                /\ exists critique,
                     fst (get_structured_response E
                            (critique_prompt (st_research_brief state)
                               (draft_report state)) CCritique k)
                     = Ok critique
                     /\ needs_revision critique = true)))
  /\ (forall state k critique,
        fst (get_structured_response E
               (critique_prompt (st_research_brief state) (draft_report state))
               CCritique k) = Ok critique ->
        needs_revision critique = true ->
        (iteration_count state < MAX_ITERATIONS)%Z ->
        exists c',
          step v E (n_critic_agent, state, k) = Some c'
          /\ fst (fst c') = n_writer_agent
          /\ iteration_count (snd (fst c')) = (iteration_count state + 1)%Z).
Proof.
  assert (Hstep : forall n state k c',
             step v E (n, state, k) = Some c' ->
             iteration_count (snd (fst c')) = iteration_count state
             \/ (iteration_count (snd (fst c')) = (iteration_count state + 1)%Z
                 /\ n = n_critic_agent
                 /\ fst (fst c') = n_writer_agent
                 /\ (iteration_count state < MAX_ITERATIONS)%Z
                 /\ exists critique,
                      fst (get_structured_response E
                             (critique_prompt (st_research_brief state)
                                (draft_report state)) CCritique k)
                      = Ok critique
                      /\ needs_revision critique = true)).
  { intros n state k c' H. destruct n.
    - left. apply (step_clarify v E state k c' H).
    - left. apply (step_planner v E state k c' H).
    - left. apply (step_researcher v E state k c' H).
    - left. apply (step_synthesis v E state k c' H).
    - left. apply (step_writer v E state k c' H).
    - destruct (step_critic v E state k c' H) as (critique & Hc & Hcase).
      destruct Hcase as [(Hrev & Hlt & Hgo & Hcount)|(_ & _ & Hsame)].
      + right. repeat split; try assumption. now exists critique.
      + left. exact Hsame.
    - left. apply (step_finalizer v E state k c' H).
    - left. apply (step_END v E state k c' H). }
  split; [reflexivity|]. split; [reflexivity|]. split; [|split].
  - intros c Hreach. induction Hreach as [|c c' Hreach IH Hn Hs].
    + simpl. unfold MAX_ITERATIONS. lia.
    + destruct c as [[n state] k]. cbn [fst snd] in *.
      destruct (Hstep n state k c' Hs) as [Heq|(Heq & _ & _ & Hlt & _)];
        rewrite Heq; lia.
  - intros n state k c' H. split; [|now apply Hstep].
    destruct (Hstep n state k c' H) as [Heq|(Heq & _)]; rewrite Heq; lia.
  - intros state k critique Hc Hrev Hlt.
    unfold step, run_node. rewrite critic_agent_eq.
    destruct (get_structured_response E _ CCritique k) as [[critique'|e] k'];
      cbn [fst] in Hc; [|discriminate].
    inversion Hc; subst critique'.
    eexists. split; [reflexivity|]. cbn [fst snd].
    destruct (critic_command_revise v state critique Hrev Hlt) as (Hg & Hi & _).
    now split.
Qed.

Lemma revision_counter_invariant_witness :
  (0 <= iteration_count
          (snd (fst (n_planner_agent,
                     apply_update
                       [U_messages [AIMessage "The request is clear."]]
                       (initial_state Scenario.question), 1%nat)))
   <= MAX_ITERATIONS)%Z
  /\ exists c',
       step Cli Scenario.env_revise (n_critic_agent, Scenario.drafted, 6)
       = Some c'
       /\ fst (fst c') = n_writer_agent
       /\ iteration_count (snd (fst c'))
          = (iteration_count Scenario.drafted + 1)%Z.
Proof.
  split.
  - apply (proj1 (proj2 (proj2 (revision_counter_invariant
                                  Cli Scenario.env_revise Scenario.question)))).
    apply (reach_step Cli Scenario.env_revise Scenario.question
             (n_clarify_with_user, initial_state Scenario.question, 0)).
    + apply reach_start.
    + discriminate.
    + reflexivity.
  - apply (proj2 (proj2 (proj2 (proj2 (revision_counter_invariant
                                         Cli Scenario.env_revise
                                         Scenario.question))))
             Scenario.drafted 6
             {| needs_revision := true; critique_reasoning := "too thin";
                specific_issues := ["no distances"];
                improvements := ["add distances"] |}).
    + reflexivity.
    + reflexivity.
    + reflexivity.
Defined.

(** ** Runs of the graph *)

Lemma run_step v E fuel n state k c' :
  step v E (n, state, k) = Some c' ->
  n <> END ->
  run v E (S fuel) n state k
  = (fst (run v E fuel (fst (fst c')) (snd (fst c')) (snd c')),
     n :: snd (run v E fuel (fst (fst c')) (snd (fst c')) (snd c'))).
Proof.
  intros H Hn. unfold step in H.
  destruct n; try congruence; cbn [run];
    match goal with
    | |- context [run_node v E ?n state k] =>
        destruct (run_node v E n state k) as [[cmd|e] k']
    end; inversion H; subst; reflexivity.
Qed.

Lemma run_step_eq v E fuel n state k c' r trace :
  step v E (n, state, k) = Some c' ->
  n <> END ->
  run v E fuel (fst (fst c')) (snd (fst c')) (snd c') = (r, trace) ->
  run v E (S fuel) n state k = (r, n :: trace).
Proof.
  intros Hs Hn Hr. rewrite (run_step _ _ _ _ _ _ _ Hs Hn), Hr. reflexivity.
Qed.

Lemma run_raise v E fuel n state k e :
  fst (run_node v E n state k) = Raise e ->
  n <> END ->
  run v E (S fuel) n state k = (Raised e, [n]).
Proof.
  intros H Hn.
  destruct n; try congruence; cbn [run];
    match goal with
    | |- context [run_node v E ?n state k] =>
        destruct (run_node v E n state k) as [[cmd|e'] k']
    end; cbn [fst] in H; inversion H; subst; reflexivity.
Qed.

Lemma run_END v E fuel state k :
  run v E fuel END state k = (Returned state, []).
Proof. destruct fuel; reflexivity. Qed.

(** A node either raises or makes a step. *)
Lemma step_or_raise v E n state k :
  (exists c', step v E (n, state, k) = Some c')
  \/ (exists e, fst (run_node v E n state k) = Raise e).
Proof.
  unfold step. destruct (run_node v E n state k) as [[cmd|e] k'].
  - left. eauto.
  - right. exists e. reflexivity.
Qed.

Lemma step_exists_researcher v E state k :
  exists c', step v E (n_researcher_agent, state, k) = Some c'.
Proof.
  unfold step, run_node.
  destruct (researcher_agent_total v E state k) as (r & m & k' & H).
  rewrite H. eauto.
Qed.

Lemma step_exists_writer v E state k :
  exists c', step v E (n_writer_agent, state, k) = Some c'.
Proof.
  unfold step, run_node.
  destruct (writer_agent_total v E state k) as (t & H). rewrite H. eauto.
Qed.

(** The step of the finalizer always exists and leaves a final report. *)
Lemma step_exists_finalizer v E state k :
  exists c',
    step v E (n_finalizer, state, k) = Some c'
    /\ fst (fst c') = END
    /\ has_final_report (snd (fst c')) = true
    /\ same_count state (snd (fst c')).
Proof.
  unfold step, run_node.
  destruct (finalizer_total v E state k) as (u & s & k' & H). rewrite H.
  eexists. split; [reflexivity|]. cbn [fst snd goto update].
  unfold has_final_report, same_count.
  destruct (finalized_fields v
              (formatted_report (now E k) (draft_report state)
                 (raw_notes state) (sources_of E (raw_notes state))
                 (iteration_count state)) u
              (s ++ "

---

" ++ formatted_report (now E k) (draft_report state)
                 (raw_notes state) (sources_of E (raw_notes state))
                 (iteration_count state)) state) as (Hr & _ & Hc & _).
  rewrite Hr, Hc. now repeat split.
Qed.

(** The errors the nodes can raise are errors of the model. *)
Lemma run_node_raise v E n state k e :
  fst (run_node v E n state k) = Raise e -> model_error E e.
Proof.
  destruct n; cbn [run_node].
  - unfold clarify_with_user, bind, ret. cbn zeta.
    rewrite get_structured_response_eq.
    destruct (generate_content E k _) eqn:Hg; [destruct (need_clarification _)|];
      cbn [fst]; intros H; inversion H; subst.
    eexists k, _. left. exact Hg.
  - unfold planner_agent, bind, ret. cbn zeta.
    rewrite get_structured_response_eq.
    destruct (generate_content E k _) eqn:Hg.
    + rewrite get_structured_response_eq.
      destruct (generate_content E (S k) _) eqn:Hg'; cbn [fst];
        intros H; inversion H; subst.
      eexists (S k), _. left. exact Hg'.
    + cbn [fst]; intros H; inversion H; subst. eexists k, _. left. exact Hg.
  - destruct (researcher_agent_total v E state k) as (r & m & k' & H).
    rewrite H. discriminate.
  - unfold synthesis_agent, bind, call, lift, ret. cbn zeta.
    destruct (generate_content E k _) as [r|e'] eqn:Hg.
    + destruct (text r) eqn:Ht; cbn [fst]; intros H; inversion H; subst.
      eexists k, _. right. exists r. split; [exact Hg|exact Ht].
    + cbn [fst]; intros H; inversion H; subst. eexists k, _. left. exact Hg.
  - destruct (writer_agent_total v E state k) as (t & H). rewrite H.
    discriminate.
  - intros H. rewrite critic_agent_eq in H.
    destruct (get_structured_response E _ CCritique k) as [[c|e'] k'] eqn:Hg;
      cbn [fst] in H; inversion H; subst.
    eexists k, _. left.
    apply get_structured_response_raise. now rewrite Hg.
  - destruct (finalizer_total v E state k) as (u & s & k' & H). rewrite H.
    discriminate.
  - discriminate.
Qed.

(** From the critic on: with fuel for the revisions that are left, the
    session ends with a final report, or with an error of the model. *)
Lemma run_from_critic v E :
  forall m state k fuel,
    Z.to_nat (MAX_ITERATIONS - iteration_count state) = m ->
    (2 * m + 2 <= fuel)%nat ->
    invoke_outcome E (fst (run v E fuel n_critic_agent state k)).
Proof.
  induction m as [|m IH]; intros state k fuel Hm Hfuel.
  - destruct fuel as [|fuel]; [lia|].
    destruct (step_or_raise v E n_critic_agent state k) as [[c' Hs]|[e He]].
    + rewrite (run_step _ _ _ _ _ _ _ Hs) by discriminate. cbn [fst].
      destruct (step_critic _ _ _ _ _ Hs) as (critique & _ & Hcase).
      destruct Hcase as [(_ & Hlt & _)|(_ & Hgo & _)]; [lia|].
      rewrite Hgo. destruct fuel as [|fuel]; [lia|].
      destruct (step_exists_finalizer v E (snd (fst c')) (snd c'))
        as (c'' & Hs' & Hgo' & Hrep & _).
      rewrite (run_step _ _ _ _ _ _ _ Hs') by discriminate. cbn [fst].
      rewrite Hgo', run_END. left. exact Hrep.
    + rewrite (run_raise _ _ _ _ _ _ _ He) by discriminate. cbn [fst].
      exact (run_node_raise _ _ _ _ _ _ He).
  - destruct fuel as [|fuel]; [lia|].
    destruct (step_or_raise v E n_critic_agent state k) as [[c' Hs]|[e He]].
    + rewrite (run_step _ _ _ _ _ _ _ Hs) by discriminate. cbn [fst].
      destruct (step_critic _ _ _ _ _ Hs) as (critique & _ & Hcase).
      destruct Hcase as [(_ & Hlt & Hgo & Hcount)|(_ & Hgo & _)].
      * rewrite Hgo. destruct fuel as [|fuel]; [lia|].
        destruct (step_exists_writer v E (snd (fst c')) (snd c')) as (c'' & Hs').
        rewrite (run_step _ _ _ _ _ _ _ Hs') by discriminate. cbn [fst].
        destruct (step_writer _ _ _ _ _ Hs') as (Hsame & Hgo').
        rewrite Hgo'. apply IH; [|lia].
        unfold same_count in Hsame. rewrite Hsame, Hcount. lia.
      * rewrite Hgo. destruct fuel as [|fuel]; [lia|].
        destruct (step_exists_finalizer v E (snd (fst c')) (snd c'))
          as (c'' & Hs' & Hgo' & Hrep & _).
        rewrite (run_step _ _ _ _ _ _ _ Hs') by discriminate. cbn [fst].
        rewrite Hgo', run_END. left. exact Hrep.
    + rewrite (run_raise _ _ _ _ _ _ _ He) by discriminate. cbn [fst].
      exact (run_node_raise _ _ _ _ _ _ He).
Qed.

Lemma step_clarify_END v E state k c' :
  step v E (n_clarify_with_user, state, k) = Some c' ->
  fst (fst c') = END ->
  exists q, snd (fst c') = apply_update [U_messages [AIMessage q]] state.
Proof.
  unfold step, run_node, clarify_with_user, bind, ret. cbn zeta.
  rewrite get_structured_response_eq.
  destruct (generate_content E k _); [|discriminate].
  destruct (need_clarification _); intros H; inversion H; subst; clear H;
    cbn [fst snd goto update]; [intros _; eexists; reflexivity|discriminate].
Qed.

Lemma awaits_after_question msgs q :
  awaits_clarification
    (apply_update [U_messages [AIMessage q]] (initial_state msgs)) = true.
Proof.
  unfold awaits_clarification. cbn [apply_update fold_left apply_field
    messages initial_state st_research_brief final_report].
  rewrite rev_unit. reflexivity.
Qed.

Ltac need_fuel fuel := destruct fuel as [|fuel]; [exfalso; lia|].

Lemma run_from_start v E msgs fuel :
  (11 <= fuel)%nat ->
  invoke_outcome E
    (fst (run v E fuel n_clarify_with_user (initial_state msgs) 0)).
Proof.
  intros Hfuel. need_fuel fuel.
  destruct (step_or_raise v E n_clarify_with_user (initial_state msgs) 0)
    as [[c1 H1]|[e He]];
    [|rewrite (run_raise _ _ _ _ _ _ _ He) by discriminate;
      exact (run_node_raise _ _ _ _ _ _ He)].
  rewrite (run_step _ _ _ _ _ _ _ H1) by discriminate. cbn [fst].
  destruct (step_clarify _ _ _ _ _ H1) as (Hc1 & [Hgo|Hgo]).
  { destruct (step_clarify_END _ _ _ _ _ H1 Hgo) as (q & Hq).
    rewrite Hgo, run_END, Hq. right. apply awaits_after_question. }
  rewrite Hgo. need_fuel fuel.
  destruct (step_or_raise v E n_planner_agent (snd (fst c1)) (snd c1))
    as [[c2 H2]|[e He]];
    [|rewrite (run_raise _ _ _ _ _ _ _ He) by discriminate;
      exact (run_node_raise _ _ _ _ _ _ He)].
  rewrite (run_step _ _ _ _ _ _ _ H2) by discriminate. cbn [fst].
  destruct (step_planner _ _ _ _ _ H2) as (Hc2 & Hgo2). rewrite Hgo2.
  need_fuel fuel.
  destruct (step_exists_researcher v E (snd (fst c2)) (snd c2)) as (c3 & H3).
  rewrite (run_step _ _ _ _ _ _ _ H3) by discriminate. cbn [fst].
  destruct (step_researcher _ _ _ _ _ H3) as (Hc3 & Hgo3). rewrite Hgo3.
  need_fuel fuel.
  destruct (step_or_raise v E n_synthesis_agent (snd (fst c3)) (snd c3))
    as [[c4 H4]|[e He]];
    [|rewrite (run_raise _ _ _ _ _ _ _ He) by discriminate;
      exact (run_node_raise _ _ _ _ _ _ He)].
  rewrite (run_step _ _ _ _ _ _ _ H4) by discriminate. cbn [fst].
  destruct (step_synthesis _ _ _ _ _ H4) as (Hc4 & Hgo4). rewrite Hgo4.
  need_fuel fuel.
  destruct (step_exists_writer v E (snd (fst c4)) (snd c4)) as (c5 & H5).
  rewrite (run_step _ _ _ _ _ _ _ H5) by discriminate. cbn [fst].
  destruct (step_writer _ _ _ _ _ H5) as (Hc5 & Hgo5). rewrite Hgo5.
  apply (run_from_critic v E 2); [|lia].
  unfold same_count in *. rewrite Hc5, Hc4, Hc3, Hc2, Hc1. reflexivity.
Qed.

(** What the caller of the workflow gets, whatever the collaborators do:
    a final report or a clarifying question, unless the text-generation
    collaborator fails in a stage that does not guard its call, in which
    case its error reaches the caller.  Failures of the search and of the
    archive never do, and the recursion limit is never hit. *)
Theorem workflow_outcome v E msgs :
  invoke_outcome E (workflow_invoke v E msgs).
Proof.
  unfold workflow_invoke, workflow_trace.
  apply run_from_start. unfold recursion_limit. lia.
Qed.

(** ** The bounded revision loop *)

Lemma step_clarify_proceeds v E state k :
  clarify_proceeds E ->
  exists c',
    step v E (n_clarify_with_user, state, k) = Some c'
    /\ fst (fst c') = n_planner_agent.
Proof.
  intros Hclar.
  destruct (Hclar k (clarify_prompt (conversation_of (messages state))))
    as (c & Hc & Hn).
  unfold step, run_node, clarify_with_user, bind, ret. cbn zeta.
  destruct (get_structured_response E _ CClarifyWithUser k) as [[c0|e] k'];
    cbn [fst] in Hc; inversion Hc; subst.
  rewrite Hn. eexists. split; reflexivity.
Qed.

Lemma step_exists_planner v E state k :
  llm_answers E -> exists c', step v E (n_planner_agent, state, k) = Some c'.
Proof.
  intros Hllm. unfold step, run_node, planner_agent, bind, ret. cbn zeta.
  rewrite get_structured_response_eq.
  destruct (Hllm k (full_prompt (brief_prompt (conversation_of (messages state)))
                      CResearchQuestion)) as (t & Ht).
  rewrite Ht. rewrite get_structured_response_eq.
  match goal with
  | |- context [generate_content E (S k) ?p] =>
      destruct (Hllm (S k) p) as (t' & Ht'); rewrite Ht'
  end.
  eauto.
Qed.

Lemma step_exists_synthesis v E state k :
  llm_answers E -> exists c', step v E (n_synthesis_agent, state, k) = Some c'.
Proof.
  intros Hllm. unfold step, run_node, synthesis_agent, bind, call, lift, ret.
  cbn zeta.
  match goal with
  | |- context [generate_content E k ?p] =>
      destruct (Hllm k p) as (t & Ht); rewrite Ht
  end.
  cbn [text]. eauto.
Qed.

(** With a critique that always asks for a revision, the critic goes back
    to the writer while the counter is below the maximum, and to the
    finalizer once it has reached it. *)
Lemma step_critic_revise v E state k :
  always_needs_revision E ->
  exists c',
    step v E (n_critic_agent, state, k) = Some c'
    /\ (((iteration_count state < MAX_ITERATIONS)%Z
         /\ fst (fst c') = n_writer_agent
         /\ iteration_count (snd (fst c')) = (iteration_count state + 1)%Z)
        \/ ((MAX_ITERATIONS <= iteration_count state)%Z
            /\ fst (fst c') = n_finalizer
            /\ same_count state (snd (fst c')))).
Proof.
  intros Hrev.
  destruct (Hrev k (critique_prompt (st_research_brief state)
                      (draft_report state))) as (c & Hc & Hn).
  destruct (step_or_raise v E n_critic_agent state k) as [[c' Hs]|[e He]].
  - exists c'. split; [exact Hs|].
    destruct (step_critic _ _ _ _ _ Hs) as (critique & Hcr & Hcase).
    rewrite Hc in Hcr. inversion Hcr; subst critique.
    destruct Hcase as [(_ & Hlt & Hgo & Hcount)|([Hno|Hge] & Hgo & Hsame)].
    + left. now repeat split.
    + congruence.
    + right. now repeat split.
  - cbn [run_node] in He. rewrite critic_agent_eq in He.
    destruct (get_structured_response E _ CCritique k) as [[c0|e0] k'];
      cbn [fst] in Hc, He; congruence.
Qed.

Lemma run_all_revise v E msgs fuel :
  llm_answers E -> clarify_proceeds E -> always_needs_revision E ->
  (11 <= fuel)%nat ->
  exists state,
    run v E fuel n_clarify_with_user (initial_state msgs) 0
    = (Returned state,
       [n_clarify_with_user; n_planner_agent; n_researcher_agent;
        n_synthesis_agent; n_writer_agent; n_critic_agent; n_writer_agent;
        n_critic_agent; n_writer_agent; n_critic_agent; n_finalizer])
    /\ iteration_count state = 2%Z
    /\ has_final_report state = true.
Proof.
  intros Hllm Hclar Hrev Hfuel. unfold same_count in *.
  destruct (step_clarify_proceeds v E (initial_state msgs) 0 Hclar)
    as (c1 & H1 & G1).
  pose proof (proj1 (step_clarify _ _ _ _ _ H1)) as S1.
  destruct (step_exists_planner v E (snd (fst c1)) (snd c1) Hllm) as (c2 & H2).
  destruct (step_planner _ _ _ _ _ H2) as (S2 & G2).
  destruct (step_exists_researcher v E (snd (fst c2)) (snd c2)) as (c3 & H3).
  destruct (step_researcher _ _ _ _ _ H3) as (S3 & G3).
  destruct (step_exists_synthesis v E (snd (fst c3)) (snd c3) Hllm) as (c4 & H4).
  destruct (step_synthesis _ _ _ _ _ H4) as (S4 & G4).
  destruct (step_exists_writer v E (snd (fst c4)) (snd c4)) as (c5 & H5).
  destruct (step_writer _ _ _ _ _ H5) as (S5 & G5).
  unfold same_count in *.
  assert (N5 : iteration_count (snd (fst c5)) = 0%Z)
    by (rewrite S5, S4, S3, S2, S1; reflexivity).
  destruct (step_critic_revise v E (snd (fst c5)) (snd c5) Hrev)
    as (c6 & H6 & [(_ & G6 & N6)|(L6 & _)]);
    [|unfold MAX_ITERATIONS in L6; lia].
  destruct (step_exists_writer v E (snd (fst c6)) (snd c6)) as (c7 & H7).
  destruct (step_writer _ _ _ _ _ H7) as (S7 & G7).
  destruct (step_critic_revise v E (snd (fst c7)) (snd c7) Hrev)
    as (c8 & H8 & [(_ & G8 & N8)|(L8 & _)]);
    [|unfold same_count, MAX_ITERATIONS in *; lia].
  destruct (step_exists_writer v E (snd (fst c8)) (snd c8)) as (c9 & H9).
  destruct (step_writer _ _ _ _ _ H9) as (S9 & G9).
  destruct (step_critic_revise v E (snd (fst c9)) (snd c9) Hrev)
    as (c10 & H10 & [(L10 & _)|(_ & G10 & S10)]);
    [unfold same_count, MAX_ITERATIONS in *; lia|].
  destruct (step_exists_finalizer v E (snd (fst c10)) (snd c10))
    as (c11 & H11 & G11 & R11 & S11).
  exists (snd (fst c11)). split; [|split; [|exact R11]].
  - do 11 need_fuel fuel.
    eapply run_step_eq; [exact H1|discriminate|rewrite G1].
    eapply run_step_eq; [exact H2|discriminate|rewrite G2].
    eapply run_step_eq; [exact H3|discriminate|rewrite G3].
    eapply run_step_eq; [exact H4|discriminate|rewrite G4].
    eapply run_step_eq; [exact H5|discriminate|rewrite G5].
    eapply run_step_eq; [exact H6|discriminate|rewrite G6].
    eapply run_step_eq; [exact H7|discriminate|rewrite G7].
    eapply run_step_eq; [exact H8|discriminate|rewrite G8].
    eapply run_step_eq; [exact H9|discriminate|rewrite G9].
    eapply run_step_eq; [exact H10|discriminate|rewrite G10].
    eapply run_step_eq; [exact H11|discriminate|rewrite G11].
    apply run_END.
  - unfold same_count in *. lia.
Qed.

(** C2. Whenever the critic stage runs with the revision counter at the
    maximum, it goes to the finalizer whatever the critique says, never
    back to the writer, and it leaves the counter; it can only fail by the
    failure of the call of the model.  Consequently, in a session whose
    model answers, whose clarification stage proceeds and whose critique
    asks for a revision on every invocation, the writer is invoked exactly
    3 times, the finalizer is reached right after the third critique, and
    the session ends with a final report and the counter at 2. *)
Theorem revision_stops_at_maximum v E :
  (forall state k,
      (MAX_ITERATIONS <= iteration_count state)%Z ->
      match fst (critic_agent v E state k) with
      | Ok cmd =>
          goto cmd = n_finalizer
          /\ iteration_count (apply_update (update cmd) state)
             = iteration_count state
      | Raise e =>
          generate_content E k
            (full_prompt
               (critique_prompt (st_research_brief state) (draft_report state))
               CCritique) = Raise e
      end)
  /\ (forall msgs,
        llm_answers E -> clarify_proceeds E -> always_needs_revision E ->
        exists state,
          workflow_trace v E msgs
          = (Returned state,
             [n_clarify_with_user; n_planner_agent; n_researcher_agent;
              n_synthesis_agent; n_writer_agent; n_critic_agent;
              n_writer_agent; n_critic_agent; n_writer_agent;
              n_critic_agent; n_finalizer])
          /\ writer_invocations (snd (workflow_trace v E msgs)) = 3
          /\ iteration_count state = 2%Z
          /\ has_final_report state = true).
Proof.
  split.
  - intros state k Hmax. rewrite critic_agent_eq.
    destruct (get_structured_response E _ CCritique k) as [[critique|e] k']
      eqn:Hg; cbn [fst].
    + apply critic_command_finalize. now right.
    + apply get_structured_response_raise. now rewrite Hg.
  - intros msgs Hllm Hclar Hrev.
    destruct (run_all_revise v E msgs recursion_limit Hllm Hclar Hrev)
      as (state & Hrun & Hcount & Hrep); [unfold recursion_limit; lia|].
    exists state. unfold workflow_trace. rewrite Hrun. now repeat split.
Qed.

Lemma env_revise_answers : llm_answers Scenario.env_revise.
Proof. intros k p. eexists. reflexivity. Qed.

Lemma env_revise_proceeds : clarify_proceeds Scenario.env_revise.
Proof.
  intros k p.
  exists {| need_clarification := false; question := "";
            verification := "The request is clear." |}.
  split; reflexivity.
Qed.

Lemma env_revise_always : always_needs_revision Scenario.env_revise.
Proof.
  intros k p.
  exists {| needs_revision := true; critique_reasoning := "too thin";
            specific_issues := ["no distances"];
            improvements := ["add distances"] |}.
  split; reflexivity.
Qed.

Lemma revision_stops_at_maximum_witness :
  match
    fst (critic_agent Api Scenario.env_revise
           (apply_field (U_iteration_count 2) Scenario.drafted) 10)
  with
  | Ok cmd =>
      goto cmd = n_finalizer
      /\ iteration_count
           (apply_update (update cmd)
              (apply_field (U_iteration_count 2) Scenario.drafted))
         = iteration_count (apply_field (U_iteration_count 2) Scenario.drafted)
  | Raise e =>
      generate_content Scenario.env_revise 10
        (full_prompt
           (critique_prompt
              (st_research_brief
                 (apply_field (U_iteration_count 2) Scenario.drafted))
              (draft_report
                 (apply_field (U_iteration_count 2) Scenario.drafted)))
           CCritique) = Raise e
  end
  /\ exists state,
       workflow_trace Cli Scenario.env_revise Scenario.question
       = (Returned state,
          [n_clarify_with_user; n_planner_agent; n_researcher_agent;
           n_synthesis_agent; n_writer_agent; n_critic_agent;
           n_writer_agent; n_critic_agent; n_writer_agent;
           n_critic_agent; n_finalizer])
       /\ writer_invocations
            (snd (workflow_trace Cli Scenario.env_revise Scenario.question))
          = 3
       /\ iteration_count state = 2%Z
       /\ has_final_report state = true.
Proof.
  split.
  - apply (proj1 (revision_stops_at_maximum Api Scenario.env_revise)
             (apply_field (U_iteration_count 2) Scenario.drafted) 10).
    vm_compute. discriminate.
  - apply (proj2 (revision_stops_at_maximum Cli Scenario.env_revise)
             Scenario.question).
    + exact env_revise_answers.
    + exact env_revise_proceeds.
    + exact env_revise_always.
Defined.

(** ** Failures of the collaborators *)

(** A request that needs clarification ends the session at once with the
    question as last message and no research brief. *)
Example clarification_returns_question :
  exists state,
    workflow_trace Cli Scenario.env_ask Scenario.question
    = (Returned state, [n_clarify_with_user])
    /\ messages state
       = [HumanMessage "best hiking trails near Denver";
          AIMessage "Which region do you mean?"]
    /\ st_research_brief state = ""
    /\ awaits_clarification state = true.
Proof.
  exists (returned_state (workflow_invoke Cli Scenario.env_ask Scenario.question)).
  repeat split; vm_compute; reflexivity.
Qed.

(** C5, on the code. The promise that the caller always receives a final
    report or a clarifying question, and never an error of a collaborator,
    is not kept: the call of the text-generation collaborator is outside
    the [try] of the structured-response operation and unguarded in the
    synthesis stage, so that its failure in the clarification stage or in
    the synthesis stage is raised to the caller of the workflow, in both
    variants; the same failure in the writer stage, which guards the call,
    is absorbed and the session ends with a final report. *)
Theorem model_failure_reaches_caller :
  workflow_trace Cli Scenario.env_llm_down Scenario.question
  = (Raised "503 Service Unavailable", [n_clarify_with_user])
  /\ workflow_trace Api Scenario.env_llm_down Scenario.question
     = (Raised "503 Service Unavailable", [n_clarify_with_user])
  /\ workflow_trace Cli Scenario.env_synthesis_down Scenario.question
     = (Raised "429 Resource exhausted",
        [n_clarify_with_user; n_planner_agent; n_researcher_agent;
         n_synthesis_agent])
  /\ workflow_trace Api Scenario.env_synthesis_down Scenario.question
     = (Raised "429 Resource exhausted",
        [n_clarify_with_user; n_planner_agent; n_researcher_agent;
         n_synthesis_agent])
  /\ exists state,
       workflow_trace Cli Scenario.env_writer_down Scenario.question
       = (Returned state,
          [n_clarify_with_user; n_planner_agent; n_researcher_agent;
           n_synthesis_agent; n_writer_agent; n_critic_agent; n_finalizer])
       /\ has_final_report state = true
       /\ draft_report state
          = writer_fallback "429 Resource exhausted" [Scenario.answer "accept"].
Proof.
  repeat split; try (vm_compute; reflexivity).
  exists (returned_state
            (workflow_invoke Cli Scenario.env_writer_down Scenario.question)).
  repeat split; vm_compute; reflexivity.
Qed.

(** * Further properties of the code *)

(** ** Characters in strings *)

Lemma prefix1_cons c a s :
  String.prefix (String c "") (String a s) = Ascii.eqb c a.
Proof.
  cbn [String.prefix]. destruct (ascii_dec c a) as [->|Hne].
  - now rewrite prefix_empty, Ascii.eqb_refl.
  - symmetry. now apply Ascii.eqb_neq.
Qed.

Lemma contains1_cons c a s :
  PyStr.contains (String c "") (String a s)
  = Ascii.eqb c a || PyStr.contains (String c "") s.
Proof. cbn [PyStr.contains]. now rewrite prefix1_cons. Qed.

Lemma contains1_nil c : PyStr.contains (String c "") "" = false.
Proof. reflexivity. Qed.

Lemma contains1_app c a b :
  PyStr.contains (String c "") (a ++ b)
  = PyStr.contains (String c "") a || PyStr.contains (String c "") b.
Proof.
  induction a as [|x a IH].
  - reflexivity.
  - change (String x a ++ b) with (String x (a ++ b)).
    now rewrite !contains1_cons, IH, orb_assoc.
Qed.

Lemma contains1_lstrip c s :
  PyStr.contains (String c "") s = false ->
  PyStr.contains (String c "") (PyStr.lstrip s) = false.
Proof.
  induction s as [|a s IH]; [reflexivity|].
  intros H. cbn [PyStr.lstrip]. destruct (PyStr.is_space a); [|exact H].
  rewrite contains1_cons in H. apply orb_false_iff in H. now apply IH.
Qed.

Lemma contains1_rstrip c s :
  PyStr.contains (String c "") s = false ->
  PyStr.contains (String c "") (PyStr.rstrip s) = false.
Proof.
  induction s as [|a s IH]; [reflexivity|].
  intros H. rewrite contains1_cons in H. apply orb_false_iff in H.
  destruct H as [Ha Hs]. cbn [PyStr.rstrip].
  specialize (IH Hs). destruct (PyStr.rstrip s) as [|b r].
  - destruct (PyStr.is_space a); [reflexivity|].
    now rewrite contains1_cons, Ha.
  - now rewrite contains1_cons, Ha, IH.
Qed.

Lemma contains1_strip c s :
  PyStr.contains (String c "") s = false ->
  PyStr.contains (String c "") (PyStr.strip s) = false.
Proof. intros H. now apply contains1_rstrip, contains1_lstrip. Qed.

Lemma contains1_take c n s :
  PyStr.contains (String c "") s = false ->
  PyStr.contains (String c "") (PyStr.take n s) = false.
Proof.
  revert s; induction n as [|n IH]; intros [|a s] H; try reflexivity.
  rewrite contains1_cons in H. apply orb_false_iff in H. destruct H as [Ha Hs].
  cbn [PyStr.take]. now rewrite contains1_cons, Ha, IH.
Qed.

Lemma length_append (a b : string) :
  String.length (a ++ b) = String.length a + String.length b.
Proof. induction a as [|x a IH]; simpl; [reflexivity|now rewrite IH]. Qed.

Lemma take_length_eq n s :
  (n <= String.length s)%nat -> String.length (PyStr.take n s) = n.
Proof.
  revert s; induction n as [|n IH]; intros [|a s] H; simpl in *; try lia.
  rewrite IH; lia.
Qed.

Lemma take_all n s : (String.length s <= n)%nat -> PyStr.take n s = s.
Proof.
  revert s; induction n as [|n IH]; intros [|a s] H; simpl in *;
    try reflexivity; try lia.
  rewrite IH; [reflexivity|lia].
Qed.

Lemma truthy_length s : (0 < String.length s)%nat -> truthy s = true.
Proof. destruct s; simpl; [lia|reflexivity]. Qed.

(** ** [clean_tag] *)

Lemma replace_comma_free s :
  PyStr.contains "," (PyStr.replace_from "," " -" 0 s) = false.
Proof.
  induction s as [|a s IH]; [reflexivity|].
  cbn [PyStr.replace_from String.length Nat.sub].
  change "," with (String "," "") at 1. rewrite prefix1_cons.
  destruct (Ascii.eqb "," a) eqn:Ha.
  - change (" -" ++ PyStr.replace_from "," " -" 0 s)
      with (String " " (String "-" (PyStr.replace_from "," " -" 0 s))).
    change "," with (String "," ""). rewrite !contains1_cons.
    change (String "," "") with ",". now rewrite IH.
  - change "," with (String "," "") at 1. rewrite contains1_cons, Ha.
    exact IH.
Qed.

Lemma clean_tag_ok tag :
  truthy (clean_tag tag) = true
  /\ (String.length (clean_tag tag) <= 100)%nat
  /\ PyStr.contains "," (clean_tag tag) = false.
Proof.
  unfold clean_tag. destruct (truthy tag); cbn [negb];
    [|repeat split; simpl; lia].
  set (cleaned := PyStr.strip (PyStr.replace "," " -" tag)).
  assert (Hc : PyStr.contains "," cleaned = false).
  { apply (contains1_strip ","). apply replace_comma_free. }
  destruct (Nat.ltb_spec 100 (String.length cleaned)) as [Hlong|Hshort].
  - assert (Hlen : String.length (PyStr.take 97 cleaned ++ "...") = 100).
    { rewrite length_append, take_length_eq by lia. reflexivity. }
    rewrite (truthy_length (PyStr.take 97 cleaned ++ "...")) by lia.
    split; [apply truthy_length; lia|]. split; [lia|].
    change "," with (String "," ""). rewrite contains1_app.
    change (String "," "") with ",".
    now rewrite (contains1_take "," 97 cleaned Hc).
  - destruct cleaned as [|a r] eqn:Hs; [repeat split; simpl; lia|].
    rewrite truthy_cons. now repeat split.
Qed.

(** X9. Whatever the topic, [clean_tag] returns a tag that is not empty,
    has at most 100 characters and holds no comma. *)
Theorem clean_tag_valid tag :
  truthy (clean_tag tag) = true
  /\ (String.length (clean_tag tag) <= 100)%nat
  /\ PyStr.contains "," (clean_tag tag) = false.
Proof. exact (clean_tag_ok tag). Qed.

(** ** The page sent to the archive *)

Lemma extract_title_length draft :
  (String.length (extract_title draft) <= 100)%nat.
Proof.
  unfold extract_title. cbn zeta. rewrite title_loop_find.
  destruct (find title_candidate _); [apply take_length|simpl; lia].
Qed.

(** X10. The properties of the archive page respect the limits they are
    cut to: the topic has at most 100 characters, the brief at most 2000,
    there are at most 3 tags, and every tag is not empty, has at most 100
    characters and no comma.  For a request of the finalizer the topic is
    the whole title. *)
Theorem page_properties_within_limits now_iso request :
  let p := build_properties now_iso request in
  (String.length (prop_topic p) <= 100)%nat
  /\ (String.length (prop_brief p) <= 2000)%nat
  /\ (List.length (prop_tags p) <= 3)%nat
  /\ (forall tag,
        In tag (prop_tags p) ->
        truthy tag = true
        /\ (String.length tag <= 100)%nat
        /\ PyStr.contains "," tag = false)
  /\ (forall E now state,
        request = archive_request E now state -> prop_topic p = prop_name p).
Proof.
  cbn zeta. cbn [build_properties prop_topic prop_brief prop_tags prop_name].
  split; [apply take_length|]. split; [apply take_length|].
  split; [rewrite length_map; apply firstn_le_length|].
  split.
  - intros tag Hin. apply in_map_iff in Hin. destruct Hin as (t & <- & _).
    apply clean_tag_ok.
  - intros E now state ->. apply take_all.
    cbn [archive_request pr_title]. apply extract_title_length.
Qed.

Lemma page_properties_within_limits_witness :
  prop_topic (build_properties "2025-01-01T12:00:00"
                (archive_request Scenario.env_accept "2025-01-01 12:00:00"
                   Scenario.drafted))
  = prop_name (build_properties "2025-01-01T12:00:00"
                 (archive_request Scenario.env_accept "2025-01-01 12:00:00"
                    Scenario.drafted)).
Proof.
  apply (proj2 (proj2 (proj2 (proj2
           (page_properties_within_limits "2025-01-01T12:00:00"
              (archive_request Scenario.env_accept "2025-01-01 12:00:00"
                 Scenario.drafted)))))
           Scenario.env_accept "2025-01-01 12:00:00" Scenario.drafted).
  reflexivity.
Defined.

Lemma length_if_list {A} (b : bool) (l : list A) :
  (List.length (if b then l else []) <= List.length l)%nat.
Proof. destruct b; simpl; lia. Qed.

(** X12. Whatever the report, the body of the archive page opens with the
    report heading and a divider, closes with a divider and the callout,
    and has between 4 and 32 blocks; it lists at most 10 findings and 10
    recommendations, and a toggle holds at most 25 sources. *)
Theorem page_body_is_bounded now s sources_count :
  let children := build_children now s sources_count in
  (4 <= List.length children <= 32)%nat
  /\ firstn 2 children = [Heading1 "📊 Research Report"; Divider]
  /\ (exists middle callout,
        children
        = ([Heading1 "📊 Research Report"; Divider] ++ middle
           ++ [Divider; Callout callout "🤖"])%list)
  /\ (List.length (filter (fun b => match b with BulletedItem _ => true
                                              | _ => false end) children)
      <= 10)%nat
  /\ (List.length (filter (fun b => match b with NumberedItem _ => true
                                              | _ => false end) children)
      <= 10)%nat
  /\ (forall t inner,
        In (Toggle t inner) children -> (List.length inner <= 25)%nat).
Proof.
  cbn zeta. unfold build_children.
  split; [|split; [reflexivity|split]].
  - rewrite !length_app.
    destruct (truthy (text_of (executive_summary s)));
      destruct (nonempty (items_of (key_findings s)));
      destruct (truthy (text_of (detailed_analysis s)));
      destruct (nonempty (items_of (recommendations s)));
      destruct (nonempty (items_of (sources s)));
      cbn [List.length]; rewrite ?length_map, ?length_firstn; lia.
  - match goal with
    | |- exists middle callout,
          ([_; _] ++ ?a ++ ?b ++ ?c ++ ?d ++ ?e ++ [_; Callout ?t _])%list = _ =>
        exists (a ++ b ++ c ++ d ++ e)%list, t
    end.
    rewrite <- !app_assoc. reflexivity.
  - assert (Hb : forall l : list string,
               filter (fun b => match b with BulletedItem _ => true
                                          | _ => false end)
                 (map NumberedItem l) = []).
    { induction l; simpl; auto. }
    assert (Hb' : forall l : list string,
               filter (fun b => match b with BulletedItem _ => true
                                          | _ => false end)
                 (map BulletedItem l) = map BulletedItem l).
    { induction l; simpl; [reflexivity|now f_equal]. }
    assert (Hn : forall l : list string,
               filter (fun b => match b with NumberedItem _ => true
                                          | _ => false end)
                 (map BulletedItem l) = []).
    { induction l; simpl; auto. }
    assert (Hn' : forall l : list string,
               filter (fun b => match b with NumberedItem _ => true
                                          | _ => false end)
                 (map NumberedItem l) = map NumberedItem l).
    { induction l; simpl; [reflexivity|now f_equal]. }
    split; [|split].
    + rewrite !filter_app, !length_app.
      destruct (truthy (text_of (executive_summary s)));
        destruct (nonempty (items_of (key_findings s)));
        destruct (truthy (text_of (detailed_analysis s)));
        destruct (nonempty (items_of (recommendations s)));
        destruct (nonempty (items_of (sources s)));
        cbn [filter List.length]; rewrite ?Hb, ?Hb';
        cbn [List.length]; rewrite ?length_map, ?length_firstn; lia.
    + rewrite !filter_app, !length_app.
      destruct (truthy (text_of (executive_summary s)));
        destruct (nonempty (items_of (key_findings s)));
        destruct (truthy (text_of (detailed_analysis s)));
        destruct (nonempty (items_of (recommendations s)));
        destruct (nonempty (items_of (sources s)));
        cbn [filter List.length]; rewrite ?Hn, ?Hn';
        cbn [List.length]; rewrite ?length_map, ?length_firstn; lia.
    + intros t inner Hin.
      pose proof (firstn_le_length 25 (items_of (sources s))) as Hlen.
      remember (firstn 25 (items_of (sources s))) as listed eqn:Hl.
      remember (firstn 10 (items_of (key_findings s))) as found eqn:Hf.
      remember (firstn 10 (items_of (recommendations s))) as advised eqn:Ha.
      clear Hl Hf Ha.
      repeat (apply in_app_or in Hin; destruct Hin as [Hin|Hin]).
      * cbn [In] in Hin. intuition discriminate.
      * destruct (truthy _); cbn [In] in Hin; intuition discriminate.
      * destruct (nonempty _); cbn [In] in Hin; [|tauto].
        destruct Hin as [Hin|Hin]; [discriminate|].
        apply in_map_iff in Hin. destruct Hin as (x & Hx & _). discriminate.
      * destruct (truthy _); cbn [In] in Hin; intuition discriminate.
      * destruct (nonempty _); cbn [In] in Hin; [|tauto].
        destruct Hin as [Hin|Hin]; [discriminate|].
        apply in_map_iff in Hin. destruct Hin as (x & Hx & _). discriminate.
      * destruct (nonempty _); cbn [In] in Hin; [|tauto].
        destruct Hin as [Hin|[Hin|[]]]; [discriminate|].
        injection Hin as _ Hi. rewrite <- Hi, length_map. exact Hlen.
      * cbn [In] in Hin. intuition discriminate.
Qed.

Lemma page_body_is_bounded_witness :
  (List.length
     (toggled_sources
        (request_children "2025-01-01 12:00:00"
           (archive_request Scenario.env_accept "2025-01-01 12:00:00"
              Scenario.drafted))) <= 25)%nat.
Proof.
  apply (proj2 (proj2 (proj2 (proj2 (proj2
           (page_body_is_bounded "2025-01-01 12:00:00"
              (parse_report_sections
                 (pr_report_content
                    (archive_request Scenario.env_accept "2025-01-01 12:00:00"
                       Scenario.drafted))) 1)))))
           "View all 1 sources").
  vm_compute. tauto.
Defined.

(** ** Lines *)

Lemma prefix_nl_true c s :
  String.prefix PyStr.nl (String c s) = Ascii.eqb (ascii_of_nat 10) c.
Proof. unfold PyStr.nl. apply prefix1_cons. Qed.

(** Splitting at the newlines distributes over a newline. *)
Lemma split_from_app cur a b :
  PyStr.split_from PyStr.nl 0 cur (a ++ PyStr.nl ++ b)
  = (removelast (PyStr.split_from PyStr.nl 0 cur a)
     ++ [last (PyStr.split_from PyStr.nl 0 cur a) ""]
     ++ PyStr.split_from PyStr.nl 0 "" b)%list
  /\ PyStr.split_from PyStr.nl 0 cur a <> [].
Proof.
  revert cur. induction a as [|c a IH]; intros cur.
  - split; [|discriminate].
    change ("" ++ PyStr.nl ++ b) with (String (ascii_of_nat 10) b).
    cbn [PyStr.split_from]. rewrite prefix_nl_true, Ascii.eqb_refl.
    reflexivity.
  - change (String c a ++ PyStr.nl ++ b) with (String c (a ++ PyStr.nl ++ b)).
    cbn [PyStr.split_from]. rewrite !prefix_nl_true.
    destruct (Ascii.eqb (ascii_of_nat 10) c).
    + split; [|discriminate].
      change (String.length PyStr.nl - 1) with 0.
      destruct (IH "") as [IH1 IH2]. rewrite IH1.
      destruct (PyStr.split_from PyStr.nl 0 "" a) as [|p ps] eqn:Hs;
        [congruence|]. reflexivity.
    + apply IH.
Qed.

Lemma split_app a b :
  PyStr.split PyStr.nl (a ++ PyStr.nl ++ b)
  = (PyStr.split PyStr.nl a ++ PyStr.split PyStr.nl b)%list.
Proof.
  unfold PyStr.split. destruct (split_from_app "" a b) as [H Hne].
  rewrite H. rewrite app_assoc. f_equal.
  symmetry. now apply app_removelast_last.
Qed.

Lemma split_from_nonempty sep skip cur s :
  PyStr.split_from sep skip cur s <> [].
Proof.
  revert skip cur. induction s as [|c s IH]; intros skip cur; [discriminate|].
  cbn [PyStr.split_from]. destruct skip; [|apply IH].
  destruct (String.prefix sep (String c s)); [discriminate|apply IH].
Qed.

(** No piece of a split at the newlines holds a newline. *)
Lemma split_from_pieces cur s :
  PyStr.contains PyStr.nl cur = false ->
  Forall (fun piece => PyStr.contains PyStr.nl piece = false)
    (PyStr.split_from PyStr.nl 0 cur s).
Proof.
  revert cur. induction s as [|c s IH]; intros cur Hcur.
  - repeat constructor. exact Hcur.
  - cbn [PyStr.split_from]. rewrite prefix_nl_true.
    destruct (Ascii.eqb (ascii_of_nat 10) c) eqn:Hc.
    + constructor; [exact Hcur|]. now apply IH.
    + apply IH. unfold PyStr.nl in *. rewrite contains1_app, Hcur.
      now rewrite contains1_cons, Hc.
Qed.

(** ** The sections of a report *)

Lemma scan_lines_plain lines :
  forall current_section current_content s,
    (forall line, In line lines ->
                  heading_of (PyStr.strip (lower line)) = None) ->
    exists content,
      scan_lines lines current_section current_content s
      = (current_section, content, s).
Proof.
  induction lines as [|line rest IH]; intros cur content s Hplain.
  - eexists. reflexivity.
  - cbn [scan_lines]. rewrite (Hplain line (or_introl eq_refl)).
    destruct (truthy (PyStr.strip line) && negb (PyStr.startswith "=" line));
      apply IH; intros l Hl; apply Hplain; now right.
Qed.

Lemma scan_lines_app lines1 lines2 :
  forall current_section current_content s,
    scan_lines (lines1 ++ lines2) current_section current_content s
    = let '(c, content, s') :=
        scan_lines lines1 current_section current_content s in
      scan_lines lines2 c content s'.
Proof.
  induction lines1 as [|line rest IH]; intros cur content s; [reflexivity|].
  cbn [app scan_lines].
  destruct (heading_of (PyStr.strip (lower line))); [apply IH|].
  destruct (truthy (PyStr.strip line) && negb (PyStr.startswith "=" line));
    apply IH.
Qed.

(** X11. What precedes the first heading of a report never reaches the
    page: a report none of whose lines is a heading has no section at all,
    and lines without heading put before a report that opens with a
    heading line change nothing of its sections. *)
Theorem text_before_first_heading_is_dropped :
  (forall report,
      (forall line, In line (PyStr.split PyStr.nl report) ->
                    heading_of (PyStr.strip (lower line)) = None) ->
      parse_report_sections report
      = {| executive_summary := None; key_findings_text := None;
           detailed_analysis := None; recommendations_text := None;
           sources_text := None; key_findings := None;
           recommendations := None; sources := None |})
  /\ (forall preamble report key,
        (forall line, In line (PyStr.split PyStr.nl preamble) ->
                      heading_of (PyStr.strip (lower line)) = None) ->
        heading_of
          (PyStr.strip (lower (PyStr.first (PyStr.split PyStr.nl report))))
        = Some key ->
        parse_report_sections (preamble ++ PyStr.nl ++ report)
        = parse_report_sections report).
Proof.
  split.
  - intros report Hplain. unfold parse_report_sections. cbn zeta.
    destruct (scan_lines_plain _ None [] no_sections Hplain) as (content & H).
    rewrite H. reflexivity.
  - intros preamble report key Hplain Hhead.
    unfold parse_report_sections. cbn zeta.
    rewrite split_app, scan_lines_app.
    destruct (scan_lines_plain _ None [] no_sections Hplain) as (content & H).
    rewrite H. unfold PyStr.split in *.
    destruct (PyStr.split_from PyStr.nl 0 "" report) as [|line rest] eqn:Hs;
      [now apply split_from_nonempty in Hs|].
    cbn [PyStr.first hd] in Hhead. cbn [scan_lines]. rewrite Hhead.
    reflexivity.
Qed.

Lemma text_before_first_heading_is_dropped_witness :
  parse_report_sections
    ("Denver Foothills Trail Guide" ++ PyStr.nl
     ++ "EXECUTIVE SUMMARY" ++ PyStr.nl ++ "Bear Peak is the best hike.")
  = parse_report_sections
      ("EXECUTIVE SUMMARY" ++ PyStr.nl ++ "Bear Peak is the best hike.").
Proof.
  apply (proj2 text_before_first_heading_is_dropped
           "Denver Foothills Trail Guide"
           ("EXECUTIVE SUMMARY" ++ PyStr.nl ++ "Bear Peak is the best hike.")
           K_executive_summary).
  - intros line [<-|[]]. reflexivity.
  - reflexivity.
Defined.

(** ** The title *)

Lemma startswith1_take c n s :
  PyStr.startswith (String c "") (PyStr.take (S n) s)
  = PyStr.startswith (String c "") s.
Proof.
  destruct s as [|a s]; [reflexivity|].
  unfold PyStr.startswith. cbn [PyStr.take]. now rewrite !prefix1_cons.
Qed.

(** X6. Whatever the draft, the title given to the archive page is not
    empty, has at most 100 characters, lies on one line, and starts neither
    with '=' nor with '#'. *)
Theorem extract_title_well_formed draft :
  truthy (extract_title draft) = true
  /\ (String.length (extract_title draft) <= 100)%nat
  /\ PyStr.contains PyStr.nl (extract_title draft) = false
  /\ PyStr.startswith "=" (extract_title draft) = false
  /\ PyStr.startswith "#" (extract_title draft) = false.
Proof.
  split; [|split; [apply extract_title_length|]];
    unfold extract_title; cbn zeta; rewrite title_loop_find;
    destruct (find title_candidate _) as [line|] eqn:Hfind;
    try (repeat split; reflexivity);
    apply find_some in Hfind; destruct Hfind as [Hin Hcand];
    unfold title_candidate in Hcand;
    apply andb_true_iff in Hcand; destruct Hcand as [Hcand Hlen];
    apply andb_true_iff in Hcand; destruct Hcand as [Hcand Hhash];
    apply andb_true_iff in Hcand; destruct Hcand as [Hne Heq].
  - destruct line; [discriminate|reflexivity].
  - split; [|split].
    + apply in_map_iff in Hin. destruct Hin as (piece & <- & Hin).
      apply In_firstn in Hin.
      pose proof (split_from_pieces "" draft eq_refl) as Hall.
      rewrite Forall_forall in Hall.
      unfold PyStr.nl in *. apply contains1_take, contains1_strip.
      now apply Hall.
    + change "=" with (String "=" ""). rewrite startswith1_take.
      now apply negb_true_iff.
    + change "#" with (String "#" ""). rewrite startswith1_take.
      now apply negb_true_iff.
Qed.

(** ** The counts of sources *)

(** X7. The number of sources the finalizer sends to the archive is the
    number of distinct source identifiers: it is at least the number of
    sources listed in the report, which stops at 25, and at most the
    number of raw notes, which the report prints as sources analyzed. *)
Theorem source_counts_are_ordered E now state :
  (List.length (listed_sources (sources_of E (raw_notes state)))
   <= pr_sources_count (archive_request E now state))%nat
  /\ (pr_sources_count (archive_request E now state)
      <= List.length (raw_notes state))%nat
  /\ pr_sources_count (archive_request E now state)
     = List.length (sources_of E (raw_notes state))
  /\ (List.length (listed_sources (sources_of E (raw_notes state))) <= 25)%nat.
Proof.
  cbn [archive_request pr_sources_count]. unfold listed_sources.
  split; [rewrite length_firstn; lia|].
  split; [|split; [reflexivity|apply firstn_le_length]].
  unfold sources_of.
  transitivity
    (List.length
       (map source_of_note
          (filter (PyStr.startswith "Source:") (raw_notes state)))).
  - apply NoDup_incl_length; [apply set_list_NoDup|].
    intros x Hx. now apply set_list_In in Hx.
  - rewrite length_map. apply filter_length_le.
Qed.

(** ** The research stage *)

Lemma research_loop_eq E queries :
  forall i raw_notes progress_msg k,
  exists progress_msg',
    research_loop E i queries raw_notes progress_msg k
    = (Ok ((raw_notes ++ notes_of_queries E k queries)%list, progress_msg'),
       k + List.length queries).
Proof.
  induction queries as [|query rest IH]; intros i raw progress_msg k.
  - exists progress_msg. cbn [research_loop notes_of_queries List.length].
    unfold ret. now rewrite app_nil_r, Nat.add_0_r.
  - cbn [research_loop notes_of_queries List.length].
    unfold bind at 1. unfold try_except, bind, call, ret.
    destruct (search_invoke E k query) as [results|e]; cbn [fst snd].
    + destruct (IH (S i) (raw ++ notes_of_results results)%list
                  (progress_msg ++ "• Query " ++ PyStr.of_nat i ++ ": "
                   ++ query ++ PyStr.nl) (S k)) as (m & H).
      exists m. rewrite H, <- app_assoc. f_equal. lia.
    + destruct (IH (S i) raw
                  ((progress_msg ++ "• Query " ++ PyStr.of_nat i ++ ": "
                    ++ query ++ PyStr.nl) ++ "  ⚠️ Error: " ++ e ++ PyStr.nl)
                  (S k)) as (m & H).
      exists m. rewrite H. cbn [app]. f_equal. lia.
Qed.

Lemma researcher_agent_eq v E state k :
  exists progress_msg,
    researcher_agent v E state k
    = (Ok {| goto := n_synthesis_agent;
             update :=
               U_raw_notes (notes_of_queries E k (st_search_queries state))
               :: progress v progress_msg |},
       k + List.length (st_search_queries state)).
Proof.
  unfold researcher_agent, bind, ret. cbn zeta.
  destruct (research_loop_eq E (st_search_queries state) 1 []
              ("🔎 **Researching...** Executing "
               ++ PyStr.of_nat (List.length (st_search_queries state))
               ++ " search queries" ++ PyStr.nl ++ PyStr.nl) k)
    as (m & H).
  rewrite H. cbn [fst snd app]. eauto.
Qed.

(** X4. The research stage makes exactly one search call per query and
    never fails: its raw notes are the notes of the queries in the order
    of the queries, a query whose search raises contributing none and
    leaving the notes of the others as they are. *)
Theorem research_collects_per_query v E state k :
  exists progress_msg,
    researcher_agent v E state k
    = (Ok {| goto := n_synthesis_agent;
             update :=
               U_raw_notes (notes_of_queries E k (st_search_queries state))
               :: progress v progress_msg |},
       k + List.length (st_search_queries state)).
Proof. apply researcher_agent_eq. Qed.

Lemma In_notes_of_queries E queries :
  forall k note,
    In note (notes_of_queries E k queries) <->
    exists j query results,
      nth_error queries j = Some query
      /\ search_invoke E (k + j) query = Ok results
      /\ In note (notes_of_results results).
Proof.
  induction queries as [|q rest IH]; intros k note.
  - cbn [notes_of_queries]. split; [intros []|].
    intros (j & query & results & Hn & _). destruct j; discriminate.
  - cbn [notes_of_queries]. rewrite in_app_iff, IH. split.
    + intros [H|(j & query & results & Hn & Hs & Hin)].
      * destruct (search_invoke E k q) as [results|e] eqn:Hq; [|destruct H].
        exists 0, q, results. rewrite Nat.add_0_r. now repeat split.
      * exists (S j), query, results. repeat split; try assumption.
        now rewrite Nat.add_succ_r.
    + intros (j & query & results & Hn & Hs & Hin). destruct j as [|j].
      * left. cbn in Hn. inversion Hn; subst.
        rewrite Nat.add_0_r in Hs. now rewrite Hs.
      * right. exists j, query, results. repeat split; try assumption.
        now rewrite Nat.add_succ_r in Hs.
Qed.

Lemma In_notes_of_results results note :
  In note (notes_of_results results) <->
  match results with
  | ResultList items =>
      exists item,
        In item items
        /\ truthy (item_content item) = true
        /\ note = "Source: " ++ item_url item ++ PyStr.nl ++ item_content item
  | ResultOther repr => note = "Query result:" ++ PyStr.nl ++ repr
  end.
Proof.
  destruct results as [items|repr]; cbn [notes_of_results].
  - rewrite in_flat_map. split.
    + intros (item & Hin & Hnote). exists item. split; [exact Hin|].
      unfold notes_of_item in Hnote.
      fold (item_content item) in Hnote. fold (item_url item) in Hnote.
      destruct (truthy (item_content item)); [|destruct Hnote].
      destruct Hnote as [<-|[]]. now split.
    + intros (item & Hin & Ht & ->). exists item. split; [exact Hin|].
      unfold notes_of_item.
      fold (item_content item). fold (item_url item). rewrite Ht. now left.
  - split; [intros [<-|[]]; reflexivity|intros ->; now left].
Qed.

(** X5. From the research stage to the report: when the source
    identifiers returned by the search hold no newline and not the tag
    text, the sources of the finalizer are exactly the identifiers of the
    search results that have a content, among the queries whose search
    succeeded; a result that is not a list gives a note but no source, and
    a result without identifier gives the empty identifier. *)
Theorem sources_are_the_search_hits E k queries :
  (forall j query items item,
      search_invoke E j query = Ok (ResultList items) ->
      In item items ->
      PyStr.contains PyStr.nl (item_url item) = false
      /\ PyStr.contains "Source: " (item_url item) = false) ->
  forall x,
    In x (sources_of E (notes_of_queries E k queries)) <->
    exists j query items item,
      nth_error queries j = Some query
      /\ search_invoke E (k + j) query = Ok (ResultList items)
      /\ In item items
      /\ truthy (item_content item) = true
      /\ x = item_url item.
Proof.
  intros Hclean x. unfold sources_of.
  rewrite set_list_In, in_map_iff. split.
  - intros (note & Hx & Hin). apply filter_In in Hin.
    destruct Hin as [Hin Htag].
    apply In_notes_of_queries in Hin.
    destruct Hin as (j & query & results & Hn & Hs & Hin).
    apply In_notes_of_results in Hin.
    destruct results as [items|repr].
    + destruct Hin as (item & Hitem & Ht & ->).
      exists j, query, items, item. repeat split; try assumption.
      destruct (Hclean _ _ _ _ Hs Hitem) as [Hnl Hsrc].
      now rewrite source_of_research_note in Hx.
    + subst note. discriminate.
  - intros (j & query & items & item & Hn & Hs & Hitem & Ht & ->).
    destruct (Hclean _ _ _ _ Hs Hitem) as [Hnl Hsrc].
    exists ("Source: " ++ item_url item ++ PyStr.nl ++ item_content item).
    split; [now apply source_of_research_note|].
    apply filter_In. split.
    + apply In_notes_of_queries. exists j, query, (ResultList items).
      repeat split; try assumption.
      apply In_notes_of_results. exists item. now repeat split.
    + unfold PyStr.startswith. simpl. reflexivity.
Qed.

Lemma sources_are_the_search_hits_witness :
  In "https://trails.example/bear-peak"
    (sources_of Scenario.env_accept
       (notes_of_queries Scenario.env_accept 3 ["denver hiking trails"])) <->
  exists j query items item,
    nth_error ["denver hiking trails"] j = Some query
    /\ search_invoke Scenario.env_accept (3 + j) query = Ok (ResultList items)
    /\ In item items
    /\ truthy (item_content item) = true
    /\ "https://trails.example/bear-peak" = item_url item.
Proof.
  apply (sources_are_the_search_hits Scenario.env_accept 3
           ["denver hiking trails"]).
  intros j query items item Hs Hin. inversion Hs; subst.
  destruct Hin as [<-|[]]. split; reflexivity.
Defined.

(** ** What the nodes write *)

Lemma apply_field_frame u key state :
  state_key_eqb (key_of u) key = false ->
  same_at key state (apply_field u state).
Proof. destruct u, key; cbn; intros H; try reflexivity; discriminate. Qed.

Lemma same_at_trans key s1 s2 s3 :
  same_at key s1 s2 -> same_at key s2 s3 -> same_at key s1 s3.
Proof. destruct key; cbn; intros H1 H2; now rewrite H2. Qed.

Lemma same_at_refl key s : same_at key s s.
Proof. destruct key; reflexivity. Qed.

Lemma apply_update_frame us key :
  forall state,
    (forall u, In u us -> state_key_eqb (key_of u) key = false) ->
    same_at key state (apply_update us state).
Proof.
  unfold apply_update. induction us as [|u us IH]; intros state H.
  - apply same_at_refl.
  - cbn [fold_left]. eapply same_at_trans.
    + apply apply_field_frame. apply H. now left.
    + apply IH. intros u' Hu'. apply H. now right.
Qed.


Lemma progress_writes v n c u :
  n <> END -> n <> n_clarify_with_user ->
  In u (progress v c) -> writes v n (key_of u) = true.
Proof.
  intros H1 H2. destruct v; cbn [progress In]; [tauto|].
  intros [<-|[]]. destruct n; try reflexivity; congruence.
Qed.

Lemma run_node_updates v E n state k cmd k' :
  run_node v E n state k = (Ok cmd, k') ->
  forall u, In u (update cmd) -> writes v n (key_of u) = true.
Proof.
  destruct n; cbn [run_node].
  - unfold clarify_with_user, bind, ret. cbn zeta.
    rewrite get_structured_response_eq.
    destruct (generate_content E k _); [|discriminate].
    destruct (need_clarification _); intros H; injection H as <- _;
      cbn [update]; intros u [<-|[]]; reflexivity.
  - unfold planner_agent, bind, ret. cbn zeta.
    rewrite get_structured_response_eq.
    destruct (generate_content E k _); [|discriminate].
    rewrite get_structured_response_eq.
    destruct (generate_content E (S k) _); [|discriminate].
    intros H; injection H as <- _. cbn [update].
    intros u [<-|[<-|[<-|Hu]]]; try (destruct v; reflexivity).
    eapply progress_writes; [| |exact Hu]; discriminate.
  - destruct (researcher_agent_total v E state k) as (r & m & k0 & H).
    rewrite H. intros H'; injection H' as <- _. cbn [update].
    intros u [<-|Hu]; [destruct v; reflexivity|].
    eapply progress_writes; [| |exact Hu]; discriminate.
  - unfold synthesis_agent, bind, call, lift, ret. cbn zeta.
    destruct (generate_content E k _) as [r|]; [|discriminate].
    destruct (text r); [|discriminate].
    intros H; injection H as <- _. cbn [update].
    intros u [<-|Hu]; [destruct v; reflexivity|].
    eapply progress_writes; [| |exact Hu]; discriminate.
  - destruct (writer_agent_total v E state k) as (t & H).
    rewrite H. intros H'; injection H' as <- _. cbn [update].
    intros u [<-|Hu]; [destruct v; reflexivity|].
    eapply progress_writes; [| |exact Hu]; discriminate.
  - rewrite critic_agent_eq.
    destruct (get_structured_response E _ CCritique k) as [[critique|e] k0];
      [|discriminate].
    intros H; injection H as <- _. unfold critic_command.
    destruct (needs_revision critique
              && (iteration_count state <? MAX_ITERATIONS)%Z);
      cbn [update].
    + intros u [<-|[<-|Hu]]; try (destruct v; reflexivity).
      eapply progress_writes; [| |exact Hu]; discriminate.
    + intros u Hu. eapply progress_writes; [| |exact Hu]; discriminate.
  - destruct (finalizer_total v E state k) as (u0 & s & k0 & H).
    rewrite H. intros H'; injection H' as <- _. cbn [update].
    intros u [<-|[<-|Hu]]; try (destruct v; reflexivity).
    eapply progress_writes; [| |exact Hu]; discriminate.
  - intros H; injection H as <- _. intros u [].
Qed.

(** The state after a step is the state before it, updated with entries
    for keys the node writes. *)
Lemma step_updates v E n state k c' :
  step v E (n, state, k) = Some c' ->
  exists us,
    snd (fst c') = apply_update us state
    /\ forall u, In u us -> writes v n (key_of u) = true.
Proof.
  unfold step.
  destruct (run_node v E n state k) as [[cmd|e] k'] eqn:Hrun; [|discriminate].
  intros H; injection H as <-. exists (update cmd).
  split; [reflexivity|]. exact (run_node_updates _ _ _ _ _ _ _ Hrun).
Qed.

Lemma step_frame v E n state k c' key :
  step v E (n, state, k) = Some c' ->
  writes v n key = false ->
  same_at key state (snd (fst c')).
Proof.
  intros Hs Hw. destruct (step_updates _ _ _ _ _ _ Hs) as (us & -> & Hus).
  apply apply_update_frame. intros u Hu. specialize (Hus u Hu).
  destruct (state_key_eqb (key_of u) key) eqn:Hk; [|reflexivity].
  assert (key_of u = key) by (destruct (key_of u), key; try discriminate; reflexivity).
  congruence.
Qed.

(** X1. Each node changes only its own keys of the state: the
    clarification the messages; the planner the brief, the queries and the
    topics; the researcher the raw notes; the synthesis the notes; the
    writer the draft; the critic the feedback and the revision counter; the
    finalizer the final report and the archive reference; every other key
    is after the step what it was before.  Only the variant that reports
    its progress in the conversation also appends to the messages. *)
Theorem node_writes_only_its_keys v E n state k c' key :
  step v E (n, state, k) = Some c' ->
  writes v n key = false ->
  same_at key state (snd (fst c')).
Proof. apply step_frame. Qed.

Lemma node_writes_only_its_keys_witness :
  same_at key_research_brief Scenario.drafted
    (snd (fst (n_critic_agent,
               apply_update
                 [U_draft_report (Scenario.answer "revise")]
                 Scenario.drafted, 1))).
Proof.
  apply (node_writes_only_its_keys Cli Scenario.env_revise n_writer_agent
           Scenario.drafted 0
           (n_critic_agent,
            apply_update [U_draft_report (Scenario.answer "revise")]
              Scenario.drafted, 1) key_research_brief);
    reflexivity.
Defined.




(** ** The shape of a session *)

Lemma run_critic_shape v E :
  forall m state k fuel,
    Z.to_nat (MAX_ITERATIONS - iteration_count state) = m ->
    (2 * m + 2 <= fuel)%nat ->
    exists j,
      (j <= m)%nat
      /\ match run v E fuel n_critic_agent state k with
         | (Returned state', t) =>
             t = (n_critic_agent :: revision_rounds j ++ [n_finalizer])%list
             /\ iteration_count state'
                = (iteration_count state + Z.of_nat j)%Z
             /\ has_final_report state' = true
         | (Raised _, t) => t = n_critic_agent :: revision_rounds j
         | (RecursionLimit, _) => False
         end.
Proof.
  assert (Hfin : forall state k fuel state0,
             iteration_count state = iteration_count state0 ->
             exists state',
               run v E (S fuel) n_finalizer state k
               = (Returned state', [n_finalizer])
               /\ iteration_count state' = iteration_count state0
               /\ has_final_report state' = true).
  { intros state k fuel state0 Hc.
    destruct (step_exists_finalizer v E state k)
      as (c'' & Hs' & Hgo' & Hrep & Hsame).
    exists (snd (fst c'')). split; [|split; [|exact Hrep]].
    - eapply run_step_eq; [exact Hs'|discriminate|]. rewrite Hgo'.
      apply run_END.
    - unfold same_count in Hsame. congruence. }
  induction m as [|m IH]; intros state k fuel Hm Hfuel.
  - exists 0. split; [lia|]. need_fuel fuel.
    destruct (step_or_raise v E n_critic_agent state k) as [[c' Hs]|[e He]].
    + rewrite (run_step _ _ _ _ _ _ _ Hs) by discriminate.
      destruct (step_critic _ _ _ _ _ Hs) as (critique & _ & Hcase).
      destruct Hcase as [(_ & Hlt & _)|(_ & Hgo & Hsame)]; [lia|].
      rewrite Hgo. need_fuel fuel.
      destruct (Hfin (snd (fst c')) (snd c') fuel state Hsame)
        as (state' & Hrun & Hc & Hrep).
      rewrite Hrun. cbn [fst snd revision_rounds app].
      repeat split; [lia|exact Hrep].
    + rewrite (run_raise _ _ _ _ _ _ _ He) by discriminate. reflexivity.
  - need_fuel fuel.
    destruct (step_or_raise v E n_critic_agent state k) as [[c' Hs]|[e He]].
    + rewrite (run_step _ _ _ _ _ _ _ Hs) by discriminate.
      destruct (step_critic _ _ _ _ _ Hs) as (critique & _ & Hcase).
      destruct Hcase as [(_ & Hlt & Hgo & Hcount)|(_ & Hgo & Hsame)].
      * rewrite Hgo. need_fuel fuel.
        destruct (step_exists_writer v E (snd (fst c')) (snd c')) as (c'' & Hs').
        rewrite (run_step _ _ _ _ _ _ _ Hs') by discriminate.
        destruct (step_writer _ _ _ _ _ Hs') as (Hsame & Hgo').
        rewrite Hgo'. unfold same_count in Hsame.
        destruct (IH (snd (fst c'')) (snd c'') fuel) as (j & Hj & Hrun);
          [rewrite Hsame, Hcount; lia|lia|].
        exists (S j). split; [lia|].
        destruct (run v E fuel n_critic_agent (snd (fst c'')) (snd c''))
          as [[state'| e |] t]; cbn [fst snd].
        -- destruct Hrun as (-> & Hc & Hrep).
           repeat split; [|exact Hrep]. rewrite Hc, Hsame, Hcount. lia.
        -- now rewrite Hrun.
        -- exact Hrun.
      * exists 0. split; [lia|]. rewrite Hgo. need_fuel fuel.
        destruct (Hfin (snd (fst c')) (snd c') fuel state Hsame)
          as (state' & Hrun & Hc & Hrep).
        rewrite Hrun. cbn [fst snd revision_rounds app].
        repeat split; [lia|exact Hrep].
    + exists 0. split; [lia|].
      rewrite (run_raise _ _ _ _ _ _ _ He) by discriminate. reflexivity.
Qed.

Lemma run_shape_from_start v E msgs fuel :
  (11 <= fuel)%nat ->
  session_shape (run v E fuel n_clarify_with_user (initial_state msgs) 0).
Proof.
  intros Hfuel. need_fuel fuel.
  destruct (step_or_raise v E n_clarify_with_user (initial_state msgs) 0)
    as [[c1 H1]|[e He]];
    [|rewrite (run_raise _ _ _ _ _ _ _ He) by discriminate; now left].
  rewrite (run_step _ _ _ _ _ _ _ H1) by discriminate.
  destruct (step_clarify _ _ _ _ _ H1) as (Hc1 & [Hgo|Hgo]).
  { destruct (step_clarify_END _ _ _ _ _ H1 Hgo) as (q & Hq).
    rewrite Hgo, run_END, Hq. left. split; [reflexivity|].
    apply awaits_after_question. }
  rewrite Hgo. need_fuel fuel.
  destruct (step_or_raise v E n_planner_agent (snd (fst c1)) (snd c1))
    as [[c2 H2]|[e He]];
    [|rewrite (run_raise _ _ _ _ _ _ _ He) by discriminate;
      right; now left].
  rewrite (run_step _ _ _ _ _ _ _ H2) by discriminate.
  destruct (step_planner _ _ _ _ _ H2) as (Hc2 & Hgo2). rewrite Hgo2.
  need_fuel fuel.
  destruct (step_exists_researcher v E (snd (fst c2)) (snd c2)) as (c3 & H3).
  rewrite (run_step _ _ _ _ _ _ _ H3) by discriminate.
  destruct (step_researcher _ _ _ _ _ H3) as (Hc3 & Hgo3). rewrite Hgo3.
  need_fuel fuel.
  destruct (step_or_raise v E n_synthesis_agent (snd (fst c3)) (snd c3))
    as [[c4 H4]|[e He]];
    [|rewrite (run_raise _ _ _ _ _ _ _ He) by discriminate;
      right; right; now left].
  rewrite (run_step _ _ _ _ _ _ _ H4) by discriminate.
  destruct (step_synthesis _ _ _ _ _ H4) as (Hc4 & Hgo4). rewrite Hgo4.
  need_fuel fuel.
  destruct (step_exists_writer v E (snd (fst c4)) (snd c4)) as (c5 & H5).
  rewrite (run_step _ _ _ _ _ _ _ H5) by discriminate.
  destruct (step_writer _ _ _ _ _ H5) as (Hc5 & Hgo5). rewrite Hgo5.
  unfold same_count in *.
  assert (H0 : iteration_count (snd (fst c5)) = 0%Z)
    by (rewrite Hc5, Hc4, Hc3, Hc2, Hc1; reflexivity).
  destruct (run_critic_shape v E 2 (snd (fst c5)) (snd c5) fuel)
    as (j & Hj & Hrun); [now rewrite H0|lia|].
  destruct (run v E fuel n_critic_agent (snd (fst c5)) (snd c5))
    as [[state'| e |] t]; cbn [fst snd session_shape].
  - destruct Hrun as (-> & Hc & Hrep). right. exists (S j).
    repeat split; [lia|lia| |exact Hrep]. rewrite Hc, H0. lia.
  - subst t. right; right; right. exists (S j). repeat split; lia.
  - exact Hrun.
Qed.

Lemma writer_invocations_rounds n :
  writer_invocations (revision_rounds n) = n
  /\ List.length (revision_rounds n) = 2 * n.
Proof.
  unfold writer_invocations. induction n as [|n [IH1 IH2]]; [now split|].
  cbn [revision_rounds filter is_writer List.length]. rewrite IH1, IH2.
  split; lia.
Qed.

(** X3. Every session, whatever the collaborators do, has one of a few
    shapes.  It returns at once with a clarifying question, or it runs
    clarify, plan, research, synthesis, then between 1 and 3 rounds of
    writing and critique, then the finalizer, and returns with a final
    report and a revision counter equal to the number of drafts minus one;
    or it raises, at the clarification, the planner, the synthesis or a
    critique.  The writer runs at most 3 times, at most 11 nodes run, and
    the recursion limit is never reached. *)
Theorem session_has_bounded_shape v E msgs :
  session_shape (workflow_trace v E msgs)
  /\ (writer_invocations (snd (workflow_trace v E msgs)) <= 3)%nat
  /\ (List.length (snd (workflow_trace v E msgs)) <= 11)%nat.
Proof.
  assert (H : session_shape (workflow_trace v E msgs)).
  { unfold workflow_trace. apply run_shape_from_start.
    unfold recursion_limit. lia. }
  split; [exact H|].
  destruct (workflow_trace v E msgs) as [[state| e |] t];
    cbn [session_shape snd] in *.
  - destruct H as [[-> _]|(n & Hn & -> & _)]; [cbn; lia|].
    unfold full_trace, writer_invocations.
    rewrite !filter_app, !length_app.
    destruct (writer_invocations_rounds n) as [H1 H2].
    unfold writer_invocations in H1. rewrite H1, H2. cbn. lia.
  - destruct H as [->|[->|[->|(n & Hn & ->)]]]; try (cbn; lia).
    unfold writer_invocations.
    rewrite !filter_app, !length_app.
    destruct (writer_invocations_rounds n) as [H1 H2].
    unfold writer_invocations in H1. rewrite H1, H2. cbn. lia.
  - destruct H.
Qed.

(** ** Feedback and revisions *)

Lemma step_critic_feedback v E state k c' :
  step v E (n_critic_agent, state, k) = Some c' ->
  (iteration_count (snd (fst c')) = (iteration_count state + 1)%Z
   /\ truthy (critique_feedback (snd (fst c'))) = true)
  \/ (iteration_count (snd (fst c')) = iteration_count state
      /\ critique_feedback (snd (fst c')) = critique_feedback state).
Proof.
  unfold step, run_node. rewrite critic_agent_eq.
  destruct (get_structured_response E _ CCritique k) as [[critique|e] k'];
    [|discriminate].
  intros H; injection H as <-. cbn [fst snd]. unfold critic_command.
  destruct (needs_revision critique
            && (iteration_count state <? MAX_ITERATIONS)%Z);
    [left|right]; destruct v; split; reflexivity.
Qed.

Lemma reachable_feedback v E msgs c :
  reachable v E msgs c ->
  (0 <= iteration_count (snd (fst c)))%Z
  /\ truthy (critique_feedback (snd (fst c)))
     = (0 <? iteration_count (snd (fst c)))%Z.
Proof.
  intros Hreach. induction Hreach as [|c c' Hreach [IH0 IH] Hn Hs].
  - split; [cbn; lia|reflexivity].
  - destruct c as [[n state] k]. cbn [fst snd] in *.
    assert (Hcritic : n = n_critic_agent \/ n <> n_critic_agent)
      by (destruct n; auto; right; discriminate).
    destruct Hcritic as [->|Hnc].
    + destruct (step_critic_feedback _ _ _ _ _ Hs) as [[Hc Hf]|[Hc Hf]].
      * rewrite Hc, Hf. split; [lia|]. symmetry. apply Z.ltb_lt. lia.
      * now rewrite Hc, Hf.
    + assert (Hw1 : writes v n key_iteration_count = false)
        by (destruct n, v; try reflexivity; congruence).
      assert (Hw2 : writes v n key_critique_feedback = false)
        by (destruct n, v; try reflexivity; congruence).
      pose proof (step_frame _ _ _ _ _ _ _ Hs Hw1) as H1.
      pose proof (step_frame _ _ _ _ _ _ _ Hs Hw2) as H2.
      cbn [same_at] in H1, H2. now rewrite H1, H2.
Qed.

Lemma writer_agent_prompt v E state k :
  writer_agent v E state k
  = (Ok {| goto := n_critic_agent;
           update :=
             U_draft_report
               match generate_content E k (writer_prompt state) with
               | Ok response =>
                   match text response with
                   | Ok report_text => report_text
                   | Raise e => writer_fallback e (notes state)
                   end
               | Raise e => writer_fallback e (notes state)
               end
             :: progress v "✍️ **Writing report...** Creating comprehensive analysis" |},
     S k).
Proof.
  unfold writer_agent, writer_prompt, bind, try_except, call, lift, ret.
  cbn zeta.
  destruct (generate_content E k _) as [response|e]; [|reflexivity].
  destruct (text response); reflexivity.
Qed.

(** X15. At every point of every session the critique feedback is there
    exactly when the revision counter is above 0.  So the prompt of the
    writer carries the section with the previous critique on every
    revision and never on the first draft; the draft is what the model
    answers to that prompt, or the fallback text. *)
Theorem feedback_iff_revision v E msgs c :
  reachable v E msgs c ->
  let state := snd (fst c) in
  truthy (critique_feedback state) = (0 <? iteration_count state)%Z
  /\ writer_prompt state
     = report_prompt (st_research_brief state) (notes state)
         (if (0 <? iteration_count state)%Z
          then feedback_section_text (critique_feedback state)
          else "")
  /\ writer_agent v E state (snd c)
     = (Ok {| goto := n_critic_agent;
              update :=
                U_draft_report
                  match generate_content E (snd c) (writer_prompt state) with
                  | Ok response =>
                      match text response with
                      | Ok report_text => report_text
                      | Raise e => writer_fallback e (notes state)
                      end
                  | Raise e => writer_fallback e (notes state)
                  end
                :: progress v "✍️ **Writing report...** Creating comprehensive analysis" |},
        S (snd c)).
Proof.
  intros Hreach state. destruct (reachable_feedback _ _ _ _ Hreach) as [_ H].
  fold state in H. split; [exact H|]. split; [|apply writer_agent_prompt].
  unfold writer_prompt. now rewrite H.
Qed.



(** ** The fenced document of a structured response *)

Lemma prefix_cons_eq c p s :
  String.prefix (String c p) (String c s) = String.prefix p s.
Proof.
  cbn [String.prefix]. destruct (ascii_dec c c); [reflexivity|congruence].
Qed.

Lemma prefix_cons_neq c a p s :
  Ascii.eqb c a = false -> String.prefix (String c p) (String a s) = false.
Proof.
  intros H. cbn [String.prefix]. destruct (ascii_dec c a) as [->|]; [|reflexivity].
  now rewrite Ascii.eqb_refl in H.
Qed.

Lemma prefix_app p s : String.prefix p (p ++ s) = true.
Proof.
  induction p as [|c p IH]; [apply prefix_empty|].
  change (String c p ++ s) with (String c (p ++ s)).
  now rewrite prefix_cons_eq.
Qed.

Lemma prefix_app_l p q s :
  String.prefix (p ++ q) s = true -> String.prefix p s = true.
Proof.
  revert s. induction p as [|c p IH]; intros s H; [apply prefix_empty|].
  change (String c p ++ q) with (String c (p ++ q)) in H.
  destruct s as [|a s]; [discriminate|].
  cbn [String.prefix] in *. destruct (ascii_dec c a); [now apply IH|discriminate].
Qed.

Lemma contains_unfold sub s :
  PyStr.contains sub s
  = String.prefix sub s
    || match s with
       | EmptyString => false
       | String _ s' => PyStr.contains sub s'
       end.
Proof. destruct s; reflexivity. Qed.

Lemma contains_longer p q s :
  PyStr.contains p s = false -> PyStr.contains (p ++ q) s = false.
Proof.
  induction s as [|a s IH]; intros H.
  - rewrite contains_unfold in *. apply orb_false_iff in H. destruct H as [H _].
    destruct (String.prefix (p ++ q) "") eqn:Hp; [|reflexivity].
    apply prefix_app_l in Hp. congruence.
  - apply contains_cons in H. destruct H as [Hp Hs].
    rewrite contains_unfold. rewrite (IH Hs), orb_false_r.
    destruct (String.prefix (p ++ q) (String a s)) eqn:Hq; [|reflexivity].
    apply prefix_app_l in Hq. congruence.
Qed.

Lemma contains_at sub a s : PyStr.contains sub (a ++ sub ++ s) = true.
Proof.
  induction a as [|c a IH].
  - change ("" ++ sub ++ s) with (sub ++ s).
    now rewrite contains_unfold, prefix_app.
  - change (String c a ++ sub ++ s) with (String c (a ++ sub ++ s)).
    rewrite contains_unfold, IH. apply orb_true_r.
Qed.

(** The scan passes over a text that holds no first character of the
    separator. *)
Lemma split_from_pass c0 sep' a :
  forall cur s,
    PyStr.contains (String c0 "") a = false ->
    PyStr.split_from (String c0 sep') 0 cur (a ++ s)
    = PyStr.split_from (String c0 sep') 0 (cur ++ a) s.
Proof.
  induction a as [|x a IH]; intros cur s H.
  - now rewrite append_empty_r.
  - rewrite contains1_cons in H. apply orb_false_iff in H. destruct H as [Hx Ha].
    change (String x a ++ s) with (String x (a ++ s)).
    cbn [PyStr.split_from]. rewrite (prefix_cons_neq _ _ _ _ Hx).
    rewrite IH by exact Ha. now rewrite append_assoc.
Qed.

Lemma split_from_skip sep x :
  forall cur s,
    PyStr.split_from sep (String.length x) cur (x ++ s)
    = PyStr.split_from sep 0 cur s.
Proof.
  induction x as [|a x IH]; intros cur s; [reflexivity|].
  change (String a x ++ s) with (String a (x ++ s)).
  cbn [String.length PyStr.split_from]. apply IH.
Qed.

Lemma split_from_hit c0 sep' cur s :
  PyStr.split_from (String c0 sep') 0 cur (String c0 sep' ++ s)
  = cur :: PyStr.split_from (String c0 sep') 0 "" s.
Proof.
  change (String c0 sep' ++ s) with (String c0 (sep' ++ s)).
  cbn [PyStr.split_from].
  change (String c0 (sep' ++ s)) with (String c0 sep' ++ s).
  rewrite prefix_app. cbn [String.length]. rewrite Nat.sub_succ, Nat.sub_0_r.
  now rewrite split_from_skip.
Qed.

Lemma split_from_absent sep s :
  forall cur,
    PyStr.contains sep s = false ->
    PyStr.split_from sep 0 cur s = [cur ++ s].
Proof.
  induction s as [|c s IH]; intros cur H.
  - now rewrite append_empty_r.
  - apply contains_cons in H. destruct H as [Hp Hs].
    cbn [PyStr.split_from]. rewrite Hp, IH by exact Hs.
    now rewrite append_assoc.
Qed.

Lemma split_from_two c0 sep' s :
  forall cur,
    PyStr.contains (String c0 sep') s = true ->
    exists p q rest,
      PyStr.split_from (String c0 sep') 0 cur s = p :: q :: rest.
Proof.
  induction s as [|c s IH]; intros cur H; [discriminate|].
  cbn [PyStr.split_from].
  destruct (String.prefix (String c0 sep') (String c s)) eqn:Hp.
  - destruct (PyStr.split_from (String c0 sep')
                (String.length (String c0 sep') - 1) "" s) as [|q rest] eqn:Hs;
      [now apply split_from_nonempty in Hs|eauto].
  - apply IH. rewrite contains_unfold, Hp in H. exact H.
Qed.

Lemma split_first_some sep s :
  exists p, nth_error (PyStr.split sep s) 0 = Some p.
Proof.
  unfold PyStr.split.
  destruct (PyStr.split_from sep 0 "" s) as [|p rest] eqn:Hs;
    [now apply split_from_nonempty in Hs|].
  exists p. reflexivity.
Qed.

Lemma fenced_total json_text : exists j, fenced json_text = Some j.
Proof.
  unfold fenced.
  destruct (PyStr.contains "```json" json_text) eqn:Hj.
  - destruct (split_from_two _ _ _ "" Hj) as (p & q & rest & Hs).
    unfold PyStr.split at 1. rewrite Hs. cbn [nth_error].
    apply split_first_some.
  - destruct (PyStr.contains "```" json_text) eqn:Ht; [|eauto].
    destruct (split_from_two _ _ _ "" Ht) as (p & q & rest & Hs).
    unfold PyStr.split at 1. rewrite Hs. cbn [nth_error].
    apply split_first_some.
Qed.

Lemma fenced_json a body rest :
  PyStr.contains "`" a = false ->
  PyStr.contains "`" body = false ->
  PyStr.contains "```json" (body ++ "```" ++ rest) = false ->
  fenced (a ++ "```json" ++ body ++ "```" ++ rest) = Some body.
Proof.
  intros Ha Hb Hrest. unfold fenced.
  rewrite contains_at. unfold PyStr.split.
  rewrite (split_from_pass "`" "``json" a "" _ Ha).
  rewrite split_from_hit.
  rewrite (split_from_absent _ _ "" Hrest).
  cbn [nth_error].
  change ("" ++ body ++ "```" ++ rest) with (body ++ "```" ++ rest).
  rewrite (split_from_pass "`" "``" body "" _ Hb).
  rewrite split_from_hit. reflexivity.
Qed.

(** X8. The extraction of the document from the answer of the model
    never fails; an answer without code fence is taken whole; and from an
    answer whose only [```json] fence follows a text without backquote
    and is closed after a body without backquote, the body is taken, so
    that the structured response is decoded from the stripped body. *)
Theorem fenced_document_is_extracted E c :
  (forall json_text, exists j, fenced json_text = Some j)
  /\ (forall json_text,
        PyStr.contains "```" json_text = false ->
        fenced json_text = Some json_text)
  /\ (forall a body rest,
        PyStr.contains "`" a = false ->
        PyStr.contains "`" body = false ->
        PyStr.contains "```json" (body ++ "```" ++ rest) = false ->
        fenced (a ++ "```json" ++ body ++ "```" ++ rest) = Some body
        /\ parse_response E c
             {| text := Ok (a ++ "```json" ++ body ++ "```" ++ rest) |}
           = match json_loads E (PyStr.strip body) with
             | Some data => model_validate E c data
             | None => None
             end).
Proof.
  split; [exact fenced_total|]. split.
  - intros t Ht. unfold fenced.
    change "```json" with ("```" ++ "json").
    rewrite (contains_longer "```" "json" t Ht), Ht. reflexivity.
  - intros a body rest Ha Hb Hrest.
    pose proof (fenced_json a body rest Ha Hb Hrest) as H.
    split; [exact H|]. unfold parse_response. cbn [text]. now rewrite H.
Qed.

Lemma fenced_document_is_extracted_witness :
  fenced (Scenario.answer "accept") = Some (PyStr.nl ++ "accept" ++ PyStr.nl)
  /\ parse_response Scenario.env_accept CCritique
       {| text := Ok (Scenario.answer "accept") |}
     = match json_loads Scenario.env_accept
               (PyStr.strip (PyStr.nl ++ "accept" ++ PyStr.nl)) with
       | Some data => model_validate Scenario.env_accept CCritique data
       | None => None
       end.
Proof.
  apply (proj2 (proj2 (fenced_document_is_extracted Scenario.env_accept
                         CCritique))
           ("Denver Foothills Trail Guide" ++ PyStr.nl)
           (PyStr.nl ++ "accept" ++ PyStr.nl) "");
    reflexivity.
Defined.

(** ** The interactive caller *)

Lemma advance_reachable v E msgs n :
  forall c, reachable v E msgs c -> reachable v E msgs (advance v E n c).
Proof.
  induction n as [|n IH]; intros c Hc; [exact Hc|].
  cbn [advance].
  destruct (fst (fst c)) eqn:Hn; try exact Hc;
    (destruct (step v E c) as [c'|] eqn:Hs; [|exact Hc];
     apply IH; eapply reach_step; [exact Hc|rewrite Hn; discriminate|exact Hs]).
Qed.






Lemma run_calls_step v E fuel n state k c' :
  step v E (n, state, k) = Some c' ->
  n <> END ->
  run_calls v E (S fuel) n state k
  = run_calls v E fuel (fst (fst c')) (snd (fst c')) (snd c').
Proof.
  intros H Hn. unfold step in H.
  destruct n; try congruence; cbn [run_calls];
    match goal with
    | |- context [run_node v E ?n state k] =>
        destruct (run_node v E n state k) as [[cmd|e] k']
    end; inversion H; subst; reflexivity.
Qed.

Lemma run_calls_END v E fuel state k : run_calls v E fuel END state k = k.
Proof. destruct fuel; reflexivity. Qed.

Lemma step_clarify_asks v E state k :
  always_asks E ->
  exists q,
    step v E (n_clarify_with_user, state, k)
    = Some (END, apply_update [U_messages [AIMessage q]] state, S k).
Proof.
  intros Hask.
  destruct (Hask k (clarify_prompt (conversation_of (messages state))))
    as (c & Hc & Hn).
  unfold step, run_node, clarify_with_user, bind, ret. cbn zeta.
  pose proof (get_structured_response_snd E
                (clarify_prompt (conversation_of (messages state)))
                CClarifyWithUser k) as Hk.
  destruct (get_structured_response E _ CClarifyWithUser k) as [[c0|e] k'];
    cbn [fst snd] in Hc, Hk; inversion Hc; subst.
  rewrite Hn. eexists. reflexivity.
Qed.

Lemma invoke_from_asks v E msgs k fuel :
  always_asks E ->
  exists q,
    fst (run v E (S fuel) n_clarify_with_user (initial_state msgs) k)
    = Returned (asked msgs q)
    /\ run_calls v E (S fuel) n_clarify_with_user (initial_state msgs) k = S k.
Proof.
  intros Hask.
  destruct (step_clarify_asks v E (initial_state msgs) k Hask) as (q & Hs).
  exists q. split.
  - rewrite (run_step _ _ _ _ _ _ _ Hs) by discriminate.
    cbn [fst snd]. now rewrite run_END.
  - rewrite (run_calls_step _ _ _ _ _ _ _ Hs) by discriminate.
    cbn [fst snd]. apply run_calls_END.
Qed.

Lemma clarification_loop_asks E stdin remaining :
  always_asks E -> always_replies stdin ->
  forall msgs q i k,
  exists msgs' q',
    clarification_loop E stdin remaining (asked msgs q) i k
    = (Ok (asked msgs' q', i + remaining), k + remaining).
Proof.
  intros Hask Hrep. induction remaining as [|remaining IH]; intros msgs q i k.
  - exists msgs, q. cbn. now rewrite !Nat.add_0_r.
  - cbn [clarification_loop].
    change (st_research_brief (asked msgs q)) with "".
    change (messages (asked msgs q)) with (msgs ++ [AIMessage q])%list.
    cbn [truthy String.eqb negb]. rewrite rev_unit.
    change (mtype (AIMessage q) =? "ai") with true. cbn iota.
    rewrite (Hrep i). unfold bind, invoke_from.
    destruct (invoke_from_asks Cli E
                ((msgs ++ [AIMessage q]) ++ [HumanMessage (PyStr.strip (stdin i))])%list
                k 24 Hask) as (q' & Hrun & Hcalls).
    change recursion_limit with 25. rewrite Hrun, Hcalls.
    destruct (IH ((msgs ++ [AIMessage q])
                  ++ [HumanMessage (PyStr.strip (stdin i))])%list q' (S i) (S k))
      as (msgs' & q'' & H).
    rewrite H. exists msgs', q''. now rewrite !Nat.add_succ_r.
Qed.

Lemma caller_gives_up E stdin k :
  always_asks E -> always_replies stdin ->
  run_complete_research E stdin k = (Ok (None, 8), k + 8).
Proof.
  intros Hask Hrep. unfold run_complete_research. cbn zeta.
  rewrite (Hrep 0). unfold bind at 1. unfold invoke_from.
  destruct (invoke_from_asks Cli E [HumanMessage (PyStr.strip (stdin 0))]
              k 24 Hask) as (q & Hrun & Hcalls).
  change recursion_limit with 25. rewrite Hrun, Hcalls.
  unfold bind.
  destruct (clarification_loop_asks E stdin max_clarifications Hask Hrep
              [HumanMessage (PyStr.strip (stdin 0))] q 1 (S k))
    as (msgs' & q' & H).
  rewrite H. unfold ret. cbn [fst snd].
  change (final_report (asked msgs' q')) with "".
  unfold max_clarifications. cbn [truthy String.eqb negb].
  now rewrite !Nat.add_succ_r, Nat.add_0_r.
Qed.

(** X14. The clarification dialogue is bounded.  When the clarification
    stage asks on every invocation and the user answers every question,
    the caller invokes the workflow 8 times, reads the query and 7
    replies, and then gives up: it returns [None], no research having been
    done. *)
Theorem caller_gives_up_after_seven_replies E stdin k :
  always_asks E -> always_replies stdin ->
  run_complete_research E stdin k = (Ok (None, 8), k + 8).
Proof. apply caller_gives_up. Qed.

Lemma env_ask_always_asks : always_asks Scenario.env_ask.
Proof.
  intros k p.
  exists {| need_clarification := true;
            question := "Which region do you mean?"; verification := "" |}.
  split; reflexivity.
Qed.

Lemma caller_gives_up_after_seven_replies_witness :
  run_complete_research Scenario.env_ask console_colorado 0 = (Ok (None, 8), 8).
Proof.
  apply (caller_gives_up_after_seven_replies Scenario.env_ask
           console_colorado 0).
  - exact env_ask_always_asks.
  - intros i. reflexivity.
Defined.

(** X16. With a model whose answers can never be decoded into a
    clarification, no research is ever done: every invocation falls back
    to the generic question, and the caller, whose user answers each time,
    gives up after the query and 7 replies, having invoked the workflow 8
    times and made 8 calls of the model. *)
Theorem undecodable_model_never_researches E stdin k :
  never_parsed E -> always_replies stdin ->
  (forall v msgs k',
      fst (invoke_from v E msgs k')
      = Ok (asked msgs "Could you provide more details?"))
  /\ run_complete_research E stdin k = (Ok (None, 8), k + 8).
Proof.
  intros Hnever Hrep.
  assert (Hask : always_asks E).
  { intros k0 p. destruct (Hnever k0 (full_prompt p CClarifyWithUser))
      as (response & Hg & Hp).
    exists (safe_default p CClarifyWithUser).
    rewrite get_structured_response_eq, Hg, Hp. now split. }
  split.
  - intros v msgs k'.
    destruct (Hnever k'
                (full_prompt
                   (clarify_prompt (conversation_of (messages (initial_state msgs))))
                   CClarifyWithUser)) as (response & Hg & Hp).
    assert (Hs : step v E (n_clarify_with_user, initial_state msgs, k')
                 = Some (END, asked msgs "Could you provide more details?",
                         S k')).
    { unfold step, run_node, clarify_with_user, bind, ret. cbn zeta.
      rewrite get_structured_response_eq, Hg, Hp. reflexivity. }
    unfold invoke_from. cbn [fst]. change recursion_limit with 25.
    rewrite (run_step _ _ _ _ _ _ _ Hs) by discriminate.
    cbn [fst snd]. now rewrite run_END.
  - now apply caller_gives_up.
Qed.

Lemma env_garbled_never_parsed : never_parsed Scenario.env_garbled.
Proof.
  intros k p. exists {| text := Ok "Sorry, I can not help with that." |}.
  split; reflexivity.
Qed.

Lemma undecodable_model_never_researches_witness :
  run_complete_research Scenario.env_garbled console_colorado 0
  = (Ok (None, 8), 8).
Proof.
  apply (proj2 (undecodable_model_never_researches Scenario.env_garbled
                  console_colorado 0 env_garbled_never_parsed
                  (fun i => eq_refl))).
Defined.

(** ** The stages on answers that cannot be decoded *)

(** X17. What the stages do with an answer of the model that cannot be
    decoded.  The planner goes on to the research with the whole text of
    its own prompt as research brief, the single query "general search"
    and the single topic "main topic"; the critic sends the draft to the
    finalizer without revision, whatever the revision counter. *)
Theorem stages_on_undecodable_answers v E state k :
  (forall r1 r2,
      generate_content E k
        (full_prompt (brief_prompt (conversation_of (messages state)))
           CResearchQuestion) = Ok r1 ->
      parse_response E CResearchQuestion r1 = None ->
      generate_content E (S k)
        (full_prompt
           (plan_prompt (brief_prompt (conversation_of (messages state))))
           CResearchPlan) = Ok r2 ->
      parse_response E CResearchPlan r2 = None ->
      exists cmd,
        planner_agent v E state k = (Ok cmd, S (S k))
        /\ goto cmd = n_researcher_agent
        /\ st_research_brief (apply_update (update cmd) state)
           = brief_prompt (conversation_of (messages state))
        /\ st_search_queries (apply_update (update cmd) state)
           = ["general search"]
        /\ st_key_topics (apply_update (update cmd) state) = ["main topic"])
  /\ (forall r,
        generate_content E k
          (full_prompt
             (critique_prompt (st_research_brief state) (draft_report state))
             CCritique) = Ok r ->
        parse_response E CCritique r = None ->
        exists cmd,
          critic_agent v E state k = (Ok cmd, S k)
          /\ goto cmd = n_finalizer
          /\ iteration_count (apply_update (update cmd) state)
             = iteration_count state
          /\ critique_feedback (apply_update (update cmd) state)
             = critique_feedback state).
Proof.
  split.
  - intros r1 r2 Hg1 Hp1 Hg2 Hp2.
    unfold planner_agent, bind, ret. cbn zeta.
    rewrite get_structured_response_eq, Hg1, Hp1.
    cbn [safe_default research_brief].
    rewrite get_structured_response_eq, Hg2, Hp2.
    eexists. split; [reflexivity|]. cbn [goto update safe_default
      search_queries key_topics research_brief].
    destruct v; repeat split.
  - intros r Hg Hp. rewrite critic_agent_eq, get_structured_response_eq, Hg, Hp.
    eexists. split; [reflexivity|]. unfold critic_command.
    cbn [safe_default needs_revision andb]. destruct v; repeat split.
Qed.

Lemma stages_on_undecodable_answers_witness :
  exists cmd,
    critic_agent Cli Scenario.env_garbled Scenario.drafted 6 = (Ok cmd, 7)
    /\ goto cmd = n_finalizer
    /\ iteration_count (apply_update (update cmd) Scenario.drafted)
       = iteration_count Scenario.drafted
    /\ critique_feedback (apply_update (update cmd) Scenario.drafted)
       = critique_feedback Scenario.drafted.
Proof.
  apply (proj2 (stages_on_undecodable_answers Cli Scenario.env_garbled
                  Scenario.drafted 6)
           {| text := Ok "Sorry, I can not help with that." |});
    reflexivity.
Defined.

(** ** The items of the page *)






(** ** The calls of a session *)

Lemma archive_calls E request k :
  (snd (archive E request k) <= S (S k))%nat.
Proof.
  unfold archive, try_except, bind, call, ret.
  destruct (notion_import E k); [|cbn; lia].
  change (try_except _ _ (S k)) with (create_research_page E request (S k)).
  rewrite create_research_page_eq.
  destruct (pages_create E (S k) request); cbn; lia.
Qed.

(** A node makes at most [node_calls] collaborator calls, whether it
    returns or raises. *)
Lemma run_node_calls v E n state k :
  (snd (run_node v E n state k) <= k + node_calls n state)%nat.
Proof.
  destruct n; cbn [run_node node_calls].
  - unfold clarify_with_user, bind, ret. cbn zeta.
    rewrite get_structured_response_eq.
    destruct (generate_content E k _); cbn [snd]; lia.
  - unfold planner_agent, bind, ret. cbn zeta.
    rewrite get_structured_response_eq.
    destruct (generate_content E k _); [|cbn [snd]; lia].
    rewrite get_structured_response_eq.
    destruct (generate_content E (S k) _); cbn [snd]; lia.
  - destruct (researcher_agent_eq v E state k) as (m & H). rewrite H.
    cbn [snd]. lia.
  - unfold synthesis_agent, bind, call, lift, ret. cbn zeta.
    destruct (generate_content E k _) as [r|]; [|cbn [snd]; lia].
    destruct (text r); cbn [snd]; lia.
  - destruct (writer_agent_total v E state k) as (t & H). rewrite H.
    cbn [snd]. lia.
  - rewrite critic_agent_eq.
    pose proof (get_structured_response_snd E
                  (critique_prompt (st_research_brief state) (draft_report state))
                  CCritique k) as Hk.
    destruct (get_structured_response E _ CCritique k) as [[c|e] k'];
      cbn [snd] in *; lia.
  - rewrite finalizer_eq. cbn zeta.
    pose proof (archive_calls E (archive_request E (now E k) state) k) as Hk.
    destruct (archive E (archive_request E (now E k) state) k) as [[s|e] k'];
      cbn [snd] in *; lia.
  - cbn. lia.
Qed.

Lemma step_calls v E n state k c' :
  step v E (n, state, k) = Some c' ->
  (snd c' <= k + node_calls n state)%nat.
Proof.
  unfold step. pose proof (run_node_calls v E n state k) as Hk.
  destruct (run_node v E n state k) as [[cmd|e] k']; [|discriminate].
  intros H; injection H as <-. exact Hk.
Qed.

Lemma run_calls_raise v E fuel n state k e :
  fst (run_node v E n state k) = Raise e ->
  n <> END ->
  (run_calls v E (S fuel) n state k <= k + node_calls n state)%nat.
Proof.
  intros H Hn. pose proof (run_node_calls v E n state k) as Hk.
  destruct n; try congruence; cbn [run_calls];
    match goal with
    | |- context [run_node v E ?n state k] =>
        destruct (run_node v E n state k) as [[cmd|e'] k']
    end; cbn [fst snd] in *; (discriminate || exact Hk).
Qed.

Lemma run_calls_from_critic v E :
  forall m state k fuel,
    Z.to_nat (MAX_ITERATIONS - iteration_count state) = m ->
    (2 * m + 2 <= fuel)%nat ->
    (run_calls v E fuel n_critic_agent state k <= k + 2 * m + 3)%nat.
Proof.
  induction m as [|m IH]; intros state k fuel Hm Hfuel; need_fuel fuel.
  - destruct (step_or_raise v E n_critic_agent state k) as [[c' Hs]|[e He]].
    + rewrite (run_calls_step _ _ _ _ _ _ _ Hs) by discriminate.
      pose proof (step_calls _ _ _ _ _ _ Hs) as Hk1. cbn [node_calls] in Hk1.
      destruct (step_critic _ _ _ _ _ Hs) as (critique & _ & Hcase).
      destruct Hcase as [(_ & Hlt & _)|(_ & Hgo & _)]; [lia|].
      rewrite Hgo. need_fuel fuel.
      destruct (step_exists_finalizer v E (snd (fst c')) (snd c'))
        as (c'' & Hs' & Hgo' & _).
      rewrite (run_calls_step _ _ _ _ _ _ _ Hs') by discriminate.
      pose proof (step_calls _ _ _ _ _ _ Hs') as Hk2. cbn [node_calls] in Hk2.
      rewrite Hgo', run_calls_END. lia.
    + pose proof (run_calls_raise v E fuel _ _ _ _ He) as H.
      cbn [node_calls] in H. specialize (H ltac:(discriminate)). lia.
  - destruct (step_or_raise v E n_critic_agent state k) as [[c' Hs]|[e He]].
    + rewrite (run_calls_step _ _ _ _ _ _ _ Hs) by discriminate.
      pose proof (step_calls _ _ _ _ _ _ Hs) as Hk1. cbn [node_calls] in Hk1.
      destruct (step_critic _ _ _ _ _ Hs) as (critique & _ & Hcase).
      destruct Hcase as [(_ & Hlt & Hgo & Hcount)|(_ & Hgo & _)].
      * rewrite Hgo. need_fuel fuel.
        destruct (step_exists_writer v E (snd (fst c')) (snd c')) as (c'' & Hs').
        rewrite (run_calls_step _ _ _ _ _ _ _ Hs') by discriminate.
        pose proof (step_calls _ _ _ _ _ _ Hs') as Hk2. cbn [node_calls] in Hk2.
        destruct (step_writer _ _ _ _ _ Hs') as (Hsame & Hgo').
        rewrite Hgo'. unfold same_count in Hsame.
        specialize (IH (snd (fst c'')) (snd c'') fuel).
        assert (Hm' : Z.to_nat (MAX_ITERATIONS - iteration_count (snd (fst c'')))
                      = m) by (rewrite Hsame, Hcount; lia).
        specialize (IH Hm' ltac:(lia)). lia.
      * rewrite Hgo. need_fuel fuel.
        destruct (step_exists_finalizer v E (snd (fst c')) (snd c'))
          as (c'' & Hs' & Hgo' & _).
        rewrite (run_calls_step _ _ _ _ _ _ _ Hs') by discriminate.
        pose proof (step_calls _ _ _ _ _ _ Hs') as Hk2. cbn [node_calls] in Hk2.
        rewrite Hgo', run_calls_END. lia.
    + pose proof (run_calls_raise v E fuel _ _ _ _ He) as H.
      cbn [node_calls] in H. specialize (H ltac:(discriminate)). lia.
Qed.

Lemma step_after_plan v E n state k c' :
  after_plan n = true ->
  step v E (n, state, k) = Some c' ->
  after_plan (fst (fst c')) = true.
Proof.
  intros Hlate Hs. destruct n; try discriminate.
  - destruct (step_researcher _ _ _ _ _ Hs) as [_ ->]. reflexivity.
  - destruct (step_synthesis _ _ _ _ _ Hs) as [_ ->]. reflexivity.
  - destruct (step_writer _ _ _ _ _ Hs) as [_ ->]. reflexivity.
  - destruct (step_critic _ _ _ _ _ Hs) as (c & _ & [(_ & _ & -> & _)|(_ & -> & _)]);
      reflexivity.
  - destruct (step_finalizer _ _ _ _ _ Hs) as [_ ->]. reflexivity.
  - inversion Hs; subst. reflexivity.
Qed.

(** After the planner nothing changes the planned queries. *)
Lemma run_keeps_queries v E fuel :
  forall n state k state',
    after_plan n = true ->
    fst (run v E fuel n state k) = Returned state' ->
    st_search_queries state' = st_search_queries state.
Proof.
  induction fuel as [|fuel IH]; intros n state k state' Hlate H.
  - destruct n; cbn in H; try discriminate. now injection H as <-.
  - assert (Hend : n = END \/ n <> END)
      by (destruct n; auto; right; discriminate).
    destruct Hend as [->|Hn]; [rewrite run_END in H; now injection H as <-|].
    destruct (step_or_raise v E n state k) as [[c' Hs]|[e He]];
      [|rewrite (run_raise _ _ _ _ _ _ _ He Hn) in H; discriminate].
    rewrite (run_step _ _ _ _ _ _ _ Hs Hn) in H. cbn [fst] in H.
    assert (Hw : writes v n key_search_queries = false)
      by (destruct n, v; try reflexivity; discriminate).
    pose proof (step_frame _ _ _ _ _ _ _ Hs Hw) as Hq. cbn [same_at] in Hq.
    rewrite <- Hq.
    exact (IH _ _ _ _ (step_after_plan _ _ _ _ _ _ Hlate Hs) H).
Qed.

Lemma run_calls_bound v E msgs fuel :
  (11 <= fuel)%nat ->
  match fst (run v E fuel n_clarify_with_user (initial_state msgs) 0) with
  | Returned state =>
      (run_calls v E fuel n_clarify_with_user (initial_state msgs) 0
       <= 12 + List.length (st_search_queries state))%nat
  | _ => True
  end.
Proof.
  intros Hfuel. need_fuel fuel.
  destruct (step_or_raise v E n_clarify_with_user (initial_state msgs) 0)
    as [[c1 H1]|[e He]];
    [|now rewrite (run_raise _ _ _ _ _ _ _ He) by discriminate].
  rewrite (run_step _ _ _ _ _ _ _ H1), (run_calls_step _ _ _ _ _ _ _ H1)
    by discriminate. cbn [fst].
  pose proof (step_calls _ _ _ _ _ _ H1) as K1. cbn [node_calls] in K1.
  destruct (step_clarify _ _ _ _ _ H1) as (Hc1 & [Hgo|Hgo]).
  { rewrite Hgo, run_END, run_calls_END. cbn [fst]. lia. }
  rewrite Hgo. need_fuel fuel.
  destruct (step_or_raise v E n_planner_agent (snd (fst c1)) (snd c1))
    as [[c2 H2]|[e He]];
    [|now rewrite (run_raise _ _ _ _ _ _ _ He) by discriminate].
  rewrite (run_step _ _ _ _ _ _ _ H2), (run_calls_step _ _ _ _ _ _ _ H2)
    by discriminate. cbn [fst].
  pose proof (step_calls _ _ _ _ _ _ H2) as K2. cbn [node_calls] in K2.
  destruct (step_planner _ _ _ _ _ H2) as (Hc2 & Hgo2). rewrite Hgo2.
  need_fuel fuel.
  destruct (step_exists_researcher v E (snd (fst c2)) (snd c2)) as (c3 & H3).
  rewrite (run_step _ _ _ _ _ _ _ H3), (run_calls_step _ _ _ _ _ _ _ H3)
    by discriminate. cbn [fst].
  pose proof (step_calls _ _ _ _ _ _ H3) as K3. cbn [node_calls] in K3.
  assert (Q3 : st_search_queries (snd (fst c3))
               = st_search_queries (snd (fst c2))).
  { apply (step_frame _ _ _ _ _ _ key_search_queries H3).
    destruct v; reflexivity. }
  destruct (step_researcher _ _ _ _ _ H3) as (Hc3 & Hgo3). rewrite Hgo3.
  need_fuel fuel.
  destruct (step_or_raise v E n_synthesis_agent (snd (fst c3)) (snd c3))
    as [[c4 H4]|[e He]];
    [|now rewrite (run_raise _ _ _ _ _ _ _ He) by discriminate].
  rewrite (run_step _ _ _ _ _ _ _ H4), (run_calls_step _ _ _ _ _ _ _ H4)
    by discriminate. cbn [fst].
  pose proof (step_calls _ _ _ _ _ _ H4) as K4. cbn [node_calls] in K4.
  assert (Q4 : st_search_queries (snd (fst c4))
               = st_search_queries (snd (fst c3))).
  { apply (step_frame _ _ _ _ _ _ key_search_queries H4).
    destruct v; reflexivity. }
  destruct (step_synthesis _ _ _ _ _ H4) as (Hc4 & Hgo4). rewrite Hgo4.
  need_fuel fuel.
  destruct (step_exists_writer v E (snd (fst c4)) (snd c4)) as (c5 & H5).
  rewrite (run_step _ _ _ _ _ _ _ H5), (run_calls_step _ _ _ _ _ _ _ H5)
    by discriminate. cbn [fst].
  pose proof (step_calls _ _ _ _ _ _ H5) as K5. cbn [node_calls] in K5.
  assert (Q5 : st_search_queries (snd (fst c5))
               = st_search_queries (snd (fst c4))).
  { apply (step_frame _ _ _ _ _ _ key_search_queries H5).
    destruct v; reflexivity. }
  destruct (step_writer _ _ _ _ _ H5) as (Hc5 & Hgo5). rewrite Hgo5.
  unfold same_count in *.
  pose proof (run_calls_from_critic v E 2 (snd (fst c5)) (snd c5) fuel) as K6.
  assert (H0 : Z.to_nat (MAX_ITERATIONS - iteration_count (snd (fst c5))) = 2)
    by (rewrite Hc5, Hc4, Hc3, Hc2, Hc1; reflexivity).
  specialize (K6 H0 ltac:(lia)).
  destruct (fst (run v E fuel n_critic_agent (snd (fst c5)) (snd c5)))
    as [state| |] eqn:Hr; try exact I.
  rewrite (run_keeps_queries v E fuel n_critic_agent _ _ _ eq_refl Hr).
  rewrite Q5, Q4, Q3. clear - K1 K2 K3 K4 K5 K6. lia.
Qed.

(** X19. A session is bounded in what it costs: when the workflow
    returns, it has made at most 12 collaborator calls plus one search
    call per planned query; a session that stops on a clarifying question
    has planned no query. *)
Theorem session_calls_are_bounded v E msgs :
  match workflow_invoke v E msgs with
  | Returned state =>
      (session_calls v E msgs <= 12 + List.length (st_search_queries state))%nat
  | _ => True
  end.
Proof.
  unfold workflow_invoke, workflow_trace, session_calls.
  apply run_calls_bound. unfold recursion_limit. lia.
Qed.

Lemma invoke_outcome_cases E r :
  invoke_outcome E r ->
  match r with
  | Returned state =>
      has_final_report state = true \/ awaits_clarification state = true
  | Raised e => exists k p, generation_raises E k p e
  | RecursionLimit => False
  end.
Proof. destruct r; intros H; exact H. Qed.

(** X20. What the caller of the workflow gets, whatever the collaborators
    do: a state with a final report, or a state whose last message is a
    question of the assistant and that holds no research brief, or an
    error, which is then an error raised by the text-generation
    collaborator.  Failures of the search and of the archive never reach
    the caller, and the recursion limit of the graph is never hit. *)
Theorem caller_gets_report_question_or_model_error v E msgs :
  match workflow_invoke v E msgs with
  | Returned state =>
      has_final_report state = true \/ awaits_clarification state = true
  | Raised e => exists k p, generation_raises E k p e
  | RecursionLimit => False
  end.
Proof.
  apply (invoke_outcome_cases E (workflow_invoke v E msgs)).
  unfold workflow_invoke, workflow_trace.
  apply run_from_start. unfold recursion_limit. lia.
Qed.

Lemma feedback_iff_revision_witness :
  let c := advance Cli Scenario.env_revise 6
             (n_clarify_with_user, initial_state Scenario.question, 0) in
  fst (fst c) = n_writer_agent
  /\ iteration_count (snd (fst c)) = 1%Z
  /\ truthy (critique_feedback (snd (fst c)))
     = (0 <? iteration_count (snd (fst c)))%Z.
Proof.
  cbn zeta. split; [vm_compute; reflexivity|]. split; [vm_compute; reflexivity|].
  apply (proj1 (feedback_iff_revision Cli Scenario.env_revise Scenario.question
                  (advance Cli Scenario.env_revise 6
                     (n_clarify_with_user, initial_state Scenario.question, 0))
                  (advance_reachable _ _ _ 6 _ (reach_start _ _ _)))).
Defined.
